(** * A shallow embedding of the chat room server, its client and the
      message helpers (server.py, client.py, utils.py)

    Python [str] values are sequences of Unicode code points; they are
    modelled as lists of integers.  Bytes on the wire are identified with
    the text they encode (UTF-8 is injective), except for byte strings
    that do not decode at all, which have a constructor of their own.

    The server is multi-threaded.  The model runs every method of the
    source as one uninterrupted call on an explicit server state: the
    connection objects live in a store and are shared by reference between
    the registry and the session that owns them, the two locks are flags
    of the state, exceptions are an outcome of the monad. *)

From Stdlib Require Import ZArith Lia Bool List String Ascii.
From stdpp Require Import base list.
Import ListNotations.

Local Open Scope Z_scope.

(** ** Python strings *)

Module Py.

Definition str := list Z.

(** An ASCII literal as a Python string. *)
Definition lit (s : string) : str :=
  map (fun a => Z.of_N (N_of_ascii a)) (list_ascii_of_string s).
Arguments lit s%_string.

Definition len (s : str) : Z := Z.of_nat (length s).

Fixpoint eqb (a b : str) : bool :=
  match a, b with
  | [], [] => true
  | x :: a', y :: b' => (x =? y) && eqb a' b'
  | _, _ => false
  end.

(** [str.isspace] for one code point: the white space of CPython's
    Unicode type database, which [str.strip] and the pattern [\s] share. *)
Definition isspace (c : Z) : bool :=
  ((9 <=? c) && (c <=? 13)) || ((28 <=? c) && (c <=? 32))
  || (c =? 133) || (c =? 160) || (c =? 5760)
  || ((8192 <=? c) && (c <=? 8202))
  || (c =? 8232) || (c =? 8233) || (c =? 8239) || (c =? 8287) || (c =? 12288).

Fixpoint lstrip (s : str) : str :=
  match s with
  | [] => []
  | c :: t => if isspace c then lstrip t else s
  end.

Fixpoint rstrip (s : str) : str :=
  match s with
  | [] => []
  | c :: t =>
      match rstrip t with
      | [] => if isspace c then [] else [c]
      | t' => c :: t'
      end
  end.

Definition strip (s : str) : str := rstrip (lstrip s).

(** [s.replace(a, b)] for one-character [a] and [b]. *)
Definition replace1 (a b : Z) (s : str) : str :=
  map (fun c => if c =? a then b else c) s.

(** [s[:n]], with Python's reading of a negative bound. *)
Definition slice_to (n : Z) (s : str) : str :=
  if n <? 0 then take (Z.to_nat (len s + n)) s else take (Z.to_nat n) s.

Fixpoint startswith (p s : str) : bool :=
  match p, s with
  | [], _ => true
  | x :: p', y :: s' => (x =? y) && startswith p' s'
  | _ :: _, [] => false
  end.

(** [sep.join(parts)] *)
Fixpoint join (sep : str) (parts : list str) : str :=
  match parts with
  | [] => []
  | [p] => p
  | p :: rest => p ++ sep ++ join sep rest
  end.

Definition digit (d : Z) : Z := 48 + d.

(** Decimal digits of a non-negative number, most significant first. *)
Fixpoint digits (fuel : nat) (n : Z) (acc : str) : str :=
  match fuel with
  | O => acc
  | S f => if n <? 10 then digit n :: acc
           else digits f (n / 10) (digit (n mod 10) :: acc)
  end.

(** [str(n)] for an integer. *)
Definition of_int (n : Z) : str :=
  if n <? 0 then 45 :: digits (S (Z.to_nat (Z.log2 (- n)))) (- n) []
  else digits (S (Z.to_nat (Z.log2 n))) n [].

(** A field of [strftime] that is zero-padded to [w] digits. *)
Definition padded (w : nat) (n : Z) : str :=
  let d := of_int n in
  repeat 48 (w - length d) ++ d.

End Py.

Abbreviation pystr := Py.str.

(** ** utils.py: the message helpers *)

Module UtilsConfig.
Definition MAX_MESSAGE_LENGTH : Z := 500.
Definition MAX_NICKNAME_LENGTH : Z := 20.
End UtilsConfig.

(** The class [[\x00-\x08\x0B\x0C\x0E-\x1F\x7F]] of [sanitize_input]. *)
Definition is_control (c : Z) : bool :=
  ((0 <=? c) && (c <=? 8)) || (c =? 11) || (c =? 12)
  || ((14 <=? c) && (c <=? 31)) || (c =? 127).

(** [re.sub(r'\s+', ' ', text)]: every maximal run of white space becomes
    one space.  [in_run] tells that the previous character was white. *)
Fixpoint collapse_ws (in_run : bool) (s : pystr) : pystr :=
  match s with
  | [] => []
  | c :: t =>
      if Py.isspace c
      then (if in_run then collapse_ws true t else 32 :: collapse_ws true t)
      else c :: collapse_ws false t
  end.

Definition sanitize_input (text : pystr) (max_length : option Z)
    (allow_newlines : bool) : pystr :=
  let text := Py.strip text in
  let text := if allow_newlines then text
              else Py.replace1 13 32 (Py.replace1 10 32 text) in
  let text := List.filter (fun c => negb (is_control c)) text in
  let text := collapse_ws false text in
  match max_length with
  | Some n =>
      if negb (n =? 0) && (n <? Py.len text)
      then Py.rstrip (Py.slice_to n text)
      else text
  | None => text
  end.

(** [datetime.now()], as the fields that the formats print. *)
Record datetime := {
  year : Z; month : Z; day : Z; hour : Z; minute : Z; second : Z
}.

(** [strftime("%H:%M:%S")] *)
Definition strftime_HMS (t : datetime) : pystr :=
  Py.padded 2 (hour t) ++ [58] ++ Py.padded 2 (minute t) ++ [58]
  ++ Py.padded 2 (second t).

(** [strftime("%Y-%m-%d %H:%M:%S")] *)
Definition strftime_full (t : datetime) : pystr :=
  Py.padded 4 (year t) ++ [45] ++ Py.padded 2 (month t) ++ [45]
  ++ Py.padded 2 (day t) ++ [32] ++ strftime_HMS t.

(** [format_message(sender, content)], the clock reading passed in. *)
Definition format_message (now : datetime) (sender content : pystr) : pystr :=
  let time_str := strftime_HMS now in
  let clean_sender :=
    sanitize_input sender (Some UtilsConfig.MAX_NICKNAME_LENGTH) false in
  let clean_content :=
    sanitize_input content (Some UtilsConfig.MAX_MESSAGE_LENGTH) false in
  [91] ++ time_str ++ [93; 32] ++ clean_sender ++ [58; 32] ++ clean_content.

(** ** Outcomes of a call: a value, a raised exception, or a call that
       never returns (a blocking read with nothing to come, a lock taken
       twice by one thread) *)

Inductive exn :=
| SocketTimeout          (* socket.timeout *)
| ConnectionResetError
| OtherOSError           (* any other OSError: closed socket, broken pipe *)
| UnicodeDecodeError.

Definition is_OSError (e : exn) : bool :=
  match e with
  | UnicodeDecodeError => false
  | _ => true
  end.

Inductive outcome (A : Type) :=
| Done (a : A)
| Raise (e : exn)
| Blocked.
Arguments Done {A} a.
Arguments Raise {A} e.
Arguments Blocked {A}.

(** A computation on a state [S]; the state it leaves is kept in every
    outcome, as the effects that came before an exception stay. *)
Definition M (S A : Type) : Type := S -> outcome A * S.

Definition ret {S A} (a : A) : M S A := fun s => (Done a, s).

Definition bind {S A B} (m : M S A) (k : A -> M S B) : M S B :=
  fun s =>
    match m s with
    | (Done a, s') => k a s'
    | (Raise e, s') => (Raise e, s')
    | (Blocked, s') => (Blocked, s')
    end.

Definition raise {S A} (e : exn) : M S A := fun s => (Raise e, s).
Definition block {S A} : M S A := fun s => (Blocked, s).
Definition get {S} : M S S := fun s => (Done s, s).
Definition gets {S A} (f : S -> A) : M S A := fun s => (Done (f s), s).
Definition modify {S} (f : S -> S) : M S unit := fun s => (Done tt, f s).

(** [try: m except <those e with sel e>: h e] *)
Definition try_except {S A} (m : M S A) (sel : exn -> bool) (h : exn -> M S A)
  : M S A :=
  fun s =>
    match m s with
    | (Raise e, s') => if sel e then h e s' else (Raise e, s')
    | r => r
    end.

(** [try: m finally: f] *)
Definition try_finally {S A} (m : M S A) (f : M S unit) : M S A :=
  fun s =>
    match m s with
    | (Done a, s') => bind f (fun _ => ret a) s'
    | (Raise e, s') => bind f (fun _ => raise e) s'
    | (Blocked, s') => (Blocked, s')
    end.

Declare Scope monad_scope.
Delimit Scope monad_scope with monad.
Notation "x <- m ;; k" := (bind m (fun x => k))
  (at level 100, m at next level, right associativity) : monad_scope.
Notation "m ;; k" := (bind m (fun _ => k))
  (at level 100, right associativity) : monad_scope.
Local Open Scope monad_scope.

Definition any_exn (_ : exn) : bool := true.

(** ** Sockets *)

(** What one [recv] returns. *)
Inductive bytes :=
| Utf8 (text : pystr)     (* the bytes that encode [text]; [Utf8 []] is b'' *)
| Undecodable.            (* bytes that are not valid UTF-8 *)

Inductive recv_event :=
| Arrives (data : bytes)
| ResetByPeer
| RecvFails.

Inductive send_event := Accepted | Refused.

(** A connected socket with the peer's future behaviour: what the coming
    reads return and whether the coming writes go through.  Once
    [send_script] is used up, writes go through; once [inbox] is used up,
    a read times out if a timeout is set and never returns otherwise. *)
Record tcp_socket := {
  inbox : list recv_event;
  send_script : list send_event;
  outbox : list pystr;
  timeout : option Z;
  closed : bool
}.

Definition decode (b : bytes) {S} : M S pystr :=
  match b with
  | Utf8 text => ret text
  | Undecodable => raise UnicodeDecodeError
  end.

Definition is_empty (b : bytes) : bool :=
  match b with
  | Utf8 [] => true
  | _ => false
  end.

Module Socket.

(** [sock.settimeout(t)]; on a socket that was closed the descriptor is
    gone and the call raises [OSError]. *)
Definition settimeout (t : option Z) : M tcp_socket unit :=
  fun k =>
    if closed k then (Raise OtherOSError, k)
    else (Done tt,
          {| inbox := inbox k; send_script := send_script k;
             outbox := outbox k; timeout := t; closed := closed k |}).

(** [sock.send(text.encode('utf-8'))]; [sendall] behaves the same here,
    a write is whole or fails. *)
Definition send (text : pystr) : M tcp_socket unit :=
  fun k =>
    if closed k then (Raise OtherOSError, k)
    else match send_script k with
         | Refused :: rest =>
             (Raise OtherOSError,
              {| inbox := inbox k; send_script := rest; outbox := outbox k;
                 timeout := timeout k; closed := closed k |})
         | Accepted :: rest =>
             (Done tt,
              {| inbox := inbox k; send_script := rest;
                 outbox := outbox k ++ [text];
                 timeout := timeout k; closed := closed k |})
         | [] =>
             (Done tt,
              {| inbox := inbox k; send_script := [];
                 outbox := outbox k ++ [text];
                 timeout := timeout k; closed := closed k |})
         end.

Definition recv : M tcp_socket bytes :=
  fun k =>
    if closed k then (Raise OtherOSError, k)
    else match inbox k with
         | ev :: rest =>
             let k' := {| inbox := rest; send_script := send_script k;
                          outbox := outbox k; timeout := timeout k;
                          closed := closed k |} in
             match ev with
             | Arrives data => (Done data, k')
             | ResetByPeer => (Raise ConnectionResetError, k')
             | RecvFails => (Raise OtherOSError, k')
             end
         | [] =>
             match timeout k with
             | Some _ => (Raise SocketTimeout, k)
             | None => (Blocked, k)
             end
         end.

Definition close : M tcp_socket unit :=
  modify (fun k => {| inbox := inbox k; send_script := send_script k;
                      outbox := outbox k; timeout := timeout k;
                      closed := true |}).

(** The next write on [k] goes through. *)
Definition writable (k : tcp_socket) : bool :=
  negb (closed k) &&
  match send_script k with
  | Refused :: _ => false
  | _ => true
  end.

End Socket.

(** Run a computation on a part of the state. *)
Definition focus {S T A} (proj : S -> T) (upd : T -> S -> S) (m : M T A)
  : M S A :=
  fun s => let (o, t') := m (proj s) in (o, upd t' s).

(** ** Python dictionaries with string keys: insertion-ordered, one entry
       per key *)

Module Dict.
Section Dict.
Context {V : Type}.

Definition t := list (pystr * V).

Fixpoint get (k : pystr) (d : t) : option V :=
  match d with
  | [] => None
  | (k', v) :: rest => if Py.eqb k' k then Some v else get k rest
  end.

Definition mem (k : pystr) (d : t) : bool :=
  match get k d with
  | Some _ => true
  | None => false
  end.

(** [d[k] = v]: a present key keeps its place. *)
Fixpoint set (k : pystr) (v : V) (d : t) : t :=
  match d with
  | [] => [(k, v)]
  | (k', v') :: rest =>
      if Py.eqb k' k then (k', v) :: rest else (k', v') :: set k v rest
  end.

(** [del d[k]] for a present key; nothing happens for an absent one, the
    callers test membership first. *)
Fixpoint del (k : pystr) (d : t) : t :=
  match d with
  | [] => []
  | (k', v') :: rest => if Py.eqb k' k then rest else (k', v') :: del k rest
  end.

Definition keys (d : t) : list pystr := map fst d.
Definition values (d : t) : list V := map snd d.

End Dict.
End Dict.

(** ** server.py *)

Module ServerConfig.
Definition DEFAULT_PORT : Z := 8888.
Definition MAX_CLIENTS : Z := 5.
Definition BUFFER_SIZE : Z := 1024.
Definition CONNECTION_TIMEOUT : Z := 30.
Definition MAX_MESSAGE_SIZE : Z := 500.
Definition MAX_PASSWORD_LENGTH : Z := 20.
End ServerConfig.

(** The texts of the server.  The Chinese texts and the emoji are given by
    their code points. *)
Module Text.
Definition PASSWORD_REQUEST := Py.lit "PASSWORD_REQUEST".
Definition AUTH_SUCCESS := Py.lit "AUTH_SUCCESS".
Definition AUTH_FAILED := Py.lit "AUTH_FAILED".
Definition SERVER_FULL := Py.lit "SERVER_FULL".
Definition NICKNAME_REQUEST := Py.lit "NICKNAME_REQUEST".
Definition User_ := Py.lit "User_".
Definition quit := Py.lit "/quit".
Definition help := Py.lit "/help".
Definition users := Py.lit "/users".
Definition time := Py.lit "/time".
Definition status := Py.lit "/status".
Definition kick_ := Py.lit "/kick ".
Definition slash := Py.lit "/".
Definition comma := Py.lit ", ".
(* "系统" *)
Definition system : pystr := [31995; 32479].
(* "服务器管理员" *)
Definition admin : pystr := [26381; 21153; 22120; 31649; 29702; 21592].
(* "🎉 欢迎 " ... " 加入聊天室!" *)
Definition welcome_pre : pystr := [127881; 32; 27426; 36814; 32].
Definition welcome_post : pystr := [32; 21152; 20837; 32842; 22825; 23460; 33].
(* "👥 当前在线用户: " *)
Definition roster_pre : pystr :=
  [128101; 32; 24403; 21069; 22312; 32447; 29992; 25143; 58; 32].
(* "👋 " ... " 离开了聊天室" *)
Definition leave_pre : pystr := [128075; 32].
Definition leave_post : pystr := [32; 31163; 24320; 20102; 32842; 22825; 23460].
(* "再见! 👋" *)
Definition bye : pystr := [20877; 35265; 33; 32; 128075].
(* the help listing of handle_command *)
Definition help_text : pystr :=
  [10; 128203; 32; 32842; 22825; 23460; 21629; 20196; 24110; 21161; 58; 10;
   47; 104; 101; 108; 112; 32; 45; 32; 26174; 31034; 27492; 24110; 21161;
   20449; 24687; 10;
   47; 113; 117; 105; 116; 32; 45; 32; 36864; 20986; 32842; 22825; 23460; 10;
   47; 117; 115; 101; 114; 115; 32; 45; 32; 26597; 30475; 22312; 32447;
   29992; 25143; 21015; 34920; 10;
   47; 116; 105; 109; 101; 32; 45; 32; 26174; 31034; 24403; 21069; 26102;
   38388; 10].
(* "👥 在线用户 (" ... "): " *)
Definition users_pre : pystr := [128101; 32; 22312; 32447; 29992; 25143; 32; 40].
Definition users_mid : pystr := [41; 58; 32].
(* "🕒 当前时间: " *)
Definition time_pre : pystr := [128338; 32; 24403; 21069; 26102; 38388; 58; 32].
(* "❓ 未知命令: " ... "，输入 /help 查看帮助" *)
Definition unknown_pre : pystr := [10067; 32; 26410; 30693; 21629; 20196; 58; 32].
Definition unknown_post : pystr :=
  [65292; 36755; 20837; 32; 47; 104; 101; 108; 112; 32; 26597; 30475; 24110;
   21161].
(* "你已被管理员踢出聊天室" *)
Definition kicked : pystr :=
  [20320; 24050; 34987; 31649; 29702; 21592; 36386; 20986; 32842; 22825;
   23460].
(* " 被管理员踢出聊天室" *)
Definition kick_post : pystr :=
  [32; 34987; 31649; 29702; 21592; 36386; 20986; 32842; 22825; 23460].
(* "🛑 服务器即将关闭，感谢使用！" *)
Definition closing : pystr :=
  [128721; 32; 26381; 21153; 22120; 21363; 23558; 20851; 38381; 65292; 24863;
   35874; 20351; 29992; 65281].
End Text.

(** [str.isalnum] on ASCII; what the Unicode database says of the other
    code points is a parameter of the server ([isalnum_ext] below). *)
Definition ascii_isalnum (c : Z) : bool :=
  ((48 <=? c) && (c <=? 57)) || ((65 <=? c) && (c <=? 90))
  || ((97 <=? c) && (c <=? 122)).

Inductive loop_ctl := Continue | Break.

(** Where the thread of a session stands in [handle_client]. *)
Inductive session_pc :=
| NotStarted    (* the thread is not created yet *)
| Starting      (* before the welcome *)
| LoopHead      (* about to test the loop condition *)
| InRecv        (* the condition held, waiting in recv *)
| Finished      (* the finally block has run *)
| Stuck.        (* in a call that never returns *)

Module Server.

Record ClientConnection := {
  socket : tcp_socket;
  address : pystr * Z;
  nickname : pystr;
  connected_time : datetime;
  last_activity : datetime;
  is_active : bool
}.

Definition set_socket (k : tcp_socket) (c : ClientConnection) :=
  {| socket := k; address := address c; nickname := nickname c;
     connected_time := connected_time c; last_activity := last_activity c;
     is_active := is_active c |}.
Definition set_last_activity (t : datetime) (c : ClientConnection) :=
  {| socket := socket c; address := address c; nickname := nickname c;
     connected_time := connected_time c; last_activity := t;
     is_active := is_active c |}.
Definition set_is_active (b : bool) (c : ClientConnection) :=
  {| socket := socket c; address := address c; nickname := nickname c;
     connected_time := connected_time c; last_activity := last_activity c;
     is_active := b |}.

Definition on_socket {A} (m : M tcp_socket A) : M ClientConnection A :=
  focus socket set_socket m.

(** [ClientConnection(socket_obj, address, nickname)] *)
Definition new_ClientConnection (now : datetime) (socket_obj : tcp_socket)
    (addr : pystr * Z) (nick : pystr) : ClientConnection :=
  {| socket := socket_obj; address := addr;
     nickname := match nick with
                 | [] => Text.User_ ++ Py.of_int (snd addr)
                 | _ => nick
                 end;
     connected_time := now; last_activity := now; is_active := true |}.

(** [ClientConnection.send_message] *)
Definition send_message (now : datetime) (message : pystr)
  : M ClientConnection bool :=
  try_except
    (on_socket (Socket.send message) ;;
     modify (set_last_activity now) ;;
     ret true)
    any_exn
    (fun _ => modify (set_is_active false) ;; ret false).

(** [ClientConnection.close] *)
Definition close : M ClientConnection unit :=
  try_except
    (modify (set_is_active false) ;; on_socket Socket.close)
    any_exn
    (fun _ => ret tt).

(** The server object, the connection objects it refers to, the threads of
    the sessions and the two clocks it reads. *)
Record ChatServer := {
  clients : list (pystr * nat);       (* client id -> connection object *)
  room_password : pystr;
  is_running : bool;
  message_lock : bool;
  clients_lock : bool;
  store : list ClientConnection;      (* the connection objects *)
  threads : list session_pc;          (* the session thread of each object *)
  accepting : bool;                   (* the acceptor loop is still going *)
  now : datetime;                     (* datetime.now() *)
  time : Z                            (* int(time.time()) *)
}.

Definition set_clients (d : list (pystr * nat)) (s : ChatServer) :=
  {| clients := d; room_password := room_password s;
     is_running := is_running s; message_lock := message_lock s;
     clients_lock := clients_lock s; store := store s; threads := threads s;
     accepting := accepting s; now := now s; time := time s |}.
Definition set_is_running (b : bool) (s : ChatServer) :=
  {| clients := clients s; room_password := room_password s;
     is_running := b; message_lock := message_lock s;
     clients_lock := clients_lock s; store := store s; threads := threads s;
     accepting := accepting s; now := now s; time := time s |}.
Definition set_message_lock (b : bool) (s : ChatServer) :=
  {| clients := clients s; room_password := room_password s;
     is_running := is_running s; message_lock := b;
     clients_lock := clients_lock s; store := store s; threads := threads s;
     accepting := accepting s; now := now s; time := time s |}.
Definition set_clients_lock (b : bool) (s : ChatServer) :=
  {| clients := clients s; room_password := room_password s;
     is_running := is_running s; message_lock := message_lock s;
     clients_lock := b; store := store s; threads := threads s;
     accepting := accepting s; now := now s; time := time s |}.
Definition set_store (h : list ClientConnection) (s : ChatServer) :=
  {| clients := clients s; room_password := room_password s;
     is_running := is_running s; message_lock := message_lock s;
     clients_lock := clients_lock s; store := h; threads := threads s;
     accepting := accepting s; now := now s; time := time s |}.
Definition set_threads (t : list session_pc) (s : ChatServer) :=
  {| clients := clients s; room_password := room_password s;
     is_running := is_running s; message_lock := message_lock s;
     clients_lock := clients_lock s; store := store s; threads := t;
     accepting := accepting s; now := now s; time := time s |}.
Definition set_accepting (b : bool) (s : ChatServer) :=
  {| clients := clients s; room_password := room_password s;
     is_running := is_running s; message_lock := message_lock s;
     clients_lock := clients_lock s; store := store s; threads := threads s;
     accepting := b; now := now s; time := time s |}.
Definition set_clock (n : datetime) (t : Z) (s : ChatServer) :=
  {| clients := clients s; room_password := room_password s;
     is_running := is_running s; message_lock := message_lock s;
     clients_lock := clients_lock s; store := store s; threads := threads s;
     accepting := accepting s; now := n; time := t |}.

(** [with lock: body].  A lock that is already held is never released in a
    call that runs alone, so taking it again does not return. *)
Definition with_lock {A} (held : ChatServer -> bool)
    (set : bool -> ChatServer -> ChatServer) (body : M ChatServer A)
  : M ChatServer A :=
  fun s =>
    if held s then (Blocked, s)
    else try_finally body (modify (set false)) (set true s).

(** Run a method of the connection object [r].  References are made by
    [accept_connections] only and are never dangling; for one that is,
    the call does not return. *)
Definition on_conn {A} (r : nat) (m : M ClientConnection A) : M ChatServer A :=
  fun s =>
    match store s !! r with
    | Some c => let (o, c') := m c in (o, set_store (<[r := c']> (store s)) s)
    | None => (Blocked, s)
    end.

Definition deref (r : nat) : M ChatServer ClientConnection :=
  on_conn r get.

(** [f"{address[0]}:{address[1]}"] *)
Definition client_id_of (addr : pystr * Z) : pystr :=
  fst addr ++ [58] ++ Py.of_int (snd addr).

(** [ChatServer.remove_client] *)
Definition remove_client (client_id : pystr) : M ChatServer unit :=
  with_lock clients_lock set_clients_lock
    (s <- get ;;
     if Dict.mem client_id (clients s)
     then modify (set_clients (Dict.del client_id (clients s)))
     else ret tt).

(** The first loop of [broadcast_message]. *)
Fixpoint broadcast_loop (formatted_message exclude_client : pystr)
    (items : list (pystr * nat)) (clients_to_remove : list pystr)
  : M ChatServer (list pystr) :=
  match items with
  | [] => ret clients_to_remove
  | (client_id, client_conn) :: rest =>
      if Py.eqb client_id exclude_client
      then broadcast_loop formatted_message exclude_client rest
             clients_to_remove
      else
        c <- deref client_conn ;;
        if negb (is_active c)
        then broadcast_loop formatted_message exclude_client rest
               (clients_to_remove ++ [client_id])
        else
          t <- gets now ;;
          sent <- on_conn client_conn (send_message t formatted_message) ;;
          if negb sent
          then broadcast_loop formatted_message exclude_client rest
                 (clients_to_remove ++ [client_id])
          else broadcast_loop formatted_message exclude_client rest
                 clients_to_remove
  end.

Fixpoint remove_all (ids : list pystr) : M ChatServer unit :=
  match ids with
  | [] => ret tt
  | client_id :: rest => remove_client client_id ;; remove_all rest
  end.

(** [ChatServer.broadcast_message] *)
Definition broadcast_message (sender message exclude_client : pystr)
  : M ChatServer unit :=
  s <- get ;;
  match clients s with
  | [] => ret tt
  | _ =>
      let formatted_message := format_message (now s) sender message in
      with_lock message_lock set_message_lock
        (items <- gets clients ;;
         clients_to_remove <-
           broadcast_loop formatted_message exclude_client items [] ;;
         remove_all clients_to_remove)
  end.

(** [[client.nickname for client in self.clients.values() if client.is_active]] *)
Fixpoint online_users (values : list nat) : M ChatServer (list pystr) :=
  match values with
  | [] => ret []
  | r :: rest =>
      c <- deref r ;;
      names <- online_users rest ;;
      ret (if is_active c then nickname c :: names else names)
  end.

(** [ChatServer.handle_command] *)
Definition handle_command (client_connection : nat) (command : pystr)
  : M ChatServer unit :=
  try_except
    (t <- gets now ;;
     if Py.eqb command Text.quit then
       on_conn client_connection
         (send_message t (format_message t Text.system Text.bye)) ;;
       on_conn client_connection (modify (set_is_active false))
     else if Py.eqb command Text.help then
       on_conn client_connection (send_message t Text.help_text) ;;
       ret tt
     else if Py.eqb command Text.users then
       names <- with_lock clients_lock set_clients_lock
                  (s <- get ;; online_users (Dict.values (clients s))) ;;
       let users_text :=
         Text.users_pre ++ Py.of_int (Z.of_nat (length names)) ++ Text.users_mid
         ++ Py.join Text.comma names in
       on_conn client_connection
         (send_message t (format_message t Text.system users_text)) ;;
       ret tt
     else if Py.eqb command Text.time then
       on_conn client_connection
         (send_message t
            (format_message t Text.system (Text.time_pre ++ strftime_full t))) ;;
       ret tt
     else
       on_conn client_connection
         (send_message t
            (format_message t Text.system
               (Text.unknown_pre ++ command ++ Text.unknown_post))) ;;
       ret tt)
    any_exn
    (fun _ => ret tt).

(** [ChatServer.authenticate_client], on the socket of the newcomer. *)
Definition authenticate_client (room_password : pystr) : M tcp_socket bool :=
  try_finally
    (try_except
       (Socket.settimeout (Some 30) ;;
        Socket.send Text.PASSWORD_REQUEST ;;
        password_data <- Socket.recv ;;
        text <- decode password_data ;;
        let client_password := Py.strip text in
        if Py.eqb client_password room_password
        then Socket.send Text.AUTH_SUCCESS ;; ret true
        else Socket.send Text.AUTH_FAILED ;; ret false)
       any_exn
       (fun _ => ret false))
    (Socket.settimeout None).

Section Unicode.

(** [str.isalnum] of the code points above ASCII, as the interpreter's
    Unicode database has it. *)
Variable isalnum_ext : Z -> bool.

Definition isalnum_char (c : Z) : bool :=
  if c <? 128 then ascii_isalnum c else isalnum_ext c.

(** [str.isalnum]: false on the empty string. *)
Definition isalnum (s : pystr) : bool :=
  match s with
  | [] => false
  | _ => forallb isalnum_char s
  end.

(** [ChatServer.get_client_nickname]; [time] is [int(time.time())]. *)
Definition get_client_nickname (time : Z) : M tcp_socket pystr :=
  try_except
    (Socket.send Text.NICKNAME_REQUEST ;;
     nickname_data <- Socket.recv ;;
     text <- decode nickname_data ;;
     let nickname := Py.strip text in
     if negb (Py.eqb nickname []) && (Py.len nickname <=? 20)
        && isalnum nickname
     then ret nickname
     else ret (Text.User_ ++ Py.of_int (time mod 10000)))
    any_exn
    (fun _ => ret (Text.User_ ++ Py.of_int (time mod 10000))).

(** The part of [handle_client] before the loop. *)
Definition handle_client_welcome (client_connection : nat)
  : M ChatServer unit :=
  c <- deref client_connection ;;
  let client_id := client_id_of (address c) in
  broadcast_message Text.system
    (Text.welcome_pre ++ nickname c ++ Text.welcome_post) client_id ;;
  s <- get ;;
  names <- online_users (Dict.values (clients s)) ;;
  let users_msg := Text.roster_pre ++ Py.join Text.comma names in
  on_conn client_connection
    (send_message (now s) (format_message (now s) Text.system users_msg)) ;;
  ret tt.

(** The loop condition of [handle_client]. *)
Definition handle_client_condition (client_connection : nat)
  : M ChatServer bool :=
  c <- deref client_connection ;;
  s <- get ;;
  ret (is_active c && is_running s).

(** One pass of the body of the loop of [handle_client], from [recv] on. *)
Definition handle_client_pass (client_connection : nat)
  : M ChatServer loop_ctl :=
  try_except
    (data <- on_conn client_connection (on_socket Socket.recv) ;;
     if is_empty data then ret Break
     else
       text <- decode data ;;
       let message := Py.strip text in
       match message with
       | [] => ret Continue
       | _ =>
           c <- deref client_connection ;;
           (if Py.startswith Text.slash message
            then handle_command client_connection message
            else broadcast_message (nickname c) message
                   (client_id_of (address c))) ;;
           t <- gets now ;;
           on_conn client_connection (modify (set_last_activity t)) ;;
           ret Continue
       end)
    any_exn
    (fun e =>
       match e with
       | SocketTimeout => ret Continue
       | ConnectionResetError => ret Break
       | _ => ret Break
       end).

(** The [finally] block of [handle_client]. *)
Definition handle_client_finally (client_connection : nat)
  : M ChatServer unit :=
  c <- deref client_connection ;;
  remove_client (client_id_of (address c)) ;;
  on_conn client_connection close ;;
  broadcast_message Text.system
    (Text.leave_pre ++ nickname c ++ Text.leave_post) [].

(** [ChatServer.kick_user]: the loop over the registry. *)
Fixpoint kick_loop (username : pystr) (items : list (pystr * nat))
  : M ChatServer unit :=
  match items with
  | [] => ret tt
  | (client_id, client_conn) :: rest =>
      c <- deref client_conn ;;
      if Py.eqb (nickname c) username && is_active c
      then
        t <- gets now ;;
        on_conn client_conn
          (send_message t (format_message t Text.system Text.kicked)) ;;
        on_conn client_conn (modify (set_is_active false)) ;;
        broadcast_message Text.system (username ++ Text.kick_post) client_id
      else kick_loop username rest
  end.

Definition kick_user (username : pystr) : M ChatServer unit :=
  with_lock clients_lock set_clients_lock
    (s <- get ;; kick_loop username (clients s)).

Fixpoint close_all (values : list nat) : M ChatServer unit :=
  match values with
  | [] => ret tt
  | r :: rest => on_conn r close ;; close_all rest
  end.

(** [ChatServer.shutdown] *)
Definition shutdown : M ChatServer unit :=
  modify (set_is_running false) ;;
  broadcast_message Text.system Text.closing [] ;;
  with_lock clients_lock set_clients_lock
    (s <- get ;;
     close_all (Dict.values (clients s)) ;;
     modify (set_clients [])).

(** What the operator's console reads. *)
Inductive console_event :=
| Typed (line : pystr)
| Interrupt      (* KeyboardInterrupt *)
| EndOfInput.    (* EOFError *)

(** One pass of the loop of [server_input_handler]. *)
Definition server_input_handler_pass (ev : console_event)
  : M ChatServer loop_ctl :=
  match ev with
  | Typed line =>
      try_except
        (let server_input := Py.strip line in
         match server_input with
         | [] => ret Continue
         | _ =>
             if Py.eqb server_input Text.quit then shutdown ;; ret Break
             else if Py.eqb server_input Text.help then ret Continue
             else if Py.eqb server_input Text.status then ret Continue
             else if Py.eqb server_input Text.users then ret Continue
             else if Py.startswith Text.kick_ server_input then
               kick_user (Py.strip (drop 6 server_input)) ;; ret Continue
             else
               broadcast_message Text.admin server_input [] ;; ret Continue
         end)
        any_exn
        (fun _ => ret Continue)
  | Interrupt => shutdown ;; ret Break
  | EndOfInput => shutdown ;; ret Break
  end.

(** A new connection object; its session thread is not created yet. *)
Definition allocate (c : ClientConnection) : M ChatServer nat :=
  fun s =>
    (Done (length (store s)),
     set_threads (threads s ++ [NotStarted]) (set_store (store s ++ [c]) s)).

Definition set_pc (r : nat) (pc : session_pc) : M ChatServer unit :=
  modify (fun s => set_threads (<[r := pc]> (threads s)) s).

(** [threading.Thread(target=self.handle_client, ...).start()] *)
Definition start_thread (r : nat) : M ChatServer unit := set_pc r Starting.

(** The acceptor works on the server and on the socket it has accepted. *)
Definition in_server {A} (m : M ChatServer A) : M (ChatServer * tcp_socket) A :=
  focus fst (fun s p => (s, snd p)) m.
Definition in_socket {A} (m : M tcp_socket A) : M (ChatServer * tcp_socket) A :=
  focus snd (fun k p => (fst p, k)) m.

(** One pass of the loop of [accept_connections], [accept()] having
    returned the socket in the state and [client_address]. *)
Definition accept_connections_pass (client_address : pystr * Z)
  : M (ChatServer * tcp_socket) loop_ctl :=
  try_except
    (s <- in_server get ;;
     if ServerConfig.MAX_CLIENTS <=? Z.of_nat (length (clients s)) then
       in_socket (Socket.send Text.SERVER_FULL) ;;
       in_socket Socket.close ;;
       ret Continue
     else
       authenticated <- in_socket (authenticate_client (room_password s)) ;;
       if negb authenticated then
         in_socket Socket.close ;;
         ret Continue
       else
         nickname <- in_socket (get_client_nickname (time s)) ;;
         client_socket <- in_socket get ;;
         let client_connection :=
           new_ClientConnection (now s) client_socket client_address nickname in
         let client_id := client_id_of client_address in
         in_server
           (r <- allocate client_connection ;;
            with_lock clients_lock set_clients_lock
              (s' <- get ;;
               modify (set_clients (Dict.set client_id r (clients s')))) ;;
            start_thread r) ;;
         ret Continue)
    any_exn
    (fun _ => ret Break).

(** ** The server as a transition system: which thread moves next *)

Inductive event :=
| Connect (client_socket : tcp_socket) (client_address : pystr * Z)
| Session (client_connection : nat)
| Console (ev : console_event)
| Clock (now : datetime) (time : Z).

(** The end of [handle_client]: the [finally] block, once. *)
Definition finish_session (r : nat) : ChatServer -> ChatServer :=
  fun s =>
    match handle_client_finally r s with
    | (Blocked, s') => snd (set_pc r Stuck s')
    | (_, s') => snd (set_pc r Finished s')
    end.

Definition session_step (r : nat) (s : ChatServer) : ChatServer :=
  match threads s !! r with
  | Some Starting =>
      match handle_client_welcome r s with
      | (Done _, s') => snd (set_pc r LoopHead s')
      | (Raise _, s') => finish_session r s'
      | (Blocked, s') => snd (set_pc r Stuck s')
      end
  | Some LoopHead =>
      match handle_client_condition r s with
      | (Done true, s') => snd (set_pc r InRecv s')
      | (Done false, s') => finish_session r s'
      | (Raise _, s') => finish_session r s'
      | (Blocked, s') => snd (set_pc r Stuck s')
      end
  | Some InRecv =>
      match handle_client_pass r s with
      | (Done Continue, s') => snd (set_pc r LoopHead s')
      | (Done Break, s') => finish_session r s'
      | (Raise _, s') => finish_session r s'
      | (Blocked, s') => snd (set_pc r Stuck s')
      end
  | _ => s
  end.

Definition step (ev : event) (s : ChatServer) : ChatServer :=
  match ev with
  | Connect client_socket client_address =>
      if accepting s && is_running s then
        match accept_connections_pass client_address (s, client_socket) with
        | (Done Continue, (s', _)) => s'
        | (_, (s', _)) => set_accepting false s'
        end
      else s
  | Session r => session_step r s
  | Console c =>
      if is_running s then snd (server_input_handler_pass c s) else s
  | Clock n t => set_clock n t s
  end.

Definition run (evs : list event) (s : ChatServer) : ChatServer :=
  fold_left (fun s ev => step ev s) evs s.

(** [ChatServer()], with the password that [setup_server] has read. *)
Definition initial (password : pystr) (n : datetime) (t : Z) : ChatServer :=
  {| clients := []; room_password := password; is_running := true;
     message_lock := false; clients_lock := false; store := [];
     threads := []; accepting := true; now := n; time := t |}.

End Unicode.

End Server.

(** ** client.py *)

Module ClientConfig.
Definition BUFFER_SIZE : Z := 1024.
Definition MAX_MESSAGE_SIZE : Z := 500.
Definition MAX_NICKNAME_LENGTH : Z := 20.
End ClientConfig.

(** What [input()] gives the interactive loop. *)
Inductive input_event :=
| Line (text : pystr)
| KeyboardInterrupt
| EOFError.

Module Client.

Record ChatClient := {
  client_socket : option tcp_socket;
  is_connected : bool;
  is_running : bool;
  current_input_buffer : pystr
}.

Definition set_client_socket (k : option tcp_socket) (c : ChatClient) :=
  {| client_socket := k; is_connected := is_connected c;
     is_running := is_running c;
     current_input_buffer := current_input_buffer c |}.
Definition set_is_connected (b : bool) (c : ChatClient) :=
  {| client_socket := client_socket c; is_connected := b;
     is_running := is_running c;
     current_input_buffer := current_input_buffer c |}.
Definition set_is_running (b : bool) (c : ChatClient) :=
  {| client_socket := client_socket c; is_connected := is_connected c;
     is_running := b;
     current_input_buffer := current_input_buffer c |}.
Definition set_current_input_buffer (b : pystr) (c : ChatClient) :=
  {| client_socket := client_socket c; is_connected := is_connected c;
     is_running := is_running c; current_input_buffer := b |}.

(** A method of [self.client_socket], which the caller has found set. *)
Definition on_client_socket {A} (m : M tcp_socket A) : M ChatClient A :=
  fun c =>
    match client_socket c with
    | Some k => let (o, k') := m k in (o, set_client_socket (Some k') c)
    | None => (Blocked, c)
    end.

(** [ChatClient.send_message] *)
Definition send_message (message : pystr) : M ChatClient bool :=
  try_except
    (c <- get ;;
     if negb (is_connected c)
        || match client_socket c with None => true | Some _ => false end
     then ret false
     else if ClientConfig.MAX_MESSAGE_SIZE <? Py.len message
     then ret false
     else on_client_socket (Socket.send message) ;; ret true)
    any_exn
    (fun _ => modify (set_is_connected false) ;; ret false).

Section Unicode.

(** [str.lower] of the code points above ASCII, as the interpreter's
    Unicode database has it (one code point may become several). *)
Variable lower_ext : Z -> pystr.

Definition lower_char (c : Z) : pystr :=
  if c <? 128
  then (if (65 <=? c) && (c <=? 90) then [c + 32] else [c])
  else lower_ext c.

(** [str.lower] *)
Definition lower (s : pystr) : pystr := flat_map lower_char s.

Definition among (s : pystr) (options : list pystr) : bool :=
  existsb (Py.eqb s) options.

(** The loop of [ChatClient.handle_user_input] on what the user types;
    the result is what was left unread when the loop ended. *)
Fixpoint handle_user_input (inputs : list input_event)
  : M ChatClient (list input_event) :=
  fun c =>
    if negb (is_running c && is_connected c) then (Done inputs, c)
    else
      match inputs with
      | [] => (Blocked, c)
      | Line text :: rest =>
          let user_input := Py.strip text in
          match user_input with
          | [] => handle_user_input rest c
          | _ =>
              if among (lower user_input)
                   [Py.lit "/quit"; Py.lit "/exit"; Py.lit "/q"]
              then (send_message (Py.lit "/quit") ;; ret rest) c
              else if Py.eqb (lower user_input) (Py.lit "/help")
              then handle_user_input rest c
              else if among (lower user_input)
                        [Py.lit "/clear"; Py.lit "/cls"]
              then handle_user_input rest c
              else if Py.eqb (lower user_input) (Py.lit "/time")
              then handle_user_input rest c
              else
                match send_message user_input c with
                | (Done true, c') =>
                    handle_user_input rest (set_current_input_buffer [] c')
                | (Done false, c') => (Done rest, c')
                | (Raise _, c') => (Done rest, c')
                | (Blocked, c') => (Blocked, c')
                end
          end
      | KeyboardInterrupt :: rest => (send_message (Py.lit "/quit") ;; ret rest) c
      | EOFError :: rest => (send_message (Py.lit "/quit") ;; ret rest) c
      end.

(** [ChatClient.disconnect] *)
Definition disconnect : M ChatClient unit :=
  modify (set_is_running false) ;;
  modify (set_is_connected false) ;;
  c <- get ;;
  match client_socket c with
  | Some k =>
      try_except (on_client_socket Socket.close) any_exn (fun _ => ret tt) ;;
      modify (set_client_socket None)
  | None => ret tt
  end.

(** [ChatClient.run] from the start of the chat on, the handshake done. *)
Definition run_chat (inputs : list input_event)
  : M ChatClient (list input_event) :=
  try_finally
    (modify (set_is_running true) ;; handle_user_input inputs)
    disconnect.

End Unicode.

End Client.

(** ** utils.py: the other helpers *)

Module Utils.

Definition PORT_RANGE_MIN : Z := 1024.
Definition PORT_RANGE_MAX : Z := 65535.
Definition MAX_PASSWORD_LENGTH : Z := 50.

(** [truncate_message(message, max_length)] *)
Definition truncate_message (message : pystr) (max_length : Z) : pystr :=
  if Py.len message <=? max_length then message
  else Py.slice_to (max_length - 3) message ++ Py.lit "...".

(** [s.lstrip(chars)], [s.rstrip(chars)] and [s.strip(chars)] *)
Definition among_chars (chars : pystr) (c : Z) : bool :=
  existsb (Z.eqb c) chars.

Fixpoint lstrip_chars (chars s : pystr) : pystr :=
  match s with
  | [] => []
  | c :: t => if among_chars chars c then lstrip_chars chars t else s
  end.

Fixpoint rstrip_chars (chars s : pystr) : pystr :=
  match s with
  | [] => []
  | c :: t =>
      match rstrip_chars chars t with
      | [] => if among_chars chars c then [] else [c]
      | t' => c :: t'
      end
  end.

Definition strip_chars (chars s : pystr) : pystr :=
  rstrip_chars chars (lstrip_chars chars s).

(** The characters that [sanitize_filename] replaces: less-than,
    greater-than, colon, double quote, slash, backslash, bar, question mark
    and asterisk. *)
Definition unsafe_chars : pystr := [60; 62; 58; 34; 47; 92; 124; 63; 42].

(** [sanitize_filename(filename)] *)
Definition sanitize_filename (filename : pystr) : pystr :=
  let filename :=
    fold_left (fun name char => Py.replace1 char 95 name) unsafe_chars
      filename in
  let filename := strip_chars [46; 32] filename in
  match filename with
  | [] => Py.lit "unnamed"
  | _ => filename
  end.

(** The loop of [get_free_port]; [check_port_available] asks the network
    and is a parameter. *)
Fixpoint get_free_port_from (check_port_available : Z -> bool) (port : Z)
    (attempts : nat) : option Z :=
  match attempts with
  | O => None
  | S n =>
      if PORT_RANGE_MAX <? port then None
      else if check_port_available port then Some port
      else get_free_port_from check_port_available (port + 1) n
  end.

(** [get_free_port(start_port, max_attempts)] *)
Definition get_free_port (check_port_available : Z -> bool)
    (start_port max_attempts : Z) : option Z :=
  get_free_port_from check_port_available start_port (Z.to_nat max_attempts).

Section Digits.

(** The pattern [\d] of the code points above ASCII: the decimal digits of
    the interpreter's Unicode database. *)
Variable digit_ext : Z -> bool.

Definition is_digit (c : Z) : bool :=
  if c <? 128 then (48 <=? c) && (c <=? 57) else digit_ext c.

(** The tail [(.+)$] of the pattern: one character or more, none of them
    a line feed, up to the end of the text or to a line feed that ends it.
    The result is the group. *)
Definition dot_plus_end (s : pystr) : option pystr :=
  let body := match rev s with
              | c :: front => if c =? 10 then rev front else s
              | [] => s
              end in
  match body with
  | [] => None
  | _ => if forallb (fun c => negb (c =? 10)) body then Some body else None
  end.

(** The longest prefix without a colon: what [[^:]+] takes. *)
Fixpoint up_to_colon (s : pystr) : pystr :=
  match s with
  | [] => []
  | c :: t => if c =? 58 then [] else c :: up_to_colon t
  end.

(** [parse_message(formatted_message)]: the pattern
    [^\[(\d{2}:\d{2}:\d{2})\] ([^:]+): (.+)$] on the stripped text; the
    result is (timestamp, sender, content). *)
Definition parse_message (formatted_message : pystr)
  : option (pystr * pystr * pystr) :=
  match Py.strip formatted_message with
  | b1 :: h1 :: h2 :: c1 :: m1 :: m2 :: c2 :: s1 :: s2 :: b2 :: sp :: rest =>
      if (b1 =? 91) && forallb is_digit [h1; h2; m1; m2; s1; s2]
         && (c1 =? 58) && (c2 =? 58) && (b2 =? 93) && (sp =? 32)
      then
        let sender := up_to_colon rest in
        match sender, drop (length sender) rest with
        | _ :: _, c3 :: sp' :: tail =>
            if (c3 =? 58) && (sp' =? 32) then
              match dot_plus_end tail with
              | Some content =>
                  Some ([h1; h2; 58; m1; m2; 58; s1; s2],
                        Py.strip sender, Py.strip content)
              | None => None
              end
            else None
        | _, _ => None
        end
      else None
  | _ => None
  end.

End Digits.

(** The longest prefix without white space: what [[^\s]+] takes. *)
Fixpoint up_to_space (s : pystr) : pystr :=
  match s with
  | [] => []
  | c :: t => if Py.isspace c then [] else c :: up_to_space t
  end.

(** [re.match(r'^[^\s]+$', s)]: one character or more, none of them white
    space, up to the end of the text or to a line feed that ends it. *)
Definition nonspace_to_end (s : pystr) : bool :=
  let body := up_to_space s in
  match body, drop (length body) s with
  | _ :: _, [] => true
  | _ :: _, [c] => c =? 10
  | _, _ => false
  end.

(** [validate_password(password)[0]] *)
Definition validate_password (password : pystr) : bool :=
  match password with
  | [] => false
  | _ =>
      if MAX_PASSWORD_LENGTH <? Py.len password then false
      else nonspace_to_end password
  end.

End Utils.

(** ** client.py: connecting and logging in *)

(** What [socket.connect] does on an attempt. *)
Inductive connect_result :=
| Connects (k : tcp_socket)
| ConnectTimesOut        (* socket.timeout *)
| ConnectRefused         (* ConnectionRefusedError *)
| ResolveFails           (* socket.gaierror *)
| ConnectFails.          (* any other exception *)

Module ClientLogin.

Definition CONNECTION_TIMEOUT : Z := 10.
Definition RETRY_ATTEMPTS : nat := 3.

(** The loop of [ChatClient.connect_to_server]: [network] tells what the
    attempt of each number meets. *)
Fixpoint connect_attempts (network : nat -> connect_result) (attempt : nat)
    (remaining : nat) : M Client.ChatClient bool :=
  match remaining with
  | O => ret false
  | S n =>
      match network attempt with
      | Connects k =>
          modify
            (Client.set_client_socket
               (Some (snd (Socket.settimeout (Some CONNECTION_TIMEOUT) k)))) ;;
          modify (Client.set_is_connected true) ;;
          ret true
      | _ =>
          modify (Client.set_client_socket None) ;;
          connect_attempts network (S attempt) n
      end
  end.

(** [ChatClient.connect_to_server] *)
Definition connect_to_server (network : nat -> connect_result)
  : M Client.ChatClient bool :=
  connect_attempts network 1 RETRY_ATTEMPTS.

(** [ChatClient.authenticate], on the client's socket; [room_password] and
    [nickname] are the attributes of the client that it sends. *)
Definition authenticate (room_password nickname : pystr) : M tcp_socket bool :=
  try_except
    (data <- Socket.recv ;;
     request <- decode data ;;
     if negb (Py.eqb request Text.PASSWORD_REQUEST) then ret false
     else
       Socket.send room_password ;;
       data <- Socket.recv ;;
       auth_result <- decode data ;;
       if Py.eqb auth_result Text.AUTH_SUCCESS then
         data <- Socket.recv ;;
         nickname_request <- decode data ;;
         (if Py.eqb nickname_request Text.NICKNAME_REQUEST
          then Socket.send nickname
          else ret tt) ;;
         ret true
       else ret false)
    any_exn
    (fun _ => ret false).

End ClientLogin.

(** ** client.py: the thread that receives *)

Module ClientReceiver.

Definition RECEIVE_TIMEOUT : Z := 1.

(** The receiver works on the client and on the screen, the lines it has
    printed so far. *)
Definition on_client {A} (m : M Client.ChatClient A)
  : M (Client.ChatClient * list pystr) A :=
  focus fst (fun c p => (c, snd p)) m.

(** [print(message)] *)
Definition show (message : pystr) : M (Client.ChatClient * list pystr) unit :=
  modify (fun p => (fst p, snd p ++ [message])).

(** The start of [ChatClient.receive_messages]. *)
Definition receive_messages_start : M (Client.ChatClient * list pystr) unit :=
  on_client (Client.on_client_socket (Socket.settimeout (Some RECEIVE_TIMEOUT))).

(** One pass of the loop of [ChatClient.receive_messages]; [line_buffer]
    is what [readline.get_line_buffer()] gives, [None] when it raises. *)
Definition receive_messages_pass (line_buffer : option pystr)
  : M (Client.ChatClient * list pystr) loop_ctl :=
  try_except
    (data <- on_client (Client.on_client_socket Socket.recv) ;;
     if is_empty data then
       on_client (modify (Client.set_is_connected false)) ;; ret Break
     else
       message <- decode data ;;
       c <- on_client get ;;
       let current_input :=
         match line_buffer with
         | Some b => b
         | None => Client.current_input_buffer c
         end in
       show message ;;
       match current_input with
       | [] => ret Continue
       | _ =>
           on_client (modify (Client.set_current_input_buffer current_input)) ;;
           ret Continue
       end)
    any_exn
    (fun e =>
       match e with
       | SocketTimeout => ret Continue
       | ConnectionResetError =>
           on_client (modify (Client.set_is_connected false)) ;; ret Break
       | _ =>
           c <- on_client get ;;
           if Client.is_running c && Client.is_connected c
           then on_client (modify (Client.set_is_connected false)) ;; ret Break
           else ret Break
       end).

End ClientReceiver.

(** ** Vocabulary of the statements *)

(** A text in which white space is the single space only, no two of them
    are adjacent and no control character is left; with [after_space] the
    text may not start with a space either. *)
Fixpoint tidy (after_space : bool) (s : pystr) : bool :=
  match s with
  | [] => true
  | c :: t =>
      if Py.isspace c
      then (c =? 32) && negb after_space && tidy true t
      else negb (is_control c) && tidy false t
  end.

Definition control_free (s : pystr) : bool :=
  forallb (fun c => negb (is_control c)) s.

(** No element of the list occurs twice. *)
Fixpoint distinct {A} (eqb : A -> A -> bool) (l : list A) : bool :=
  match l with
  | [] => true
  | x :: t => negb (existsb (eqb x) t) && distinct eqb t
  end.

(** The first [n] writes on the socket go through. *)
Definition accepts (n : nat) (k : tcp_socket) : bool :=
  negb (closed k) &&
  forallb (fun e => match e with Accepted => true | Refused => false end)
    (take n (send_script k)).

(** The socket after a write that went through. *)
Definition pushed (text : pystr) (k : tcp_socket) : tcp_socket :=
  {| inbox := inbox k; send_script := tl (send_script k);
     outbox := outbox k ++ [text]; timeout := timeout k; closed := closed k |}.

(** The registry is a dictionary (one entry per key), no connection object
    is registered twice, and every entry is filed under the identity of
    its connection. *)
Definition registry_ok (s : Server.ChatServer) : bool :=
  distinct Py.eqb (Dict.keys (Server.clients s))
  && distinct Nat.eqb (Dict.values (Server.clients s))
  && forallb
       (fun e =>
          match Server.store s !! snd e with
          | Some c => Py.eqb (fst e) (Server.client_id_of (Server.address c))
          | None => false
          end)
       (Server.clients s).

Definition locks_free (s : Server.ChatServer) : bool :=
  negb (Server.message_lock s) && negb (Server.clients_lock s).

(** How many entries the registry holds under an identity. *)
Definition occurrences (client_id : pystr) (d : list (pystr * nat)) : nat :=
  length (List.filter (fun e => Py.eqb (fst e) client_id) d).

(** The connection object after a message was written to it at [t]. *)
Definition delivered (t : datetime) (text : pystr)
    (c : Server.ClientConnection) : Server.ClientConnection :=
  Server.set_last_activity t
    (Server.set_socket (pushed text (Server.socket c)) c).

(** What one pass of the broadcast loop does with the entry [k] whose
    object is [c]: [dropped] are the identities the loop has scheduled for
    removal, [c'] is what the store holds for the entry afterwards. *)
Definition broadcast_effect (t : datetime) (formatted exclude : pystr)
    (k : pystr) (c : Server.ClientConnection) (dropped : list pystr)
    (c' : option Server.ClientConnection) : Prop :=
  if Py.eqb k exclude then c' = Some c
  else if Server.is_active c then
    if Socket.writable (Server.socket c)
    then c' = Some (delivered t formatted c)
    else In k dropped /\
         exists k', c' = Some (Server.set_is_active false
                                 (Server.set_socket k' c)) /\
                    outbox k' = outbox (Server.socket c)
  else In k dropped /\ c' = Some c.

(** The leave notice of a connection and the notice of a kick, as they are
    broadcast. *)
Definition leave_notice (t : datetime) (nick : pystr) : pystr :=
  format_message t Text.system (Text.leave_pre ++ nick ++ Text.leave_post).

Definition kick_notice (t : datetime) (nick : pystr) : pystr :=
  format_message t Text.system (nick ++ Text.kick_post).

(** How many of the lines written to a connection announce that [nick] is
    gone. *)
Definition departure_notices (t : datetime) (nick : pystr)
    (lines : list pystr) : nat :=
  length
    (List.filter
       (fun m => Py.eqb m (leave_notice t nick) || Py.eqb m (kick_notice t nick))
       lines).

(** ** A small room, for the examples *)

Module Demo.

Definition noon : datetime :=
  {| year := 2024; month := 5; day := 17; hour := 12; minute := 0;
     second := 0 |}.

(** Instances of the Unicode tables that know ASCII only. *)
Definition ascii_only (c : Z) : bool := false.
Definition unchanged (c : Z) : pystr := [c].

(** A fresh socket whose peer will send [events]. *)
Definition peer (events : list recv_event) : tcp_socket :=
  {| inbox := events; send_script := []; outbox := []; timeout := None;
     closed := false |}.

Definition says (text : string) : recv_event := Arrives (Utf8 (Py.lit text)).
Arguments says text%_string.
Definition hangs_up : recv_event := Arrives (Utf8 []).

Definition alice_address : pystr * Z := (Py.lit "10.0.0.2", 50001).
Definition bob_address : pystr * Z := (Py.lit "10.0.0.3", 50002).
Definition alice_id : pystr := Py.lit "10.0.0.2:50001".
Definition bob_id : pystr := Py.lit "10.0.0.3:50002".

Definition opened : Server.ChatServer :=
  Server.initial (Py.lit "room1") noon 1700001234.

(** Alice and Bob have joined, both sessions wait in [recv]; Alice will
    hang up next, Bob will say nothing. *)
Definition chatting : Server.ChatServer :=
  Server.run ascii_only
    [Server.Connect (peer [says "room1"; says "Alice"; hangs_up])
       alice_address;
     Server.Session 0; Server.Session 0;
     Server.Connect (peer [says "room1"; says "Bob"]) bob_address;
     Server.Session 1; Server.Session 1]
    opened.

(** Five newcomers, which fill the room. *)
Definition five_connects : list Server.event :=
  map (fun port =>
         Server.Connect (peer [says "room1"; says "Guest"])
           (Py.lit "10.0.0.9", port))
    [50001; 50002; 50003; 50004; 50005].

(** A client that is connected and chatting. *)
Definition client : Client.ChatClient :=
  {| Client.client_socket := Some (peer []); Client.is_connected := true;
     Client.is_running := true; Client.current_input_buffer := [] |}.

End Demo.

(** ** Vocabulary of the proofs *)

(** The text that [sanitize_input] has before the length cut. *)
Definition cleaned (text : pystr) (allow_newlines : bool) : pystr :=
  let text := Py.strip text in
  let text := if allow_newlines then text
              else Py.replace1 13 32 (Py.replace1 10 32 text) in
  let text := List.filter (fun c => negb (is_control c)) text in
  collapse_ws false text.

(** A call leaves the relation [R] between the state it starts from and
    the state it ends in. *)
Definition respects {S A} (R : S -> S -> Prop) (m : M S A) : Prop :=
  forall s, R s (snd (m s)).

(** The commands that [handle_command] knows. *)
Definition known_command (command : pystr) : bool :=
  Py.eqb command Text.quit || Py.eqb command Text.help
  || Py.eqb command Text.users || Py.eqb command Text.time.

(** The socket after the server has written [texts] and read one event. *)
Definition after_exchange (texts : list pystr) (to : option Z)
    (k : tcp_socket) : tcp_socket :=
  {| inbox := tl (inbox k);
     send_script := drop (length texts) (send_script k);
     outbox := outbox k ++ texts; timeout := to; closed := closed k |}.

(** The name that [get_client_nickname] generates. *)
Definition placeholder (time : Z) : pystr :=
  Text.User_ ++ Py.of_int (time mod 10000).

(** The registry does not grow. *)
Definition no_admission (s s' : Server.ChatServer) : Prop :=
  (length (Server.clients s') <= length (Server.clients s))%nat.

(** A method of a connection object leaves its address alone. *)
Definition keeps_address {A} (m : M Server.ClientConnection A) : Prop :=
  forall c, Server.address (snd (m c)) = Server.address c.

(** [registry_ok] as a proposition. *)
Definition sound (s : Server.ChatServer) : Prop :=
  List.NoDup (Dict.keys (Server.clients s)) /\
  List.NoDup (Dict.values (Server.clients s)) /\
  forall k r,
    In (k, r) (Server.clients s) ->
    exists c, Server.store s !! r = Some c /\
              k = Server.client_id_of (Server.address c).

(** From [s] to [s'] entries have only left the registry, and every
    connection object is still there under its address. *)
Definition settles (s s' : Server.ChatServer) : Prop :=
  (List.NoDup (Dict.keys (Server.clients s)) ->
   List.NoDup (Dict.keys (Server.clients s'))) /\
  (List.NoDup (Dict.values (Server.clients s)) ->
   List.NoDup (Dict.values (Server.clients s'))) /\
  (forall e, In e (Server.clients s') -> In e (Server.clients s)) /\
  (forall r c,
     Server.store s !! r = Some c ->
     exists c', Server.store s' !! r = Some c' /\
                Server.address c' = Server.address c).

Definition within_capacity (s : Server.ChatServer) : Prop :=
  Z.of_nat (length (Server.clients s)) <= ServerConfig.MAX_CLIENTS.

(** The server after the session [r] has read one event from its socket. *)
Definition after_read (r : nat) (c : Server.ClientConnection)
    (s : Server.ChatServer) : Server.ChatServer :=
  Server.set_store
    (<[r := Server.set_socket
              {| inbox := tl (inbox (Server.socket c));
                 send_script := send_script (Server.socket c);
                 outbox := outbox (Server.socket c);
                 timeout := timeout (Server.socket c);
                 closed := closed (Server.socket c) |} c]> (Server.store s)) s.

(** The reads on which the session loop breaks. *)
Definition ends_session (ev : recv_event) : bool :=
  match ev with
  | Arrives (Utf8 []) => true      (* the peer has closed *)
  | Arrives Undecodable => true
  | Arrives _ => false
  | ResetByPeer => true
  | RecvFails => true
  end.

(** The directives of the client. *)
Definition local_directives : list pystr :=
  [Py.lit "/help"; Py.lit "/clear"; Py.lit "/cls"; Py.lit "/time"].

Definition quit_directives : list pystr :=
  [Py.lit "/quit"; Py.lit "/exit"; Py.lit "/q"].

(** A reading of the wall clock: the fields that [%H:%M:%S] prints. *)
Definition clock_ok (t : datetime) : bool :=
  (0 <=? hour t) && (hour t <? 24) && (0 <=? minute t) && (minute t <? 60)
  && (0 <=? second t) && (second t <? 60).

(** The field is printed as two ASCII digits. *)
Definition two_digits (n : Z) : bool :=
  match Py.padded 2 n with
  | [a; b] => (48 <=? a) && (a <=? 57) && (48 <=? b) && (b <=? 57)
  | _ => false
  end.

(** The text has no colon. *)
Definition colon_free (s : pystr) : bool :=
  forallb (fun c => negb (c =? 58)) s.

(** None of the characters that [sanitize_filename] replaces. *)
Definition safe_name (s : pystr) : bool :=
  forallb (fun c => negb (Utils.among_chars Utils.unsafe_chars c)) s.

(** The text neither starts nor ends with a dot or a space. *)
Definition trimmed_name (s : pystr) : bool :=
  match s with
  | [] => true
  | c :: _ => negb (Utils.among_chars [46; 32] c)
  end &&
  match rev s with
  | [] => true
  | c :: _ => negb (Utils.among_chars [46; 32] c)
  end.

(** The connection is active and the next write to it goes through. *)
Definition live (c : Server.ClientConnection) : bool :=
  Server.is_active c && Socket.writable (Server.socket c).

(** The entry that [kick_user] picks: the first one, in the order of the
    registry, whose connection bears the name and is active. *)
Definition kick_target (username : pystr) (s : Server.ChatServer)
  : option (pystr * nat) :=
  List.find
    (fun e =>
       match Server.store s !! snd e with
       | Some c => Py.eqb (Server.nickname c) username && Server.is_active c
       | None => false
       end)
    (Server.clients s).

(** The texts arrive one by one, each in a read of its own. *)
Definition wire (texts : list pystr) : list recv_event :=
  map (fun t => Arrives (Utf8 t)) texts.

(** A socket just connected, whose peer will send [events]. *)
Definition fresh (events : list recv_event) (to : option Z) : tcp_socket :=
  {| inbox := events; send_script := []; outbox := []; timeout := to;
     closed := false |}.

(** The number that a string of decimal digits writes. *)
Definition int_of (s : pystr) : Z :=
  fold_left (fun a c => 10 * a + (c - 48)) s 0.

(** The nicknames of the active connections of the registry, in its
    order. *)
Definition roster (s : Server.ChatServer) : list pystr :=
  flat_map
    (fun r =>
       match Server.store s !! r with
       | Some c => if Server.is_active c then [Server.nickname c] else []
       | None => []
       end)
    (Dict.values (Server.clients s)).

(** The lines that the operator's console takes as commands. *)
Definition console_command (server_input : pystr) : bool :=
  Py.eqb server_input Text.quit || Py.eqb server_input Text.help
  || Py.eqb server_input Text.status || Py.eqb server_input Text.users
  || Py.startswith Text.kick_ server_input.

(** ** More scenes for the examples *)

Module Scene.

(** Alice and Bob have joined, both sessions wait in [recv]; Alice will
    say hello next. *)
Definition talking : Server.ChatServer :=
  Server.run Demo.ascii_only
    [Server.Connect
       (Demo.peer [Demo.says "room1"; Demo.says "Alice"; Demo.says " hello "])
       Demo.alice_address;
     Server.Session 0; Server.Session 0;
     Server.Connect (Demo.peer [Demo.says "room1"; Demo.says "Bob"])
       Demo.bob_address;
     Server.Session 1; Server.Session 1]
    Demo.opened.

(** Alice is chatting; Bob has just been registered and his session has
    not run yet. *)
Definition joining : Server.ChatServer :=
  Server.run Demo.ascii_only
    [Server.Connect (Demo.peer [Demo.says "room1"; Demo.says "Alice"])
       Demo.alice_address;
     Server.Session 0; Server.Session 0;
     Server.Connect (Demo.peer [Demo.says "room1"; Demo.says "Bob"])
       Demo.bob_address]
    Demo.opened.

(** A socket just accepted whose peer will send [events], and which
    takes [writes] writes and refuses the one after them: the peer has
    reset the connection by then. *)
Definition refusing (events : list recv_event) (writes : nat) : tcp_socket :=
  {| inbox := events; send_script := repeat Accepted writes ++ [Refused];
     outbox := []; timeout := None; closed := false |}.

(** Alice and Bob have joined, both sessions wait in [recv].  Bob's
    connection has taken the handshake and the roster, and has been reset
    since. *)
Definition crowd : Server.ChatServer :=
  Server.run Demo.ascii_only
    [Server.Connect (Demo.peer [Demo.says "room1"; Demo.says "Alice"])
       Demo.alice_address;
     Server.Session 0; Server.Session 0;
     Server.Connect (refusing [Demo.says "room1"; Demo.says "Bob"] 4)
       Demo.bob_address;
     Server.Session 1; Server.Session 1]
    Demo.opened.

(** The server as [kick_user("Alice")] has it on [crowd] when it calls
    [broadcast_message]: the registry lock is held, Alice has been told
    and is marked inactive. *)
Definition kicking_alice : Server.ChatServer :=
  snd ((t <- gets Server.now ;;
        Server.on_conn 0
          (Server.send_message t (format_message t Text.system Text.kicked)) ;;
        Server.on_conn 0 (modify (Server.set_is_active false)))%monad
         (Server.set_clients_lock true crowd)).

(** Five guests fill the room; the sixth peer resets its connection
    before the acceptor answers it. *)
Definition full : Server.ChatServer :=
  Server.run Demo.ascii_only Demo.five_connects Demo.opened.

Definition sixth : tcp_socket := refusing [] 0.
Definition sixth_address : pystr * Z := (Py.lit "10.0.0.9", 50006).

End Scene.

(** * Properties *)

(** ** Strings *)

Lemma eqb_eq (a b : pystr) : Py.eqb a b = true <-> a = b.
Proof.
  revert b; induction a as [|x a IH]; intros [|y b]; simpl;
    try (split; [discriminate | congruence]); [tauto|].
  rewrite andb_true_iff, Z.eqb_eq, IH. split.
  - intros [-> ->]; reflexivity.
  - intros H; injection H; auto.
Qed.

Lemma eqb_refl (a : pystr) : Py.eqb a a = true.
Proof. apply eqb_eq; reflexivity. Qed.

Lemma eqb_neq (a b : pystr) : Py.eqb a b = false <-> a <> b.
Proof.
  destruct (Py.eqb a b) eqn:E.
  - apply eqb_eq in E. split; [discriminate | congruence].
  - split; [|reflexivity]. intros _ H. apply eqb_eq in H. congruence.
Qed.

Lemma rstrip_cases (s : pystr) :
  Py.rstrip s = [] \/
  exists u c, Py.rstrip s = u ++ [c] /\ Py.isspace c = false.
Proof.
  induction s as [|c t IH]; simpl; [left; reflexivity|].
  destruct IH as [E | (u & d & E & Hd)]; rewrite E.
  - destruct (Py.isspace c) eqn:Hc; [left; reflexivity|].
    right. exists [], c. split; [reflexivity | assumption].
  - right. exists (c :: u), d. split; [|assumption].
    destruct u; reflexivity.
Qed.

Lemma rstrip_snoc (u : pystr) (c : Z) :
  Py.isspace c = false -> Py.rstrip (u ++ [c]) = u ++ [c].
Proof.
  intros Hc. induction u as [|x u IH]; simpl.
  - rewrite Hc; reflexivity.
  - rewrite IH. destruct u; reflexivity.
Qed.

Lemma rstrip_idem (s : pystr) : Py.rstrip (Py.rstrip s) = Py.rstrip s.
Proof.
  destruct (rstrip_cases s) as [E | (u & c & E & Hc)]; rewrite E.
  - reflexivity.
  - apply rstrip_snoc; assumption.
Qed.

Lemma rstrip_length (s : pystr) : (length (Py.rstrip s) <= length s)%nat.
Proof.
  induction s as [|c t IH]; simpl; [lia|].
  destruct (Py.rstrip t); [destruct (Py.isspace c)|]; simpl in *; lia.
Qed.

Lemma lstrip_head (s : pystr) :
  match Py.lstrip s with
  | c :: _ => Py.isspace c = false
  | [] => True
  end.
Proof.
  induction s as [|c t IH]; simpl; [exact I|].
  destruct (Py.isspace c) eqn:Hc; [exact IH | exact Hc].
Qed.

Lemma rstrip_head (s : pystr) :
  match s with c :: _ => Py.isspace c = false | [] => True end ->
  match Py.rstrip s with c :: _ => Py.isspace c = false | [] => True end.
Proof.
  destruct s as [|c t]; simpl; [auto|]. intros Hc.
  destruct (Py.rstrip t); [rewrite Hc|]; assumption.
Qed.

(** ** C10: [sanitize_input] *)

Section Sanitize.

Local Ltac case_space c :=
  let H := fresh "Hsp" in destruct (Py.isspace c) eqn:H.

Lemma tidy_weaken (s : pystr) : tidy true s = true -> tidy false s = true.
Proof.
  destruct s as [|c t]; simpl; [auto|].
  case_space c; [|auto]. rewrite andb_false_r. discriminate.
Qed.

Lemma tidy_control_free (p : bool) (s : pystr) :
  tidy p s = true -> control_free s = true.
Proof.
  revert p; induction s as [|c t IH]; intros p; simpl; [auto|].
  case_space c; rewrite !andb_true_iff.
  - intros [[Hc _] Ht]. apply Z.eqb_eq in Hc; subst c. eauto.
  - intros [Hc Ht]. eauto.
Qed.

Lemma tidy_collapse_fix (p : bool) (s : pystr) :
  tidy p s = true -> collapse_ws p s = s.
Proof.
  revert p; induction s as [|c t IH]; intros p; simpl; [auto|].
  case_space c; rewrite !andb_true_iff.
  - intros [[Hc Hp] Ht]. apply Z.eqb_eq in Hc; subst c.
    destruct p; [discriminate|]. f_equal; auto.
  - intros [_ Ht]. f_equal; auto.
Qed.

Lemma control_free_filter_fix (s : pystr) :
  control_free s = true ->
  List.filter (fun c => negb (is_control c)) s = s.
Proof.
  induction s as [|c t IH]; simpl; [auto|].
  rewrite andb_true_iff. intros [Hc Ht]. rewrite Hc. f_equal; auto.
Qed.

Lemma tidy_replace_fix (p : bool) (s : pystr) :
  tidy p s = true -> Py.replace1 13 32 (Py.replace1 10 32 s) = s.
Proof.
  revert p; induction s as [|c t IH]; intros p; simpl; [auto|].
  case_space c; rewrite !andb_true_iff.
  - intros [[Hc _] Ht]. apply Z.eqb_eq in Hc; subst c. simpl.
    f_equal. exact (IH _ Ht).
  - intros [_ Ht].
    assert (c <> 10 /\ c <> 13) as [H10 H13]
      by (split; intros ->; discriminate).
    apply Z.eqb_neq in H10, H13. rewrite H10, H13. f_equal. exact (IH _ Ht).
Qed.

Lemma tidy_lstrip_fix (s : pystr) : tidy true s = true -> Py.lstrip s = s.
Proof.
  destruct s as [|c t]; simpl; [auto|].
  case_space c; [|auto]. rewrite andb_false_r. discriminate.
Qed.

(** A tidy text that ends in no space and fits the bound is left as it is. *)
Lemma sanitize_input_fix (s : pystr) (n : Z) (b : bool) :
  tidy true s = true -> Py.rstrip s = s -> Py.len s <= n ->
  sanitize_input s (Some n) b = s.
Proof.
  intros Ht Hr Hn. unfold sanitize_input, Py.strip.
  rewrite (tidy_lstrip_fix _ Ht), Hr.
  assert (Hb : (if b then s else Py.replace1 13 32 (Py.replace1 10 32 s)) = s)
    by (destruct b; [reflexivity | exact (tidy_replace_fix _ _ Ht)]).
  rewrite Hb, (control_free_filter_fix _ (tidy_control_free _ _ Ht)).
  rewrite (tidy_collapse_fix _ _ (tidy_weaken _ Ht)).
  assert ((n <? Py.len s) = false) as -> by (apply Z.ltb_ge; exact Hn).
  rewrite andb_false_r. reflexivity.
Qed.

Lemma collapse_tidy (p : bool) (s : pystr) :
  control_free s = true -> tidy p (collapse_ws p s) = true.
Proof.
  revert p; induction s as [|c t IH]; intros p; simpl; [auto|].
  rewrite andb_true_iff. intros [Hc Ht].
  case_space c.
  - destruct p; simpl; auto.
  - simpl. rewrite Hsp, Hc. simpl. auto.
Qed.

Lemma collapse_snoc (p : bool) (u : pystr) (c : Z) :
  Py.isspace c = false -> collapse_ws p (u ++ [c]) = collapse_ws p u ++ [c].
Proof.
  intros Hc. revert p; induction u as [|x u IH]; intros p; simpl.
  - rewrite Hc; reflexivity.
  - case_space x; [destruct p|]; simpl; rewrite IH; reflexivity.
Qed.

Lemma filter_control_free (s : pystr) :
  control_free (List.filter (fun c => negb (is_control c)) s) = true.
Proof.
  induction s as [|c t IH]; simpl; [auto|].
  destruct (is_control c) eqn:Hc; simpl; [auto|]. rewrite Hc; simpl; auto.
Qed.

Lemma tidy_take (p : bool) (k : nat) (s : pystr) :
  tidy p s = true -> tidy p (take k s) = true.
Proof.
  revert p s; induction k as [|k IH]; intros p [|c t]; simpl; auto.
  case_space c; rewrite !andb_true_iff.
  - intros [Hc Ht]; split; auto.
  - intros [Hc Ht]; split; auto.
Qed.

Lemma tidy_rstrip (p : bool) (s : pystr) :
  tidy p s = true -> tidy p (Py.rstrip s) = true.
Proof.
  revert p; induction s as [|c t IH]; intros p; simpl; [auto|].
  case_space c; rewrite !andb_true_iff.
  - intros [Hc Ht]. specialize (IH _ Ht).
    destruct (Py.rstrip t) as [|d u]; [reflexivity|].
    simpl (tidy p (c :: d :: u)). rewrite Hsp.
    rewrite !andb_true_iff. split; assumption.
  - intros [Hc Ht]. specialize (IH _ Ht).
    destruct (Py.rstrip t) as [|d u].
    + simpl. rewrite Hsp, Hc. reflexivity.
    + simpl (tidy p (c :: d :: u)). rewrite Hsp, Hc. exact IH.
Qed.

Lemma tidy_head (s : pystr) :
  tidy false s = true ->
  match s with c :: _ => Py.isspace c = false | [] => True end ->
  tidy true s = true.
Proof.
  destruct s as [|c t]; simpl; [auto|]. intros H Hc. rewrite Hc in *. exact H.
Qed.

Lemma take_head (k : nat) (s : pystr) :
  match s with c :: _ => Py.isspace c = false | [] => True end ->
  match take k s with c :: _ => Py.isspace c = false | [] => True end.
Proof. destruct k, s; simpl; auto. Qed.

Lemma sanitize_input_cut (s : pystr) (n : Z) (b : bool) :
  0 < n ->
  sanitize_input s (Some n) b =
    if n <? Py.len (cleaned s b)
    then Py.rstrip (take (Z.to_nat n) (cleaned s b))
    else cleaned s b.
Proof.
  intros Hn. unfold sanitize_input. fold (cleaned s b).
  assert ((n =? 0) = false) as -> by (apply Z.eqb_neq; lia). simpl.
  unfold Py.slice_to.
  assert ((n <? 0) = false) as -> by (apply Z.ltb_ge; lia). reflexivity.
Qed.

Lemma cleaned_tidy (s : pystr) (b : bool) : tidy false (cleaned s b) = true.
Proof. unfold cleaned. apply collapse_tidy, filter_control_free. Qed.

Lemma replace_control_free (s : pystr) :
  control_free s = true ->
  control_free (Py.replace1 13 32 (Py.replace1 10 32 s)) = true.
Proof.
  induction s as [|c t IH]; simpl; [auto|].
  rewrite !andb_true_iff. intros [Hc Ht]. split; [|auto].
  destruct (c =? 10); simpl; [reflexivity|].
  destruct (c =? 13); [reflexivity | exact Hc].
Qed.

Lemma lstrip_control_free (s : pystr) :
  control_free s = true -> control_free (Py.lstrip s) = true.
Proof.
  induction s as [|c t IH]; simpl; [auto|].
  rewrite andb_true_iff. intros [Hc Ht].
  destruct (Py.isspace c); [auto|]. simpl. rewrite Hc; auto.
Qed.

Lemma rstrip_control_free (s : pystr) :
  control_free s = true -> control_free (Py.rstrip s) = true.
Proof.
  induction s as [|c t IH]; simpl; [auto|].
  rewrite andb_true_iff. intros [Hc Ht]. specialize (IH Ht).
  destruct (Py.rstrip t) as [|d u].
  - destruct (Py.isspace c); simpl; [auto|]. rewrite Hc; auto.
  - change (control_free (c :: d :: u)) with
      (negb (is_control c) && control_free (d :: u)).
    rewrite Hc; exact IH.
Qed.

(** On a text without control characters the cleaning leaves a text that
    neither starts nor ends with a space. *)
Lemma cleaned_edges (s : pystr) (b : bool) :
  control_free s = true ->
  tidy true (cleaned s b) = true /\ Py.rstrip (cleaned s b) = cleaned s b.
Proof.
  intros Hs. unfold cleaned.
  set (s1 := Py.strip s).
  assert (H1 : control_free s1 = true)
    by (apply rstrip_control_free, lstrip_control_free, Hs).
  assert (Hh1 : match s1 with c :: _ => Py.isspace c = false | [] => True end)
    by (apply rstrip_head, lstrip_head).
  assert (Hr1 : Py.rstrip s1 = s1) by apply rstrip_idem.
  set (s2 := if b then s1 else Py.replace1 13 32 (Py.replace1 10 32 s1)).
  assert (H2 : control_free s2 = true)
    by (subst s2; destruct b; [exact H1 | apply replace_control_free, H1]).
  assert (Hh2 : match s2 with c :: _ => Py.isspace c = false | [] => True end).
  { subst s2; destruct b; [exact Hh1|]. destruct s1 as [|c t]; simpl; [auto|].
    assert (c <> 10 /\ c <> 13) as [H10 H13]
      by (split; intros ->; discriminate).
    apply Z.eqb_neq in H10, H13. rewrite H10, H13. exact Hh1. }
  assert (Hr2 : s2 = [] \/ exists u c, s2 = u ++ [c] /\ Py.isspace c = false).
  { destruct (rstrip_cases s1) as [E | (u & c & E & Hc)]; rewrite Hr1 in E.
    - left. subst s2. rewrite E. destruct b; reflexivity.
    - right. subst s2. destruct b; [eauto|]. rewrite E.
      unfold Py.replace1. rewrite !map_app. simpl.
      assert (c <> 10 /\ c <> 13) as [H10 H13]
        by (split; intros ->; discriminate).
      apply Z.eqb_neq in H10, H13. rewrite H10, H13. eauto. }
  rewrite (control_free_filter_fix _ H2). split.
  - apply tidy_head; [apply collapse_tidy, H2|].
    destruct s2 as [|c t]; simpl; [auto|]. rewrite Hh2. exact Hh2.
  - destruct Hr2 as [-> | (u & c & -> & Hc)]; [reflexivity|].
    rewrite (collapse_snoc _ _ _ Hc). apply rstrip_snoc, Hc.
Qed.

Lemma sanitize_input_length (s : pystr) (n : Z) (b : bool) :
  0 < n -> Py.len (sanitize_input s (Some n) b) <= n.
Proof.
  intros Hn. rewrite (sanitize_input_cut _ _ _ Hn).
  destruct (n <? Py.len (cleaned s b)) eqn:E.
  - unfold Py.len. pose proof (rstrip_length (take (Z.to_nat n) (cleaned s b))).
    rewrite length_take in H. lia.
  - apply Z.ltb_ge in E. exact E.
Qed.

Lemma sanitize_input_tidy (s : pystr) (n : Z) (b : bool) :
  0 < n -> tidy false (sanitize_input s (Some n) b) = true.
Proof.
  intros Hn. rewrite (sanitize_input_cut _ _ _ Hn).
  destruct (n <? Py.len (cleaned s b)).
  - apply tidy_rstrip, tidy_take, cleaned_tidy.
  - apply cleaned_tidy.
Qed.

Lemma sanitize_input_idem_clean (s : pystr) (n : Z) (b : bool) :
  0 < n -> control_free s = true ->
  sanitize_input (sanitize_input s (Some n) b) (Some n) b
  = sanitize_input s (Some n) b.
Proof.
  intros Hn Hs.
  destruct (cleaned_edges s b Hs) as [Ht Hr].
  apply sanitize_input_fix; [| |apply sanitize_input_length, Hn].
  - rewrite (sanitize_input_cut _ _ _ Hn).
    destruct (n <? Py.len (cleaned s b)); [|exact Ht].
    apply tidy_head.
    + apply tidy_rstrip, tidy_take, tidy_weaken, Ht.
    + apply rstrip_head, take_head.
      destruct (cleaned s b) as [|c t]; [exact I|]. simpl in Ht.
      destruct (Py.isspace c); [|reflexivity].
      rewrite andb_false_r in Ht. discriminate.
  - rewrite (sanitize_input_cut _ _ _ Hn).
    destruct (n <? Py.len (cleaned s b)); [apply rstrip_idem | exact Hr].
Qed.

End Sanitize.

(** C10, as the code has it: the result never exceeds a positive bound,
    and sanitising again changes nothing when the text holds none of the
    control characters that the sanitiser deletes. *)
Theorem sanitize_input_bounded_idempotent_without_controls
    (s : pystr) (n : Z) (allow_newlines : bool) :
  0 < n ->
  Py.len (sanitize_input s (Some n) allow_newlines) <= n /\
  (control_free s = true ->
   sanitize_input (sanitize_input s (Some n) allow_newlines) (Some n)
     allow_newlines
   = sanitize_input s (Some n) allow_newlines).
Proof.
  intros Hn. split.
  - apply sanitize_input_length, Hn.
  - apply sanitize_input_idem_clean, Hn.
Qed.

Lemma sanitize_input_bounded_idempotent_without_controls_witness :
  Py.len (sanitize_input (Py.lit "  hello   world  ") (Some 8) false) <= 8 /\
  sanitize_input (sanitize_input (Py.lit "  hello   world  ") (Some 8) false)
    (Some 8) false
  = Py.lit "hello wo".
Proof.
  destruct (sanitize_input_bounded_idempotent_without_controls
              (Py.lit "  hello   world  ") 8 false ltac:(lia)) as [Hl Hi].
  split; [exact Hl|]. rewrite Hi; reflexivity.
Defined.

(** C10 as stated fails: a control character after the leading white space
    is deleted after the stripping, so the space behind it survives the
    first pass and is stripped by the second. *)
Lemma sanitize_input_not_idempotent :
  sanitize_input (sanitize_input [0; 32; 97] (Some 10) false) (Some 10) false
  <> sanitize_input [0; 32; 97] (Some 10) false.
Proof. vm_compute. discriminate. Qed.

(** X1 (sanitize_input): from the second pass on nothing changes any more,
    whatever the text; a third pass returns what the second did. *)
Lemma sanitize_input_stable_after_two (s : pystr) (n : Z) (b : bool) :
  0 < n ->
  let once := sanitize_input s (Some n) b in
  let twice := sanitize_input once (Some n) b in
  sanitize_input twice (Some n) b = twice.
Proof.
  intros Hn once twice. subst twice.
  apply sanitize_input_idem_clean; [exact Hn|].
  apply (tidy_control_free false). subst once. apply sanitize_input_tidy, Hn.
Qed.

(** ** The registry as a dictionary *)

Section DictFacts.
Context {V : Type}.
Implicit Types (d : list (pystr * V)) (k : pystr).

Lemma dict_get_in d k v : Dict.get k d = Some v -> In (k, v) d.
Proof.
  induction d as [|[k' v'] d IH]; simpl; [discriminate|].
  destruct (Py.eqb k' k) eqn:E.
  - apply eqb_eq in E; subst. intros [= ->]. left; reflexivity.
  - intros H. right. exact (IH H).
Qed.

Lemma dict_get_none d k : Dict.get k d = None <-> ~ In k (Dict.keys d).
Proof.
  induction d as [|[k' v'] d IH]; simpl; [tauto|].
  destruct (Py.eqb k' k) eqn:E.
  - apply eqb_eq in E; subst. split; [discriminate | tauto].
  - apply eqb_neq in E. rewrite IH. tauto.
Qed.

Lemma dict_in_get d k v :
  List.NoDup (Dict.keys d) -> In (k, v) d -> Dict.get k d = Some v.
Proof.
  induction d as [|[k' v'] d IH]; simpl; [tauto|].
  intros Hnd [H | H].
  - injection H as -> ->. rewrite eqb_refl. reflexivity.
  - apply NoDup_cons_iff in Hnd as [Hk Hnd].
    destruct (Py.eqb k' k) eqn:E; [|auto].
    apply eqb_eq in E; subst. exfalso. apply Hk.
    apply in_map_iff. exists (k, v); auto.
Qed.

Lemma dict_del_absent d k : Dict.mem k d = false -> Dict.del k d = d.
Proof.
  unfold Dict.mem. induction d as [|[k' v'] d IH]; simpl; [auto|].
  destruct (Py.eqb k' k); [discriminate|]. intros H. f_equal; auto.
Qed.

Lemma dict_keys_del d k :
  List.NoDup (Dict.keys d) ->
  List.NoDup (Dict.keys (Dict.del k d)) /\
  forall k', In k' (Dict.keys (Dict.del k d)) <->
             In k' (Dict.keys d) /\ k' <> k.
Proof.
  induction d as [|[k0 v0] d IH]; simpl; intros Hnd.
  - split; [constructor | tauto].
  - apply NoDup_cons_iff in Hnd as [Hk Hnd]. destruct (IH Hnd) as [IH1 IH2].
    destruct (Py.eqb k0 k) eqn:E.
    + apply eqb_eq in E; subst. split; [assumption|].
      intros k'. split.
      * intros H. split; [tauto|]. intros ->. tauto.
      * intros [[H | H] Hne]; [congruence | assumption].
    + apply eqb_neq in E. split.
      * simpl. constructor; [|assumption]. rewrite IH2. tauto.
      * intros k'. simpl. rewrite IH2. split.
        -- intros [<- | H]; tauto.
        -- tauto.
Qed.

Lemma dict_get_del_eq d k :
  List.NoDup (Dict.keys d) -> Dict.get k (Dict.del k d) = None.
Proof.
  intros Hnd. apply dict_get_none.
  destruct (dict_keys_del d k Hnd) as [_ H]. rewrite H. tauto.
Qed.

Lemma dict_get_del_ne d k k' :
  k' <> k -> Dict.get k' (Dict.del k d) = Dict.get k' d.
Proof.
  intros Hne. induction d as [|[k0 v0] d IH]; simpl; [auto|].
  destruct (Py.eqb k0 k) eqn:E.
  - apply eqb_eq in E; subst.
    assert (Py.eqb k k' = false) as -> by (apply eqb_neq; congruence).
    reflexivity.
  - simpl. destruct (Py.eqb k0 k'); auto.
Qed.

Lemma dict_del_length d k : (length (Dict.del k d) <= length d)%nat.
Proof.
  induction d as [|[k0 v0] d IH]; simpl; [lia|].
  destruct (Py.eqb k0 k); simpl; lia.
Qed.

Lemma dict_set_length d k v : (length (Dict.set k v d) <= S (length d))%nat.
Proof.
  induction d as [|[k0 v0] d IH]; simpl; [lia|].
  destruct (Py.eqb k0 k); simpl; lia.
Qed.

Lemma dict_get_set_eq d k v : Dict.get k (Dict.set k v d) = Some v.
Proof.
  induction d as [|[k0 v0] d IH]; simpl.
  - rewrite eqb_refl; reflexivity.
  - destruct (Py.eqb k0 k) eqn:E; simpl; rewrite E; auto.
Qed.

Lemma dict_get_set_ne d k k' v :
  k' <> k -> Dict.get k' (Dict.set k v d) = Dict.get k' d.
Proof.
  intros Hne. induction d as [|[k0 v0] d IH]; simpl.
  - assert (Py.eqb k k' = false) as -> by (apply eqb_neq; congruence).
    reflexivity.
  - destruct (Py.eqb k0 k) eqn:E; simpl.
    + apply eqb_eq in E; subst.
      assert (Py.eqb k k' = false) as -> by (apply eqb_neq; congruence).
      reflexivity.
    + destruct (Py.eqb k0 k'); auto.
Qed.

Lemma dict_keys_set d k v k' :
  In k' (Dict.keys (Dict.set k v d)) <-> k' = k \/ In k' (Dict.keys d).
Proof.
  induction d as [|[k0 v0] d IH]; simpl.
  - intuition congruence.
  - destruct (Py.eqb k0 k) eqn:E; simpl.
    + apply eqb_eq in E; subst. intuition congruence.
    + rewrite IH. intuition congruence.
Qed.

Lemma dict_set_nodup d k v :
  List.NoDup (Dict.keys d) -> List.NoDup (Dict.keys (Dict.set k v d)).
Proof.
  induction d as [|[k0 v0] d IH]; simpl; intros Hnd.
  - constructor; [simpl; tauto | constructor].
  - apply NoDup_cons_iff in Hnd as [Hk Hnd].
    destruct (Py.eqb k0 k) eqn:E; simpl.
    + constructor; assumption.
    + apply eqb_neq in E. constructor; [|auto].
      rewrite dict_keys_set. intuition congruence.
Qed.

End DictFacts.

Lemma distinct_NoDup {A} (eqb : A -> A -> bool) (l : list A) :
  (forall a b, eqb a b = true <-> a = b) ->
  distinct eqb l = true -> List.NoDup l.
Proof.
  intros Heq. induction l as [|x t IH]; simpl; [constructor|].
  rewrite andb_true_iff, negb_true_iff. intros [Hx Ht].
  constructor; [|auto]. intros Hin.
  assert (existsb (eqb x) t = true); [|congruence].
  apply existsb_exists. exists x. split; [assumption | apply Heq; reflexivity].
Qed.

(** ** The server *)

Module ServerFacts.
Import Server.

Lemma set_clients_id (s : ChatServer) : set_clients (clients s) s = s.
Proof. destruct s; reflexivity. Qed.

Lemma clients_unlock (s : ChatServer) :
  clients_lock s = false -> set_clients_lock false s = s.
Proof. destruct s; simpl; intros ->; reflexivity. Qed.

Lemma message_unlock (s : ChatServer) :
  message_lock s = false -> set_message_lock false s = s.
Proof. destruct s; simpl; intros ->; reflexivity. Qed.

Lemma remove_client_spec (client_id : pystr) (s : ChatServer) :
  clients_lock s = false ->
  remove_client client_id s
  = (Done tt, set_clients (Dict.del client_id (clients s)) s).
Proof.
  intros Hl. unfold remove_client, with_lock. rewrite Hl.
  unfold try_finally, bind, get; simpl.
  destruct (Dict.mem client_id (clients s)) eqn:E; simpl.
  - unfold modify, ret; simpl. f_equal. destruct s; simpl in *; subst; reflexivity.
  - unfold modify, ret; simpl. f_equal.
    rewrite (dict_del_absent _ _ E). destruct s; simpl in *; subst; reflexivity.
Qed.

(** C9: [remove_client] on a registry whose lock is free: it returns, an
    absent identity leaves the server as it is, and removing a second time
    changes nothing more. *)
Theorem remove_client_idempotent (s : ChatServer) (client_id : pystr) :
  clients_lock s = false ->
  distinct Py.eqb (Dict.keys (clients s)) = true ->
  let s1 := snd (remove_client client_id s) in
  fst (remove_client client_id s) = Done tt /\
  (Dict.mem client_id (clients s) = false -> s1 = s) /\
  Dict.mem client_id (clients s1) = false /\
  remove_client client_id s1 = (Done tt, s1).
Proof.
  intros Hl Hd. apply (distinct_NoDup _ _ eqb_eq) in Hd.
  rewrite (remove_client_spec _ _ Hl). simpl.
  assert (Habs : Dict.mem client_id (Dict.del client_id (clients s)) = false).
  { unfold Dict.mem. rewrite (dict_get_del_eq _ _ Hd). reflexivity. }
  repeat split.
  - intros E. rewrite (dict_del_absent _ _ E). apply set_clients_id.
  - exact Habs.
  - rewrite remove_client_spec by exact Hl. simpl.
    rewrite (dict_del_absent _ _ Habs). reflexivity.
Qed.

(** *** Sockets and connection objects *)

Lemma send_writable (text : pystr) (k : tcp_socket) :
  Socket.writable k = true -> Socket.send text k = (Done tt, pushed text k).
Proof.
  unfold Socket.writable, Socket.send, pushed.
  destruct (closed k) eqn:Hc; simpl; [discriminate|].
  destruct (send_script k) as [|[|] rest]; simpl;
    try discriminate; rewrite <- ?Hc; reflexivity.
Qed.

Lemma send_unwritable (text : pystr) (k : tcp_socket) :
  Socket.writable k = false ->
  exists k', Socket.send text k = (Raise OtherOSError, k') /\
             outbox k' = outbox k /\ inbox k' = inbox k /\
             closed k' = closed k.
Proof.
  unfold Socket.writable, Socket.send.
  destruct (closed k) eqn:Hc; simpl.
  - intros _. exists k. auto.
  - destruct (send_script k) as [|[|] rest]; simpl; try discriminate.
    intros _. eexists. split; [reflexivity|]. simpl. auto.
Qed.

Lemma accepts_S (n : nat) (text : pystr) (k : tcp_socket) :
  accepts (S n) k = true ->
  Socket.writable k = true /\ accepts n (pushed text k) = true.
Proof.
  unfold accepts, Socket.writable, pushed. simpl.
  destruct (closed k); simpl; [discriminate|].
  destruct (send_script k) as [|[|] rest]; simpl; auto.
  - destruct n; auto.
  - discriminate.
Qed.

Lemma accepts_writable (k : tcp_socket) :
  accepts 1 k = Socket.writable k.
Proof.
  unfold accepts, Socket.writable. f_equal.
  destruct (send_script k) as [|[|] rest]; reflexivity.
Qed.

Lemma send_message_ok (t : datetime) (text : pystr) (c : ClientConnection) :
  Socket.writable (socket c) = true ->
  send_message t text c
  = (Done true, set_last_activity t (set_socket (pushed text (socket c)) c)).
Proof.
  intros Hw. unfold send_message, try_except, bind, on_socket, focus.
  rewrite (send_writable _ _ Hw). reflexivity.
Qed.

Lemma send_message_fail (t : datetime) (text : pystr) (c : ClientConnection) :
  Socket.writable (socket c) = false ->
  exists k', send_message t text c
             = (Done false, set_is_active false (set_socket k' c)) /\
             outbox k' = outbox (socket c).
Proof.
  intros Hw. destruct (send_unwritable text _ Hw) as (k' & E & Ho & _).
  exists k'. split; [|exact Ho].
  unfold send_message, try_except, bind, on_socket, focus. rewrite E.
  reflexivity.
Qed.

(** [send_message] returns in every case: it catches what the write raises. *)
Lemma send_message_returns (t : datetime) (text : pystr) (c : ClientConnection) :
  exists b c', send_message t text c = (Done b, c').
Proof.
  destruct (Socket.writable (socket c)) eqn:Hw.
  - rewrite (send_message_ok _ _ _ Hw). eauto.
  - destruct (send_message_fail t text _ Hw) as (k' & E & _). rewrite E. eauto.
Qed.

Lemma on_conn_at {A} (r : nat) (m : M ClientConnection A) (s : ChatServer)
    (c : ClientConnection) :
  store s !! r = Some c ->
  on_conn r m s
  = (fst (m c), set_store (<[r := snd (m c)]> (store s)) s).
Proof. intros H. unfold on_conn. rewrite H. destruct (m c); reflexivity. Qed.

Lemma set_store_id (s : ChatServer) (r : nat) (c : ClientConnection) :
  store s !! r = Some c -> set_store (<[r := c]> (store s)) s = s.
Proof.
  intros H. rewrite (list_insert_id _ _ _ H). destruct s; reflexivity.
Qed.

Lemma deref_at (r : nat) (s : ChatServer) (c : ClientConnection) :
  store s !! r = Some c -> deref r s = (Done c, s).
Proof.
  intros H. unfold deref. rewrite (on_conn_at _ _ _ _ H). simpl.
  rewrite (set_store_id _ _ _ H). reflexivity.
Qed.

Lemma with_lock_free {A} held set (body : M ChatServer A) (s : ChatServer) :
  held s = false ->
  with_lock held set body s = try_finally body (modify (set false)) (set true s).
Proof. intros H. unfold with_lock. rewrite H. reflexivity. Qed.

(** A call wrapped in [try: ... except Exception:] with a handler that
    returns does not raise. *)
Lemma try_except_all_no_raise {S A} (m : M S A) (h : exn -> M S A) (s : S) :
  (forall e s', exists a s'', h e s' = (Done a, s'')) ->
  forall e, fst (try_except m any_exn h s) <> Raise e.
Proof.
  intros Hh e. unfold try_except.
  destruct (m s) as [[a|e'|] s'] eqn:E; simpl; try discriminate.
  destruct (Hh e' s') as (a & s'' & ->). discriminate.
Qed.

(** *** The registry and the store *)

Lemma registry_ok_entry (s : ChatServer) (k : pystr) (r : nat) :
  registry_ok s = true -> In (k, r) (clients s) ->
  exists c, store s !! r = Some c /\ k = client_id_of (address c).
Proof.
  unfold registry_ok. rewrite !andb_true_iff. intros [_ H] Hin.
  rewrite forallb_forall in H. specialize (H _ Hin). simpl in H.
  destruct (store s !! r) as [c|]; [|discriminate].
  exists c. split; [reflexivity | apply eqb_eq, H].
Qed.

Lemma registry_ok_keys (s : ChatServer) :
  registry_ok s = true -> List.NoDup (Dict.keys (clients s)).
Proof.
  unfold registry_ok. rewrite !andb_true_iff. intros [[H _] _].
  exact (distinct_NoDup _ _ eqb_eq H).
Qed.

Lemma registry_ok_values (s : ChatServer) :
  registry_ok s = true -> List.NoDup (Dict.values (clients s)).
Proof.
  unfold registry_ok. rewrite !andb_true_iff. intros [[_ H] _].
  exact (distinct_NoDup _ _ Nat.eqb_eq H).
Qed.

Lemma online_users_pure (s : ChatServer) (values : list nat) :
  (forall r, In r values -> exists c, store s !! r = Some c) ->
  exists names, online_users values s = (Done names, s).
Proof.
  induction values as [|r rest IH]; simpl; intros Hv.
  - eexists; reflexivity.
  - destruct (Hv r (or_introl eq_refl)) as [c Hc].
    destruct IH as [names E]; [intros; apply Hv; right; assumption|].
    unfold bind. rewrite (deref_at _ _ _ Hc), E. eexists; reflexivity.
Qed.

Lemma registry_values_valid (s : ChatServer) :
  registry_ok s = true ->
  forall r, In r (Dict.values (clients s)) -> exists c, store s !! r = Some c.
Proof.
  intros Hok r Hin. apply in_map_iff in Hin as ([k r'] & <- & Hin).
  destruct (registry_ok_entry _ _ _ Hok Hin) as (c & Hc & _). eauto.
Qed.

(** *** C8: the command interpreter *)

Lemma on_conn_send_ok (r : nat) (t : datetime) (text : pystr)
    (s : ChatServer) (c : ClientConnection) :
  store s !! r = Some c -> Socket.writable (socket c) = true ->
  on_conn r (send_message t text) s
  = (Done true,
     set_store (<[r := set_last_activity t
                         (set_socket (pushed text (socket c)) c)]> (store s)) s).
Proof.
  intros Hr Hw. rewrite (on_conn_at _ _ _ _ Hr), (send_message_ok _ _ _ Hw).
  reflexivity.
Qed.

Lemma handle_command_no_raise (r : nat) (command : pystr) (s : ChatServer)
    (e : exn) :
  fst (handle_command r command s) <> Raise e.
Proof.
  unfold handle_command. apply try_except_all_no_raise.
  intros ? ?. eexists _, _. reflexivity.
Qed.

Local Ltac sent_state Hr :=
  simpl; rewrite list_lookup_insert_eq by exact (lookup_lt_Some _ _ _ Hr);
  repeat split; try reflexivity.

(** C8: on every command the interpreter returns without raising; when the
    issuer's socket takes the write, exactly one reply is written to the
    issuer, the unknown-command notice for every command other than
    /quit, /help, /users and /time, the registry is left alone and the
    issuer stays active unless the command is /quit. *)
Theorem handle_command_always_replies (s : ChatServer) (r : nat)
    (c : ClientConnection) (command : pystr) :
  store s !! r = Some c ->
  is_active c = true ->
  Socket.writable (socket c) = true ->
  registry_ok s = true ->
  clients_lock s = false ->
  (forall e, fst (handle_command r command s) <> Raise e) /\
  exists reply s' c',
    handle_command r command s = (Done tt, s') /\
    store s' !! r = Some c' /\
    outbox (socket c') = outbox (socket c) ++ [reply] /\
    is_active c' = negb (Py.eqb command Text.quit) /\
    clients s' = clients s /\
    (known_command command = false ->
     reply = format_message (now s) Text.system
               (Text.unknown_pre ++ command ++ Text.unknown_post)).
Proof.
  intros Hr Ha Hw Hok Hl. split; [intros e; apply handle_command_no_raise|].
  unfold handle_command, known_command, try_except, bind, gets.
  destruct (Py.eqb command Text.quit) eqn:Eq.
  { rewrite (on_conn_send_ok _ _ _ _ _ Hr Hw).
    erewrite on_conn_at
      by (simpl; apply list_lookup_insert_eq, (lookup_lt_Some _ _ _ Hr)).
    eexists _, _, _. split; [reflexivity|].
    simpl. rewrite list_insert_insert_eq.
    rewrite list_lookup_insert_eq by exact (lookup_lt_Some _ _ _ Hr).
    repeat split; try reflexivity. discriminate. }
  destruct (Py.eqb command Text.help) eqn:Eh.
  { rewrite (on_conn_send_ok _ _ _ _ _ Hr Hw).
    eexists _, _, _. split; [reflexivity|]. sent_state Hr.
    - exact Ha.
    - discriminate. }
  destruct (Py.eqb command Text.users) eqn:Eu.
  { rewrite (with_lock_free _ _ _ _ Hl). unfold try_finally, bind, get.
    destruct (online_users_pure (set_clients_lock true s)
                (Dict.values (clients s))) as [names En].
    { intros r' Hin. exact (registry_values_valid _ Hok _ Hin). }
    simpl. simpl in En. rewrite En. unfold modify, ret.
    replace (set_clients_lock false (set_clients_lock true s)) with s
      by (destruct s; simpl in *; subst; reflexivity).
    rewrite (on_conn_send_ok _ _ _ _ _ Hr Hw).
    eexists _, _, _. split; [reflexivity|]. sent_state Hr.
    - exact Ha.
    - discriminate. }
  destruct (Py.eqb command Text.time) eqn:Et.
  { rewrite (on_conn_send_ok _ _ _ _ _ Hr Hw).
    eexists _, _, _. split; [reflexivity|]. sent_state Hr.
    - exact Ha.
    - discriminate. }
  rewrite (on_conn_send_ok _ _ _ _ _ Hr Hw).
  eexists _, _, _. split; [reflexivity|]. sent_state Hr. exact Ha.
Qed.

(** *** The handshake *)

Section Handshake.
Variable isalnum_ext : Z -> bool.

Lemma authenticate_client_match (room_password credential : pystr)
    (k : tcp_socket) (rest : list recv_event) :
  accepts 2 k = true ->
  inbox k = Arrives (Utf8 credential) :: rest ->
  Py.strip credential = room_password ->
  authenticate_client room_password k
  = (Done true,
     after_exchange [Text.PASSWORD_REQUEST; Text.AUTH_SUCCESS] None k).
Proof.
  intros Hw Hin Hc. destruct k as [inb scr out tmo cl].
  unfold accepts in Hw. simpl in *. subst inb.
  destruct cl; [discriminate|]. simpl in Hw.
  unfold authenticate_client, try_finally, try_except, bind, Socket.settimeout,
    Socket.send, Socket.recv, modify, decode, ret, after_exchange. simpl.
  destruct scr as [|[|] [|[|] scr]]; simpl in *; try discriminate;
    rewrite Hc, eqb_refl; simpl; rewrite <- ?app_assoc; reflexivity.
Qed.

Lemma authenticate_client_mismatch (room_password credential : pystr)
    (k : tcp_socket) (rest : list recv_event) :
  accepts 2 k = true ->
  inbox k = Arrives (Utf8 credential) :: rest ->
  Py.strip credential <> room_password ->
  authenticate_client room_password k
  = (Done false,
     after_exchange [Text.PASSWORD_REQUEST; Text.AUTH_FAILED] None k).
Proof.
  intros Hw Hin Hc. destruct k as [inb scr out tmo cl].
  unfold accepts in Hw. simpl in *. subst inb.
  destruct cl; [discriminate|]. simpl in Hw. apply eqb_neq in Hc.
  unfold authenticate_client, try_finally, try_except, bind, Socket.settimeout,
    Socket.send, Socket.recv, modify, decode, ret, after_exchange. simpl.
  destruct scr as [|[|] [|[|] scr]]; simpl in *; try discriminate;
    rewrite Hc; simpl; rewrite <- ?app_assoc; reflexivity.
Qed.

(** On an open socket the handshake never sends anything but its own
    markers, and it leaves the registry to the acceptor: in every case it
    returns a verdict. *)
Lemma authenticate_client_returns (room_password : pystr) (k : tcp_socket) :
  closed k = false ->
  exists b k', authenticate_client room_password k = (Done b, k').
Proof.
  destruct k as [inb scr out tmo cl]; simpl. intros ->.
  unfold authenticate_client, try_finally, try_except, bind, Socket.settimeout,
    Socket.send, Socket.recv, modify, decode, ret; simpl.
  destruct scr as [|[|] [|[|] scr]]; simpl; eauto;
    (destruct inb as [|[[text|]| |] inb]; simpl; eauto);
    (destruct (Py.eqb (Py.strip text) room_password); simpl; eauto).
Qed.

Lemma get_client_nickname_spec (time : Z) (text : pystr) (k : tcp_socket)
    (rest : list recv_event) :
  Socket.writable k = true ->
  inbox k = Arrives (Utf8 text) :: rest ->
  get_client_nickname isalnum_ext time k
  = (Done (if negb (Py.eqb (Py.strip text) [])
              && (Py.len (Py.strip text) <=? 20)
              && isalnum isalnum_ext (Py.strip text)
           then Py.strip text else placeholder time),
     after_exchange [Text.NICKNAME_REQUEST] (timeout k) k).
Proof.
  intros Hw Hin. unfold get_client_nickname, try_except, bind.
  rewrite (send_writable _ _ Hw).
  unfold Socket.writable in Hw. apply andb_true_iff in Hw as [Hc Hs].
  apply negb_true_iff in Hc.
  unfold Socket.recv, pushed, after_exchange. simpl. rewrite Hc, Hin. simpl.
  unfold ret, placeholder.
  assert (drop 1 (send_script k) = tl (send_script k)) as ->
    by (destruct (send_script k); reflexivity).
  destruct (negb (Py.eqb (Py.strip text) []) && (Py.len (Py.strip text) <=? 20)
            && isalnum isalnum_ext (Py.strip text)); rewrite <- Hc; reflexivity.
Qed.

(** Once something has arrived, or the socket is closed, the negotiation
    ends with a name; it raises in no case. *)
Lemma get_client_nickname_no_raise (time : Z) (k : tcp_socket) (e : exn) :
  fst (get_client_nickname isalnum_ext time k) <> Raise e.
Proof.
  unfold get_client_nickname. apply try_except_all_no_raise.
  intros ? ?. eexists _, _. reflexivity.
Qed.

Lemma get_client_nickname_returns (time : Z) (k : tcp_socket) :
  inbox k <> [] ->
  exists name k', get_client_nickname isalnum_ext time k = (Done name, k') /\
                  name <> [] /\
                  (outbox k' = outbox k \/
                   outbox k' = outbox k ++ [Text.NICKNAME_REQUEST]) /\
                  closed k' = closed k.
Proof.
  intros Hin. unfold get_client_nickname, try_except, bind, Socket.send,
    Socket.recv, decode, ret.
  destruct k as [inb scr out tmo cl]; simpl in *.
  destruct cl; simpl; [eexists _, _; repeat split; [discriminate | auto]|].
  destruct inb as [|ev inb]; [congruence|].
  destruct scr as [|[|] scr]; simpl;
    try (eexists _, _; repeat split; [discriminate | auto]; fail);
    (destruct ev as [[text|]| |]; simpl;
     try (eexists _, _; repeat split; [discriminate | auto]; fail));
    (destruct (negb (Py.eqb (Py.strip text) [])
               && (Py.len (Py.strip text) <=? 20)
               && isalnum isalnum_ext (Py.strip text)) eqn:E;
     [ eexists _, _; repeat split; [|auto];
       apply andb_true_iff in E as [E _]; apply andb_true_iff in E as [E _];
       apply negb_true_iff, eqb_neq in E; exact E
     | eexists _, _; repeat split; [discriminate | auto] ]).
Qed.

Lemma isalnum_forallb (s : pystr) :
  s <> [] -> isalnum isalnum_ext s = forallb (isalnum_char isalnum_ext) s.
Proof. destruct s; [congruence | reflexivity]. Qed.

(** C5, as the code has it: the stripped nickname is kept as the display
    name when it is not empty, has at most 20 characters and all of them
    are alphanumeric ([str.isalnum]: no underscore); any other nickname
    is replaced by User_ followed by the clock's seconds modulo 10000.
    The negotiation returns a name in both cases. *)
Theorem get_client_nickname_alnum_or_placeholder (time : Z) (text : pystr)
    (k : tcp_socket) (rest : list recv_event) (now : datetime)
    (addr : pystr * Z) :
  Socket.writable k = true ->
  inbox k = Arrives (Utf8 text) :: rest ->
  let nick := Py.strip text in
  exists name k',
    get_client_nickname isalnum_ext time k = (Done name, k') /\
    nickname (new_ClientConnection now k' addr name) = name /\
    (nick <> [] -> Py.len nick <= 20 ->
     forallb (isalnum_char isalnum_ext) nick = true -> name = nick) /\
    (nick = [] \/ 20 < Py.len nick \/
     forallb (isalnum_char isalnum_ext) nick = false ->
     name = Text.User_ ++ Py.of_int (time mod 10000)).
Proof.
  intros Hw Hin nick. rewrite (get_client_nickname_spec _ _ _ _ Hw Hin).
  fold nick. eexists _, _. split; [reflexivity|].
  destruct (Py.eqb nick []) eqn:E0.
  - apply eqb_eq in E0. simpl. split; [reflexivity | split].
    + congruence.
    + reflexivity.
  - apply eqb_neq in E0. rewrite (isalnum_forallb _ E0). simpl.
    destruct (Py.len nick <=? 20) eqn:E1; simpl.
    + apply Z.leb_le in E1.
      destruct (forallb (isalnum_char isalnum_ext) nick) eqn:E2.
      * split; [|split].
        -- destruct nick; [congruence | reflexivity].
        -- reflexivity.
        -- intros [H | [H | H]]; [congruence | lia | discriminate].
      * split; [reflexivity | split]; [discriminate | reflexivity].
    + apply Z.leb_gt in E1. split; [reflexivity | split]; [lia | reflexivity].
Qed.

End Handshake.

(** *** What a call leaves alone: relations between the state before and
        the state after *)

Section Respects.
Context {S : Type} (R : S -> S -> Prop).
Hypothesis R_refl : forall s, R s s.
Hypothesis R_trans : forall a b c, R a b -> R b c -> R a c.

Lemma respects_ret {A} (a : A) : respects R (ret a).
Proof. intros s. apply R_refl. Qed.

Lemma respects_raise {A} (e : exn) : respects R (@raise S A e).
Proof. intros s. apply R_refl. Qed.

Lemma respects_get : respects R get.
Proof. intros s. apply R_refl. Qed.

Lemma respects_gets {A} (f : S -> A) : respects R (gets f).
Proof. intros s. apply R_refl. Qed.

Lemma respects_modify (f : S -> S) : (forall s, R s (f s)) -> respects R (modify f).
Proof. intros H s. apply H. Qed.

Lemma respects_bind {A B} (m : M S A) (k : A -> M S B) :
  respects R m -> (forall a, respects R (k a)) -> respects R (bind m k).
Proof.
  intros Hm Hk s. unfold bind. specialize (Hm s).
  destruct (m s) as [[a|e|] s1]; simpl in *; [|assumption..].
  exact (R_trans _ _ _ Hm (Hk a s1)).
Qed.

Lemma respects_try_except {A} (m : M S A) sel (h : exn -> M S A) :
  respects R m -> (forall e, respects R (h e)) -> respects R (try_except m sel h).
Proof.
  intros Hm Hh s. unfold try_except. specialize (Hm s).
  destruct (m s) as [[a|e|] s1]; simpl in *; [assumption| |assumption].
  destruct (sel e); [|assumption].
  exact (R_trans _ _ _ Hm (Hh e s1)).
Qed.

Lemma respects_try_finally {A} (m : M S A) (f : M S unit) :
  respects R m -> respects R f -> respects R (try_finally m f).
Proof.
  intros Hm Hf s. unfold try_finally. specialize (Hm s).
  destruct (m s) as [[a|e|] s1]; simpl in *; [| |assumption].
  - apply (R_trans _ _ _ Hm). apply respects_bind; [assumption|].
    intros; apply respects_ret.
  - apply (R_trans _ _ _ Hm). apply respects_bind; [assumption|].
    intros; apply respects_raise.
Qed.

End Respects.

(** Every method of the server but the acceptor only takes entries out of
    the registry, rewrites connection objects in place and moves the locks,
    the threads and the running flag.  A relation that holds across each of
    these changes holds between the state before and the state after every
    method. *)

Lemma send_message_keeps_address (t : datetime) (text : pystr) :
  keeps_address (send_message t text).
Proof.
  intros c. destruct (Socket.writable (socket c)) eqn:Hw.
  - rewrite (send_message_ok _ _ _ Hw). reflexivity.
  - destruct (send_message_fail t text _ Hw) as (k' & E & _). rewrite E.
    reflexivity.
Qed.

Lemma close_keeps_address : keeps_address close.
Proof. intros c. reflexivity. Qed.

Lemma on_socket_keeps_address {A} (m : M tcp_socket A) :
  keeps_address (on_socket m).
Proof.
  intros c. unfold on_socket, focus. destruct (m (socket c)). reflexivity.
Qed.

Section Frames.
Variable R : ChatServer -> ChatServer -> Prop.
Hypothesis R_refl : forall s, R s s.
Hypothesis R_trans : forall a b c, R a b -> R b c -> R a c.
Hypothesis R_object :
  forall s r c c',
    store s !! r = Some c -> address c' = address c ->
    R s (set_store (<[r := c']> (store s)) s).
Hypothesis R_message_lock : forall b s, R s (set_message_lock b s).
Hypothesis R_clients_lock : forall b s, R s (set_clients_lock b s).
Hypothesis R_del : forall k s, R s (set_clients (Dict.del k (clients s)) s).
Hypothesis R_clear : forall s, R s (set_clients [] s).
Hypothesis R_threads : forall t s, R s (set_threads t s).
Hypothesis R_running : forall b s, R s (set_is_running b s).

Lemma framed_on_conn {A} (r : nat) (m : M ClientConnection A) :
  keeps_address m -> respects R (on_conn r m).
Proof.
  intros Hm s. unfold on_conn.
  destruct (store s !! r) as [c|] eqn:E; [|apply R_refl].
  specialize (Hm c). destruct (m c) as [o c']. simpl in *.
  exact (R_object _ _ _ _ E Hm).
Qed.

Lemma framed_with_clients_lock {A} (body : M ChatServer A) :
  respects R body -> respects R (with_lock clients_lock set_clients_lock body).
Proof.
  intros Hb s. unfold with_lock. destruct (clients_lock s); [apply R_refl|].
  apply (R_trans _ _ _ (R_clients_lock true s)).
  apply (respects_try_finally _ R_refl R_trans); [exact Hb|].
  apply respects_modify. apply R_clients_lock.
Qed.

Lemma framed_with_message_lock {A} (body : M ChatServer A) :
  respects R body -> respects R (with_lock message_lock set_message_lock body).
Proof.
  intros Hb s. unfold with_lock. destruct (message_lock s); [apply R_refl|].
  apply (R_trans _ _ _ (R_message_lock true s)).
  apply (respects_try_finally _ R_refl R_trans); [exact Hb|].
  apply respects_modify. apply R_message_lock.
Qed.

Local Ltac keeps :=
  first [ apply send_message_keeps_address
        | apply close_keeps_address
        | apply on_socket_keeps_address
        | intros ?; reflexivity ].

Local Ltac framed_step :=
  first
    [ apply (respects_ret _ R_refl)
    | apply (respects_raise _ R_refl)
    | apply (respects_get _ R_refl)
    | apply (respects_gets _ R_refl)
    | apply framed_on_conn; keeps
    | apply (respects_bind _ R_trans); [|intros]
    | apply (respects_try_except _ R_trans); [|intros]
    | apply (respects_try_finally _ R_refl R_trans)
    | apply framed_with_clients_lock
    | apply framed_with_message_lock
    | match goal with
      | |- respects _ (if ?b then _ else _) => destruct b
      | |- respects _ (match ?x with _ => _ end) => destruct x
      end ].

Lemma framed_deref (r : nat) : respects R (deref r).
Proof. apply framed_on_conn. keeps. Qed.

Lemma framed_remove_client (client_id : pystr) :
  respects R (remove_client client_id).
Proof.
  intros s. unfold remove_client, with_lock.
  destruct (clients_lock s); [apply R_refl|].
  unfold try_finally, bind, get, modify, ret; simpl.
  apply (R_trans _ _ _ (R_clients_lock true s)).
  destruct (Dict.mem client_id (clients s)); simpl.
  - apply (R_trans _ _ _ (R_del client_id (set_clients_lock true s))).
    apply R_clients_lock.
  - apply R_clients_lock.
Qed.

Lemma framed_remove_all (ids : list pystr) : respects R (remove_all ids).
Proof.
  induction ids as [|i ids IH]; simpl; [framed_step|].
  framed_step; [apply framed_remove_client | exact IH].
Qed.

Lemma framed_broadcast_loop (formatted exclude : pystr)
    (items : list (pystr * nat)) (acc : list pystr) :
  respects R (broadcast_loop formatted exclude items acc).
Proof.
  revert acc; induction items as [|[k r] items IH]; intros acc; simpl.
  - framed_step.
  - repeat (apply IH || apply framed_deref || framed_step).
Qed.

Lemma framed_broadcast_message (sender message exclude : pystr) :
  respects R (broadcast_message sender message exclude).
Proof.
  unfold broadcast_message.
  repeat (apply framed_broadcast_loop || apply framed_remove_all
          || framed_step).
Qed.

Lemma framed_online_users (values : list nat) :
  respects R (online_users values).
Proof.
  induction values as [|r rest IH]; simpl; [framed_step|].
  repeat (apply IH || apply framed_deref || framed_step).
Qed.

Lemma framed_handle_command (r : nat) (command : pystr) :
  respects R (handle_command r command).
Proof.
  unfold handle_command.
  repeat (apply framed_online_users || framed_step).
Qed.

Lemma framed_handle_client_welcome (r : nat) :
  respects R (handle_client_welcome r).
Proof.
  unfold handle_client_welcome.
  repeat (apply framed_online_users || apply framed_broadcast_message
          || apply framed_deref || framed_step).
Qed.

Lemma framed_handle_client_condition (r : nat) :
  respects R (handle_client_condition r).
Proof.
  unfold handle_client_condition. repeat (apply framed_deref || framed_step).
Qed.

Lemma framed_decode (b : bytes) : respects R (decode b).
Proof. destruct b; simpl; framed_step. Qed.

Lemma framed_handle_client_pass (r : nat) : respects R (handle_client_pass r).
Proof.
  unfold handle_client_pass.
  repeat (apply framed_handle_command || apply framed_broadcast_message
          || apply framed_deref || apply framed_decode || framed_step).
Qed.

Lemma framed_handle_client_finally (r : nat) :
  respects R (handle_client_finally r).
Proof.
  unfold handle_client_finally.
  repeat (apply framed_remove_client || apply framed_broadcast_message
          || apply framed_deref || framed_step).
Qed.

Lemma framed_kick_loop (username : pystr) (items : list (pystr * nat)) :
  respects R (kick_loop username items).
Proof.
  induction items as [|[k r] items IH]; simpl; [framed_step|].
  repeat (apply IH || apply framed_broadcast_message || apply framed_deref
          || framed_step).
Qed.

Lemma framed_kick_user (username : pystr) : respects R (kick_user username).
Proof. unfold kick_user. repeat (apply framed_kick_loop || framed_step). Qed.

Lemma framed_close_all (values : list nat) : respects R (close_all values).
Proof.
  induction values as [|r rest IH]; simpl; [framed_step|].
  repeat (apply IH || framed_step).
Qed.

Lemma framed_shutdown : respects R shutdown.
Proof.
  unfold shutdown.
  repeat (apply framed_close_all || apply framed_broadcast_message
          || (apply respects_modify; first [apply R_running | apply R_clear])
          || framed_step).
Qed.

Lemma framed_server_input_handler_pass (ev : console_event) :
  respects R (server_input_handler_pass ev).
Proof.
  unfold server_input_handler_pass.
  repeat (apply framed_shutdown || apply framed_kick_user
          || apply framed_broadcast_message || framed_step).
Qed.

Lemma framed_set_pc (r : nat) (pc : session_pc) : respects R (set_pc r pc).
Proof. apply respects_modify. intros s. apply R_threads. Qed.

Lemma framed_finish_session (r : nat) (s : ChatServer) :
  R s (finish_session r s).
Proof.
  unfold finish_session. pose proof (framed_handle_client_finally r s) as H.
  destruct (handle_client_finally r s) as [[a|e|] s1]; simpl in *;
    exact (R_trans _ _ _ H (framed_set_pc _ _ s1)).
Qed.

Lemma framed_session_step (r : nat) (s : ChatServer) :
  R s (session_step r s).
Proof.
  unfold session_step.
  destruct (threads s !! r) as [[| | | | |]|]; try apply R_refl.
  - pose proof (framed_handle_client_welcome r s) as H.
    destruct (handle_client_welcome r s) as [[a|e|] s1]; simpl in *.
    + exact (R_trans _ _ _ H (framed_set_pc _ _ s1)).
    + exact (R_trans _ _ _ H (framed_finish_session _ s1)).
    + exact (R_trans _ _ _ H (framed_set_pc _ _ s1)).
  - pose proof (framed_handle_client_condition r s) as H.
    destruct (handle_client_condition r s) as [[[|]|e|] s1]; simpl in *.
    + exact (R_trans _ _ _ H (framed_set_pc _ _ s1)).
    + exact (R_trans _ _ _ H (framed_finish_session _ s1)).
    + exact (R_trans _ _ _ H (framed_finish_session _ s1)).
    + exact (R_trans _ _ _ H (framed_set_pc _ _ s1)).
  - pose proof (framed_handle_client_pass r s) as H.
    destruct (handle_client_pass r s) as [[[|]|e|] s1]; simpl in *.
    + exact (R_trans _ _ _ H (framed_set_pc _ _ s1)).
    + exact (R_trans _ _ _ H (framed_finish_session _ s1)).
    + exact (R_trans _ _ _ H (framed_finish_session _ s1)).
    + exact (R_trans _ _ _ H (framed_set_pc _ _ s1)).
Qed.

End Frames.

(** The registry does not grow under any of them. *)
Section NoAdmission.

Local Ltac by_length := intros; unfold no_admission in *; simpl in *; lia.

Lemma no_admission_session_step (r : nat) (s : ChatServer) :
  no_admission s (session_step r s).
Proof.
  apply framed_session_step; try by_length.
  intros k s0. unfold no_admission. simpl. apply dict_del_length.
Qed.

Lemma no_admission_console (ev : console_event) (s : ChatServer) :
  no_admission s (snd (server_input_handler_pass ev s)).
Proof.
  apply framed_server_input_handler_pass; try by_length.
  intros k s0. unfold no_admission. simpl. apply dict_del_length.
Qed.

End NoAdmission.

(** *** C2: the broadcast *)

Lemma broadcast_loop_spec (formatted exclude : pystr)
    (items : list (pystr * nat)) :
  forall (acc : list pystr) (s : ChatServer),
    List.NoDup (map snd items) ->
    (forall k r, In (k, r) items -> exists c, store s !! r = Some c) ->
    exists dropped h,
      broadcast_loop formatted exclude items acc s
      = (Done (acc ++ dropped), set_store h s) /\
      length h = length (store s) /\
      (forall r, ~ In r (map snd items) -> h !! r = store s !! r) /\
      (forall k, In k dropped ->
         exists r c, In (k, r) items /\ store s !! r = Some c /\
                     Py.eqb k exclude = false /\
                     is_active c && Socket.writable (socket c) = false) /\
      (forall k r c, In (k, r) items -> store s !! r = Some c ->
         broadcast_effect (now s) formatted exclude k c dropped (h !! r)).
Proof.
  induction items as [|[k r] items IH]; intros acc s Hnd Hval.
  - exists [], (store s). simpl. rewrite app_nil_r.
    split; [destruct s; reflexivity|].
    split; [reflexivity|]. split; [reflexivity|]. split; intros; tauto.
  - simpl in Hnd. apply NoDup_cons_iff in Hnd as [Hr Hnd].
    destruct (Hval k r (or_introl eq_refl)) as [c Hc].
    assert (Hne : forall k0 r0, In (k0, r0) items -> r0 <> r).
    { intros k0 r0 Hin ->. apply Hr. apply in_map_iff.
      exists (k0, r). split; [reflexivity | exact Hin]. }
    simpl. destruct (Py.eqb k exclude) eqn:Ek.
    { (* the excluded entry is skipped *)
      destruct (IH acc s Hnd) as (dropped & h & E & Hlh & Hframe & Hdrop & Heff).
      { intros k0 r0 Hin. apply (Hval k0 r0). right; exact Hin. }
      exists dropped, h. split; [exact E|].
      split; [first [exact Hlh | rewrite Hlh; subst s1; simpl; apply length_insert]|].
      split; [|split].
      - intros r' Hr'. apply Hframe. simpl in Hr'. tauto.
      - intros k0 Hk0. destruct (Hdrop k0 Hk0) as (r0 & c0 & Hin & H).
        exists r0, c0. split; [right; exact Hin | exact H].
      - intros k0 r0 c0 [Hin | Hin] Hc0.
        + injection Hin as <- <-. unfold broadcast_effect. rewrite Ek.
          rewrite (Hframe r Hr). congruence.
        + exact (Heff k0 r0 c0 Hin Hc0). }
    unfold bind at 1. rewrite (deref_at _ _ _ Hc).
    destruct (is_active c) eqn:Ea; simpl.
    2:{ (* an entry that is marked inactive is scheduled, nothing is written *)
      destruct (IH (acc ++ [k]) s Hnd) as (dropped & h & E & Hlh & Hframe & Hdrop & Heff).
      { intros k0 r0 Hin. apply (Hval k0 r0). right; exact Hin. }
      exists (k :: dropped), h. rewrite <- app_assoc in E.
      split; [exact E|].
      split; [first [exact Hlh | rewrite Hlh; subst s1; simpl; apply length_insert]|].
      split; [|split].
      - intros r' Hr'. apply Hframe. simpl in Hr'. tauto.
      - intros k0 [<- | Hk0].
        + exists r, c. rewrite Ea. auto with datatypes.
        + destruct (Hdrop k0 Hk0) as (r0 & c0 & Hin & H).
          exists r0, c0. split; [right; exact Hin | exact H].
      - intros k0 r0 c0 [Hin | Hin] Hc0.
        + injection Hin as <- <-. unfold broadcast_effect. rewrite Ek.
          assert (c0 = c) as -> by congruence. rewrite Ea.
          split; [left; reflexivity|]. rewrite (Hframe r Hr). exact Hc.
        + specialize (Heff k0 r0 c0 Hin Hc0). unfold broadcast_effect in *.
          destruct (Py.eqb k0 exclude); [exact Heff|].
          destruct (is_active c0);
            [destruct (Socket.writable (socket c0)); [exact Heff|]|];
            destruct Heff as [H1 H2]; (split; [right; exact H1 | exact H2]). }
    unfold bind, gets. rewrite (on_conn_at _ _ _ _ Hc).
    assert (Hlen : (r < length (store s))%nat) by exact (lookup_lt_Some _ _ _ Hc).
    destruct (Socket.writable (socket c)) eqn:Ew.
    + (* the write goes through *)
      rewrite (send_message_ok _ _ _ Ew). simpl.
      set (s1 := set_store _ s).
      destruct (IH acc s1 Hnd) as (dropped & h & E & Hlh & Hframe & Hdrop & Heff).
      { intros k0 r0 Hin. destruct (Hval k0 r0 (or_intror Hin)) as [c0 Hc0].
        exists c0. subst s1. simpl.
        rewrite list_lookup_insert_ne by (apply not_eq_sym, (Hne _ _ Hin)).
        exact Hc0. }
      exists dropped, h. split; [exact E|].
      split; [first [exact Hlh | rewrite Hlh; subst s1; simpl; apply length_insert]|].
      split; [|split].
      * intros r' Hr'. simpl in Hr'. rewrite Hframe by tauto.
        subst s1. simpl. apply list_lookup_insert_ne. tauto.
      * intros k0 Hk0. destruct (Hdrop k0 Hk0) as (r0 & c0 & Hin & Hc0 & H).
        exists r0, c0. split; [right; exact Hin|]. split; [|exact H].
        subst s1. simpl in Hc0.
        rewrite list_lookup_insert_ne in Hc0
          by (apply not_eq_sym, (Hne _ _ Hin)). exact Hc0.
      * intros k0 r0 c0 [Hin | Hin] Hc0.
        -- injection Hin as <- <-. assert (c0 = c) as -> by congruence.
           unfold broadcast_effect. rewrite Ek, Ea, Ew.
           rewrite (Hframe r Hr). subst s1. simpl.
           apply list_lookup_insert_eq, Hlen.
        -- apply (Heff k0 r0 c0 Hin). subst s1. simpl.
           rewrite list_lookup_insert_ne by (apply not_eq_sym, (Hne _ _ Hin)).
           exact Hc0.
    + (* the write fails: the entry is marked inactive and scheduled *)
      destruct (send_message_fail (now s) formatted _ Ew) as (k' & Es & Ho).
      rewrite Es. simpl. set (s1 := set_store _ s).
      destruct (IH (acc ++ [k]) s1 Hnd)
        as (dropped & h & E & Hlh & Hframe & Hdrop & Heff).
      { intros k0 r0 Hin. destruct (Hval k0 r0 (or_intror Hin)) as [c0 Hc0].
        exists c0. subst s1. simpl.
        rewrite list_lookup_insert_ne by (apply not_eq_sym, (Hne _ _ Hin)).
        exact Hc0. }
      exists (k :: dropped), h. rewrite <- app_assoc in E.
      split; [exact E|].
      split; [first [exact Hlh | rewrite Hlh; subst s1; simpl; apply length_insert]|].
      split; [|split].
      * intros r' Hr'. simpl in Hr'. rewrite Hframe by tauto.
        subst s1. simpl. apply list_lookup_insert_ne. tauto.
      * intros k0 [<- | Hk0].
        -- exists r, c. rewrite Ea, Ew. auto with datatypes.
        -- destruct (Hdrop k0 Hk0) as (r0 & c0 & Hin & Hc0 & H).
           exists r0, c0. split; [right; exact Hin|]. split; [|exact H].
           subst s1. simpl in Hc0.
           rewrite list_lookup_insert_ne in Hc0
             by (apply not_eq_sym, (Hne _ _ Hin)). exact Hc0.
      * intros k0 r0 c0 [Hin | Hin] Hc0.
        -- injection Hin as <- <-. assert (c0 = c) as -> by congruence.
           unfold broadcast_effect. rewrite Ek, Ea, Ew.
           split; [left; reflexivity|]. exists k'. split; [|exact Ho].
           rewrite (Hframe r Hr). subst s1. simpl.
           apply list_lookup_insert_eq, Hlen.
        -- assert (Hc1 : store s1 !! r0 = Some c0).
           { subst s1. simpl.
             rewrite list_lookup_insert_ne
               by (apply not_eq_sym, (Hne _ _ Hin)). exact Hc0. }
           specialize (Heff k0 r0 c0 Hin Hc1). unfold broadcast_effect in *.
           destruct (Py.eqb k0 exclude); [exact Heff|].
           destruct (is_active c0);
             [destruct (Socket.writable (socket c0)); [exact Heff|]|];
             destruct Heff as [H1 H2]; (split; [right; exact H1 | exact H2]).
Qed.

Lemma remove_all_spec (ids : list pystr) :
  forall s : ChatServer,
    clients_lock s = false ->
    remove_all ids s
    = (Done tt,
       set_clients (fold_left (fun d k => Dict.del k d) ids (clients s)) s).
Proof.
  induction ids as [|i ids IH]; intros s Hl; simpl.
  - unfold ret. rewrite set_clients_id. reflexivity.
  - unfold bind. rewrite (remove_client_spec _ _ Hl).
    rewrite IH by exact Hl. reflexivity.
Qed.

Lemma dict_get_del_none {V} (d : list (pystr * V)) (k k' : pystr) :
  Dict.get k d = None -> Dict.get k (Dict.del k' d) = None.
Proof.
  induction d as [|[k0 v0] d IH]; simpl; [auto|].
  destruct (Py.eqb k0 k) eqn:E; [discriminate|]. intros H.
  destruct (Py.eqb k0 k'); simpl; [exact H|]. rewrite E. auto.
Qed.

Lemma fold_del_none {V} (ids : list pystr) :
  forall (d : list (pystr * V)) (k : pystr),
    Dict.get k d = None ->
    Dict.get k (fold_left (fun d k => Dict.del k d) ids d) = None.
Proof.
  induction ids as [|i ids IH]; intros d k H; simpl; [exact H|].
  apply IH, dict_get_del_none, H.
Qed.

Lemma fold_del_in {V} (ids : list pystr) :
  forall (d : list (pystr * V)) (k : pystr),
    List.NoDup (Dict.keys d) -> In k ids ->
    Dict.get k (fold_left (fun d k => Dict.del k d) ids d) = None.
Proof.
  induction ids as [|i ids IH]; intros d k Hnd Hin; simpl; [destruct Hin|].
  destruct Hin as [-> | Hin].
  - apply fold_del_none, dict_get_del_eq, Hnd.
  - apply IH; [|exact Hin]. apply dict_keys_del, Hnd.
Qed.

Lemma fold_del_not_in {V} (ids : list pystr) :
  forall (d : list (pystr * V)) (k : pystr),
    ~ In k ids ->
    Dict.get k (fold_left (fun d k => Dict.del k d) ids d) = Dict.get k d.
Proof.
  induction ids as [|i ids IH]; intros d k Hin; simpl; [reflexivity|].
  simpl in Hin. rewrite IH by tauto. apply dict_get_del_ne.
  intros ->. tauto.
Qed.

(** What [broadcast_message] leaves: the store [h] after the writes, the
    registry without the scheduled entries. *)
Lemma broadcast_message_spec (s : ChatServer)
    (sender message exclude : pystr) :
  List.NoDup (Dict.values (clients s)) ->
  (forall k r, In (k, r) (clients s) -> exists c, store s !! r = Some c) ->
  message_lock s = false -> clients_lock s = false ->
  clients s <> [] ->
  exists dropped h,
    broadcast_message sender message exclude s
    = (Done tt,
       set_clients
         (fold_left (fun d k => Dict.del k d) dropped (clients s))
         (set_store h s)) /\
    length h = length (store s) /\
    (forall r, ~ In r (Dict.values (clients s)) -> h !! r = store s !! r) /\
    (forall k, In k dropped ->
       exists r c, In (k, r) (clients s) /\ store s !! r = Some c /\
                   Py.eqb k exclude = false /\
                   is_active c && Socket.writable (socket c) = false) /\
    (forall k r c, In (k, r) (clients s) -> store s !! r = Some c ->
       broadcast_effect (now s) (format_message (now s) sender message)
         exclude k c dropped (h !! r)).
Proof.
  intros Hnv Hval Hm Hc Hne.
  unfold broadcast_message, bind at 1, get.
  destruct (clients s) as [|e items] eqn:Ecl; [congruence|].
  rewrite <- Ecl in *.
  rewrite (with_lock_free _ _ _ _ Hm).
  destruct (broadcast_loop_spec (format_message (now s) sender message)
              exclude (clients s) [] (set_message_lock true s))
    as (dropped & h & E & Hlh & Hframe & Hdrop & Heff).
  { exact Hnv. }
  { exact Hval. }
  unfold try_finally, bind, gets.
  change (clients (set_message_lock true s)) with (clients s).
  rewrite E. simpl app.
  rewrite remove_all_spec by exact Hc.
  exists dropped, h. split.
  { unfold modify, ret. simpl. f_equal.
    destruct s; simpl in *; subst; reflexivity. }
  split; [exact Hlh|].
  split; [exact Hframe | split; [exact Hdrop | exact Heff]].
Qed.

(** The effect of [broadcast_message] entry by entry. *)
Lemma broadcast_message_entries (s : ChatServer)
    (sender message exclude : pystr) :
  List.NoDup (Dict.keys (clients s)) ->
  List.NoDup (Dict.values (clients s)) ->
  (forall k r, In (k, r) (clients s) -> exists c, store s !! r = Some c) ->
  message_lock s = false -> clients_lock s = false ->
  let formatted := format_message (now s) sender message in
  exists s',
    broadcast_message sender message exclude s = (Done tt, s') /\
    message_lock s' = false /\ clients_lock s' = false /\
    threads s' = threads s /\
    (forall r, ~ In r (Dict.values (clients s)) ->
               store s' !! r = store s !! r) /\
    (forall k, Dict.get k (clients s) = None ->
               Dict.get k (clients s') = None) /\
    forall cid r c,
      In (cid, r) (clients s) -> store s !! r = Some c ->
      (cid = exclude ->
       store s' !! r = Some c /\ Dict.get cid (clients s') = Some r) /\
      (cid <> exclude -> is_active c = true ->
       Socket.writable (socket c) = true ->
       Dict.get cid (clients s') = Some r /\
       exists c', store s' !! r = Some c' /\
                  outbox (socket c') = outbox (socket c) ++ [formatted]) /\
      (cid <> exclude -> is_active c = true ->
       Socket.writable (socket c) = false ->
       Dict.get cid (clients s') = None /\
       exists c', store s' !! r = Some c' /\ is_active c' = false /\
                  outbox (socket c') = outbox (socket c)) /\
      (cid <> exclude -> is_active c = false ->
       Dict.get cid (clients s') = None /\ store s' !! r = Some c).
Proof.
  intros Hnd Hnv Hval Hm Hl formatted.
  destruct (clients s) as [|e0 items0] eqn:Ecl.
  { exists s. split.
    - unfold broadcast_message, bind, get. rewrite Ecl. reflexivity.
    - split; [exact Hm|]. split; [exact Hl|]. split; [reflexivity|].
      split; [reflexivity|].
      split; [intros k _; rewrite Ecl; reflexivity|]. intros cid r c []. }
  rewrite <- Ecl in *.
  destruct (broadcast_message_spec s sender message exclude Hnv Hval Hm Hl)
    as (dropped & h & E & _ & Hframe & Hdrop & Heff); [congruence|].
  eexists. split; [exact E|]. simpl.
  split; [exact Hm|]. split; [exact Hl|]. split; [reflexivity|].
  split; [exact Hframe|].
  split; [intros k Hk; apply fold_del_none, Hk|].
  intros cid r c Hin Hc. specialize (Heff cid r c Hin Hc).
  pose proof (dict_in_get _ _ _ Hnd Hin) as Hget.
  assert (Hkeep : is_active c && Socket.writable (socket c) = true \/
                  Py.eqb cid exclude = true ->
                  Dict.get cid
                    (fold_left (fun d k => Dict.del k d) dropped (clients s))
                  = Some r).
  { intros Hlive. rewrite fold_del_not_in; [exact Hget|].
    intros Hd. destruct (Hdrop cid Hd) as (r2 & c2 & Hin2 & Hc2 & Hx & Hdead).
    pose proof (dict_in_get _ _ _ Hnd Hin2) as Hget2.
    assert (r2 = r) as -> by congruence.
    assert (c2 = c) as -> by congruence.
    destruct Hlive; congruence. }
  unfold broadcast_effect in Heff. fold formatted in Heff.
  split; [|split; [|split]].
  - intros Hx. apply eqb_eq in Hx. rewrite Hx in Heff. auto.
  - intros Hx Ha Hw. apply eqb_neq in Hx. rewrite Hx, Ha, Hw in Heff.
    split; [apply Hkeep; left; rewrite Ha, Hw; reflexivity|].
    eexists. split; [exact Heff|]. reflexivity.
  - intros Hx Ha Hw. apply eqb_neq in Hx. rewrite Hx, Ha, Hw in Heff.
    destruct Heff as (Hd & k' & Hc' & Ho).
    split; [exact (fold_del_in _ _ _ Hnd Hd)|].
    eexists. split; [exact Hc'|]. split; [reflexivity | exact Ho].
  - intros Hx Ha. apply eqb_neq in Hx. rewrite Hx, Ha in Heff.
    destruct Heff as (Hd & Hc').
    split; [exact (fold_del_in _ _ _ Hnd Hd) | exact Hc'].
Qed.

Lemma locks_free_each (s : ChatServer) :
  locks_free s = true -> message_lock s = false /\ clients_lock s = false.
Proof.
  unfold locks_free. rewrite andb_true_iff, !negb_true_iff. tauto.
Qed.

(** X30 (broadcast_message): a call that finds both locks free, as every
    caller but [kick_user] makes it, formats the envelope once and
    returns.  Of the entries registered when it is called, the excluded
    one is left alone; every other entry that is marked active and whose
    socket takes the write gets exactly the formatted line appended and
    stays registered, whatever happens to the others; every entry whose
    write fails is marked inactive and is gone from the registry when the
    call returns, and so is every entry that was already marked inactive
    (nothing is written to those). *)
Theorem broadcast_message_reaches_every_live_recipient
    (s : ChatServer) (sender message exclude : pystr) :
  registry_ok s = true -> locks_free s = true ->
  let formatted := format_message (now s) sender message in
  exists s',
    broadcast_message sender message exclude s = (Done tt, s') /\
    forall cid r c,
      In (cid, r) (clients s) -> store s !! r = Some c ->
      (cid = exclude ->
       store s' !! r = Some c /\ Dict.get cid (clients s') = Some r) /\
      (cid <> exclude -> is_active c = true ->
       Socket.writable (socket c) = true ->
       Dict.get cid (clients s') = Some r /\
       exists c', store s' !! r = Some c' /\
                  outbox (socket c') = outbox (socket c) ++ [formatted]) /\
      (cid <> exclude -> is_active c = true ->
       Socket.writable (socket c) = false ->
       Dict.get cid (clients s') = None /\
       exists c', store s' !! r = Some c' /\ is_active c' = false /\
                  outbox (socket c') = outbox (socket c)) /\
      (cid <> exclude -> is_active c = false ->
       Dict.get cid (clients s') = None /\ store s' !! r = Some c).
Proof.
  intros Hok Hfree formatted.
  destruct (locks_free_each _ Hfree) as [Hm Hl].
  destruct (broadcast_message_entries s sender message exclude
              (registry_ok_keys _ Hok) (registry_ok_values _ Hok))
    as (s' & E & _ & _ & _ & _ & _ & H); [|exact Hm | exact Hl|].
  { intros k r Hin. destruct (registry_ok_entry _ _ _ Hok Hin) as (c & Hc & _).
    eauto. }
  exists s'. split; [exact E | exact H].
Qed.

(** *** C3: the end of a session *)

Lemma dict_del_incl {V} (d : list (pystr * V)) (k : pystr) (e : pystr * V) :
  In e (Dict.del k d) -> In e d.
Proof.
  induction d as [|[k0 v0] d IH]; simpl; [auto|].
  destruct (Py.eqb k0 k); simpl; tauto.
Qed.

Lemma dict_del_in_ne {V} (d : list (pystr * V)) (k k' : pystr) (v : V) :
  In (k', v) d -> k' <> k -> In (k', v) (Dict.del k d).
Proof.
  intros Hin Hne. induction d as [|[k0 v0] d IH]; simpl; [auto|].
  destruct Hin as [Hin | Hin].
  - injection Hin as -> ->.
    assert (Py.eqb k' k = false) as -> by (apply eqb_neq; exact Hne).
    left; reflexivity.
  - destruct (Py.eqb k0 k); [exact Hin | right; auto].
Qed.

Lemma dict_del_values_nodup {V} (d : list (pystr * V)) (k : pystr) :
  List.NoDup (Dict.values d) -> List.NoDup (Dict.values (Dict.del k d)).
Proof.
  induction d as [|[k0 v0] d IH]; simpl; [auto|]. intros Hnd.
  apply NoDup_cons_iff in Hnd as [Hv Hnd].
  destruct (Py.eqb k0 k); [exact Hnd|]. simpl.
  constructor; [|auto]. intros Hin. apply Hv.
  apply in_map_iff in Hin as (e & <- & Hin).
  apply in_map. exact (dict_del_incl _ _ _ Hin).
Qed.

Lemma client_id_of_nonempty (addr : pystr * Z) : client_id_of addr <> [].
Proof. unfold client_id_of. destruct (fst addr); discriminate. Qed.

Lemma close_spec (c : ClientConnection) :
  close c
  = (Done tt, set_socket (snd (Socket.close (socket c))) (set_is_active false c)).
Proof. reflexivity. Qed.

(** The [finally] block of a session: the identity leaves the registry,
    the connection is closed, every other registered connection that is
    live gets the leave notice once, and nothing else of the session is
    left to undo. *)
Lemma handle_client_finally_spec (s : ChatServer) (r : nat)
    (c : ClientConnection) :
  registry_ok s = true -> locks_free s = true ->
  store s !! r = Some c ->
  let cid := client_id_of (address c) in
  exists s',
    handle_client_finally r s = (Done tt, s') /\
    threads s' = threads s /\ clients_lock s' = false /\
    Dict.get cid (clients s') = None /\
    store s' !! r
    = Some (set_socket (snd (Socket.close (socket c))) (set_is_active false c)) /\
    forall k r' c0,
      In (k, r') (clients s) -> k <> cid -> store s !! r' = Some c0 ->
      is_active c0 = true -> Socket.writable (socket c0) = true ->
      Dict.get k (clients s') = Some r' /\
      exists c1, store s' !! r' = Some c1 /\
                 outbox (socket c1)
                 = outbox (socket c0) ++ [leave_notice (now s) (nickname c)].
Proof.
  intros Hok Hfree Hc cid.
  destruct (locks_free_each _ Hfree) as [Hm Hl].
  pose proof (registry_ok_keys _ Hok) as Hnd.
  pose proof (registry_ok_values _ Hok) as Hnv.
  assert (Hlen : (r < length (store s))%nat) by exact (lookup_lt_Some _ _ _ Hc).
  unfold handle_client_finally, bind at 1.
  rewrite (deref_at _ _ _ Hc). fold cid.
  unfold bind at 1. rewrite (remove_client_spec _ _ Hl).
  set (s1 := set_clients (Dict.del cid (clients s)) s).
  unfold bind at 1. rewrite (on_conn_at _ _ s1 c) by exact Hc.
  rewrite close_spec. cbn [fst snd].
  set (c' := set_socket _ (set_is_active false c)).
  set (s2 := set_store (<[r := c']> (store s1)) s1).
  assert (Hother : forall k r', In (k, r') (clients s) -> k <> cid -> r' <> r).
  { intros k r' Hin Hk ->.
    destruct (registry_ok_entry _ _ _ Hok Hin) as (c0 & Hc0 & Hkey).
    apply Hk. subst cid. congruence. }
  destruct (broadcast_message_entries s2 Text.system
              (Text.leave_pre ++ nickname c ++ Text.leave_post) [])
    as (s' & E & _ & Hl' & Hth & Hframe & Hnone & Hent).
  { apply dict_keys_del, Hnd. }
  { apply dict_del_values_nodup, Hnv. }
  { intros k r' Hin. apply dict_del_incl in Hin.
    destruct (registry_ok_entry _ _ _ Hok Hin) as (c0 & Hc0 & _).
    apply lookup_lt_is_Some. subst s2 s1. simpl. rewrite length_insert.
    exact (lookup_lt_Some _ _ _ Hc0). }
  { exact Hm. }
  { exact Hl. }
  exists s'. split; [exact E|]. split; [exact Hth|]. split; [exact Hl'|].
  split; [|split].
  - apply Hnone. subst s2 s1. simpl. apply dict_get_del_eq, Hnd.
  - rewrite Hframe.
    + subst s2 s1. simpl. apply list_lookup_insert_eq, Hlen.
    + subst s2 s1. simpl. intros Hin.
      apply in_map_iff in Hin as ([k r0] & Hr0 & Hin). simpl in Hr0. subst r0.
      pose proof (dict_del_incl _ _ _ Hin) as Hin0.
      destruct (registry_ok_entry _ _ _ Hok Hin0) as (c0 & Hc0 & Hkey).
      assert (k = cid) as -> by (subst cid; congruence).
      destruct (dict_keys_del (clients s) cid Hnd) as [_ Hkeys].
      assert (In cid (Dict.keys (Dict.del cid (clients s)))) as Hk
        by (apply in_map_iff; exists (cid, r); auto).
      apply Hkeys in Hk. tauto.
  - intros k r' c0 Hin Hk Hc0 Ha Hw.
    assert (Hr : r' <> r) by exact (Hother _ _ Hin Hk).
    destruct (Hent k r' c0) as (_ & Hlive & _).
    + subst s2 s1. simpl. apply dict_del_in_ne; assumption.
    + subst s2 s1. simpl. rewrite list_lookup_insert_ne by congruence.
      exact Hc0.
    + apply Hlive; [|exact Ha | exact Hw].
      destruct (registry_ok_entry _ _ _ Hok Hin) as (c1 & _ & ->).
      apply client_id_of_nonempty.
Qed.

(** The session loop ends in the [finally] block as soon as it sees, at the
    loop head, that the connection was marked inactive (by /quit, by a
    kick, by a failed write) or that the server is shutting down. *)
Lemma session_step_ends_when_not_live (s : ChatServer) (r : nat)
    (c : ClientConnection) :
  store s !! r = Some c -> threads s !! r = Some LoopHead ->
  is_active c && is_running s = false ->
  session_step r s = finish_session r s.
Proof.
  intros Hc Hpc Hlive. unfold session_step. rewrite Hpc.
  unfold handle_client_condition, bind. rewrite (deref_at _ _ _ Hc).
  unfold get, ret. rewrite Hlive. reflexivity.
Qed.

(** It ends there too when the read returns the peer's end of file, a
    reset or any other failure, and when the socket was closed under it
    (by the shutdown). *)
Lemma session_step_ends_on_read (s : ChatServer) (r : nat)
    (c : ClientConnection) :
  store s !! r = Some c -> threads s !! r = Some InRecv ->
  (closed (socket c) = true -> session_step r s = finish_session r s) /\
  (forall ev rest,
     closed (socket c) = false -> inbox (socket c) = ev :: rest ->
     ends_session ev = true ->
     session_step r s = finish_session r (after_read r c s)).
Proof.
  intros Hc Hpc. unfold session_step. rewrite Hpc.
  split; [intros Hcl | intros ev rest Hcl Hin Hev];
    unfold handle_client_pass, try_except, bind at 1;
    rewrite (on_conn_at _ _ _ _ Hc); unfold on_socket, focus, Socket.recv;
    cbv beta; rewrite Hcl.
  - simpl.
    replace (set_socket (socket c) c) with c by (destruct c; reflexivity).
    rewrite (set_store_id _ _ _ Hc). reflexivity.
  - rewrite Hin. unfold after_read. rewrite Hin, Hcl.
    destruct ev as [[[|x text]|]| |]; try discriminate; reflexivity.
Qed.

(** While the registry lock is held, the [finally] block waits in
    [remove_client]: nothing is removed, closed or announced. *)
Lemma handle_client_finally_waits_for_lock (s : ChatServer) (r : nat)
    (c : ClientConnection) :
  store s !! r = Some c -> clients_lock s = true ->
  handle_client_finally r s = (Blocked, s).
Proof.
  intros Hc Hl. unfold handle_client_finally, bind at 1.
  rewrite (deref_at _ _ _ Hc). unfold bind at 1, remove_client, with_lock.
  rewrite Hl. reflexivity.
Qed.

(** C3, as the code has it: however the session loop has ended, its
    [finally] block, run with both locks free, removes the identity of
    the connection from the registry, closes the connection and
    broadcasts the leave notice once:
    every other registered connection that is live gets exactly that line
    and stays registered.  Removing the identity again changes nothing,
    and the finished session does nothing more.  The loop ends there when
    it finds the connection marked inactive or the server shutting down,
    when its socket was closed under it, and when the read returns the
    peer's end of file, a reset or another failure. *)
Theorem session_teardown_once (s : ChatServer) (r : nat)
    (c : ClientConnection) :
  registry_ok s = true -> locks_free s = true ->
  store s !! r = Some c -> (r < length (threads s))%nat ->
  let cid := client_id_of (address c) in
  let s' := finish_session r s in
  Dict.mem cid (clients s') = false /\
  threads s' !! r = Some Finished /\
  (exists c', store s' !! r = Some c' /\ is_active c' = false /\
              closed (socket c') = true /\
              outbox (socket c') = outbox (socket c)) /\
  (forall k r' c0,
     In (k, r') (clients s) -> k <> cid -> store s !! r' = Some c0 ->
     is_active c0 = true -> Socket.writable (socket c0) = true ->
     Dict.get k (clients s') = Some r' /\
     exists c1, store s' !! r' = Some c1 /\
                outbox (socket c1)
                = outbox (socket c0) ++ [leave_notice (now s) (nickname c)]) /\
  remove_client cid s' = (Done tt, s') /\
  session_step r s' = s' /\
  (threads s !! r = Some LoopHead -> is_active c && is_running s = false ->
   session_step r s = s') /\
  (threads s !! r = Some InRecv -> closed (socket c) = true ->
   session_step r s = s') /\
  (forall s0 c0 ev rest,
     s = after_read r c0 s0 -> store s0 !! r = Some c0 ->
     threads s0 !! r = Some InRecv -> closed (socket c0) = false ->
     inbox (socket c0) = ev :: rest -> ends_session ev = true ->
     session_step r s0 = s').
Proof.
  intros Hok Hfree Hc Hr cid s'.
  assert (Htrig :
    (threads s !! r = Some LoopHead -> is_active c && is_running s = false ->
     session_step r s = s') /\
    (threads s !! r = Some InRecv -> closed (socket c) = true ->
     session_step r s = s') /\
    (forall s0 c0 ev rest,
       s = after_read r c0 s0 -> store s0 !! r = Some c0 ->
       threads s0 !! r = Some InRecv -> closed (socket c0) = false ->
       inbox (socket c0) = ev :: rest -> ends_session ev = true ->
       session_step r s0 = s')).
  { subst s'. split; [|split].
    - intros Hpc Hlive. exact (session_step_ends_when_not_live _ _ _ Hc Hpc Hlive).
    - intros Hpc Hcl.
      exact (proj1 (session_step_ends_on_read _ _ _ Hc Hpc) Hcl).
    - intros s0 c0 ev rest -> Hc0 Hpc Hcl Hin Hev.
      exact (proj2 (session_step_ends_on_read _ _ _ Hc0 Hpc) ev rest Hcl Hin Hev). }
  destruct (handle_client_finally_spec s r c Hok Hfree Hc)
    as (s1 & E & Hth & Hl1 & Hgone & Hself & Hothers).
  assert (Es : s' = set_threads (<[r := Finished]> (threads s)) s1).
  { subst s'. unfold finish_session. rewrite E. simpl. rewrite Hth.
    reflexivity. }
  rewrite Es. simpl. fold cid in Hgone.
  assert (Hpc : <[r := Finished]> (threads s) !! r = Some Finished)
    by (apply list_lookup_insert_eq, Hr).
  split; [unfold Dict.mem; rewrite Hgone; reflexivity|].
  split; [exact Hpc|].
  split; [eexists; split; [exact Hself|]; simpl; auto|].
  split; [exact Hothers|].
  split; [|split].
  - rewrite remove_client_spec by exact Hl1. simpl.
    rewrite dict_del_absent
      by (unfold Dict.mem; rewrite Hgone; reflexivity).
    reflexivity.
  - unfold session_step. simpl. rewrite Hpc. reflexivity.
  - rewrite <- Es. exact Htrig.
Qed.

(** Reading from the socket of a session changes nothing that the
    well-formedness of the registry looks at. *)
Lemma registry_ok_after_read (s : ChatServer) (r : nat) (c : ClientConnection) :
  registry_ok s = true -> store s !! r = Some c ->
  registry_ok (after_read r c s) = true.
Proof.
  unfold registry_ok. rewrite !andb_true_iff. intros [Hd Hall] Hc.
  split; [exact Hd|]. rewrite forallb_forall in *. intros e He.
  specialize (Hall e He). simpl.
  destruct (Nat.eq_dec (snd e) r) as [E | Hne].
  - rewrite E in *.
    rewrite list_lookup_insert_eq by exact (lookup_lt_Some _ _ _ Hc).
    rewrite Hc in Hall. exact Hall.
  - rewrite list_lookup_insert_ne by congruence. exact Hall.
Qed.

(** *** The acceptor *)

Section Acceptor.
Variable isalnum_ext : Z -> bool.

Lemma occurrences_absent (k : pystr) (d : list (pystr * nat)) :
  ~ In k (Dict.keys d) -> occurrences k d = O.
Proof.
  unfold occurrences. induction d as [|[k0 v0] d IH]; simpl; [auto|].
  intros H. destruct (Py.eqb k0 k) eqn:E.
  - apply eqb_eq in E. tauto.
  - apply IH. tauto.
Qed.

Lemma occurrences_set (k : pystr) (v : nat) (d : list (pystr * nat)) :
  List.NoDup (Dict.keys d) -> occurrences k (Dict.set k v d) = 1%nat.
Proof.
  unfold occurrences. induction d as [|[k0 v0] d IH]; simpl; intros Hnd.
  - rewrite eqb_refl. reflexivity.
  - apply NoDup_cons_iff in Hnd as [Hk Hnd].
    destruct (Py.eqb k0 k) eqn:E; simpl; rewrite E.
    + apply eqb_eq in E; subst. simpl. f_equal.
      exact (occurrences_absent _ _ Hk).
    + auto.
Qed.

Lemma accept_full (addr : pystr * Z) (s : ChatServer) (k : tcp_socket) :
  ServerConfig.MAX_CLIENTS <= Z.of_nat (length (clients s)) ->
  accept_connections_pass isalnum_ext addr (s, k)
  = match Socket.send Text.SERVER_FULL k with
    | (Done _, k1) => (Done Continue, (s, snd (Socket.close k1)))
    | (_, k1) => (Done Break, (s, k1))
    end.
Proof.
  intros Hfull. apply Z.leb_le in Hfull.
  unfold accept_connections_pass, try_except, bind, in_server, in_socket,
    focus, get. simpl. rewrite Hfull.
  unfold Socket.send, Socket.close, modify.
  destruct k as [inb scr out tmo cl]; simpl.
  destruct cl; [reflexivity|]. destruct scr as [|[|] ?]; reflexivity.
Qed.

Lemma accept_pass_auth (addr : pystr * Z) (s : ChatServer) (k : tcp_socket) :
  Z.of_nat (length (clients s)) < ServerConfig.MAX_CLIENTS ->
  accept_connections_pass isalnum_ext addr (s, k)
  = match authenticate_client (room_password s) k with
    | (Done true, k1) =>
        match get_client_nickname isalnum_ext (time s) k1 with
        | (Done name, k2) =>
            let h := store s ++ [new_ClientConnection (now s) k2 addr name] in
            if clients_lock s
            then (Blocked,
                  (set_threads (threads s ++ [NotStarted]) (set_store h s), k2))
            else
              (Done Continue,
               (set_clients
                  (Dict.set (client_id_of addr) (length (store s)) (clients s))
                  (set_threads
                     (<[length (store s) := Starting]>
                        (threads s ++ [NotStarted]))
                     (set_store h s)),
                k2))
        | (Raise _, k2) => (Done Break, (s, k2))
        | (Blocked, k2) => (Blocked, (s, k2))
        end
    | (Done false, k1) => (Done Continue, (s, snd (Socket.close k1)))
    | (Raise _, k1) => (Done Break, (s, k1))
    | (Blocked, k1) => (Blocked, (s, k1))
    end.
Proof.
  intros Hroom. apply Z.leb_gt in Hroom.
  unfold accept_connections_pass, try_except, bind, in_server, in_socket,
    focus, get. cbv beta iota delta [fst snd]. rewrite Hroom.
  destruct (authenticate_client (room_password s) k) as [[[|]|e|] k1];
    simpl; try reflexivity.
  destruct (get_client_nickname isalnum_ext (time s) k1) as [[name|e|] k2];
    simpl; try reflexivity.
  unfold with_lock. simpl. destruct (clients_lock s) eqn:Hl; [reflexivity|].
  simpl. unfold start_thread, set_pc, modify, ret. simpl. f_equal. f_equal.
  destruct s; simpl in *; subst; reflexivity.
Qed.

(** C1, as the code has it: what is compared with the room secret is the
    credential with the surrounding white space stripped.  While the
    registry has room and the socket takes the replies: a credential that
    matches after stripping is admitted under its identity once (the
    nickname read returning); one that does not match is answered with
    AUTH_FAILED, its socket is closed and registry and store stay as they
    are. *)
Theorem accept_connections_registers_matching_credential
    (s : ChatServer) (k : tcp_socket) (addr : pystr * Z)
    (credential : pystr) (rest : list recv_event) :
  Z.of_nat (length (clients s)) < ServerConfig.MAX_CLIENTS ->
  clients_lock s = false ->
  distinct Py.eqb (Dict.keys (clients s)) = true ->
  accepts 2 k = true ->
  inbox k = Arrives (Utf8 credential) :: rest ->
  (Py.strip credential = room_password s -> rest <> [] ->
   exists s' k' r c,
     accept_connections_pass isalnum_ext addr (s, k)
     = (Done Continue, (s', k')) /\
     occurrences (client_id_of addr) (clients s') = 1%nat /\
     Dict.get (client_id_of addr) (clients s') = Some r /\
     store s' !! r = Some c /\
     address c = addr /\ is_active c = true /\ closed (socket c) = false /\
     exists more,
       outbox (socket c)
       = outbox k ++ [Text.PASSWORD_REQUEST; Text.AUTH_SUCCESS] ++ more) /\
  (Py.strip credential <> room_password s ->
   exists k',
     accept_connections_pass isalnum_ext addr (s, k)
     = (Done Continue, (s, k')) /\
     outbox k' = outbox k ++ [Text.PASSWORD_REQUEST; Text.AUTH_FAILED] /\
     closed k' = true).
Proof.
  intros Hroom Hl Hd Hw Hin. apply (distinct_NoDup _ _ eqb_eq) in Hd.
  assert (Hcl : closed k = false).
  { unfold accepts in Hw. apply andb_true_iff in Hw as [Hw _].
    apply negb_true_iff in Hw. exact Hw. }
  rewrite (accept_pass_auth _ _ _ Hroom), Hl. split.
  - intros Hc Hrest.
    rewrite (authenticate_client_match _ _ _ _ Hw Hin Hc).
    set (k1 := after_exchange _ None k).
    destruct (get_client_nickname_returns isalnum_ext (time s) k1)
      as (name & k2 & E & Hname & Hout & Hclosed).
    { subst k1. simpl. rewrite Hin. exact Hrest. }
    rewrite E. eexists _, k2, (length (store s)), _.
    split; [reflexivity|]. simpl.
    split; [apply occurrences_set, Hd|].
    split; [apply dict_get_set_eq|].
    split; [apply list_lookup_middle; reflexivity|]. simpl.
    split; [reflexivity|]. split; [reflexivity|].
    split; [rewrite Hclosed; exact Hcl|].
    destruct Hout as [-> | ->]; subst k1; simpl.
    + exists []. reflexivity.
    + exists [Text.NICKNAME_REQUEST]. rewrite <- app_assoc. reflexivity.
  - intros Hc. rewrite (authenticate_client_mismatch _ _ _ _ Hw Hin Hc).
    eexists. split; [reflexivity|]. simpl. auto.
Qed.

(** *** C4: the capacity of the registry *)

Lemma accept_within_capacity (addr : pystr * Z) (s : ChatServer)
    (k : tcp_socket) :
  within_capacity s ->
  within_capacity (fst (snd (accept_connections_pass isalnum_ext addr (s, k)))).
Proof.
  unfold within_capacity. intros Hs.
  destruct (Z.le_gt_cases ServerConfig.MAX_CLIENTS
              (Z.of_nat (length (clients s)))) as [Hfull | Hroom].
  - rewrite (accept_full _ _ _ Hfull).
    destruct (Socket.send Text.SERVER_FULL k) as [[[]|e|] k1]; exact Hs.
  - rewrite (accept_pass_auth _ _ _ Hroom).
    destruct (authenticate_client (room_password s) k) as [[[|]|e|] k1];
      try exact Hs.
    destruct (get_client_nickname isalnum_ext (time s) k1) as [[name|e|] k2];
      try exact Hs.
    cbv zeta. destruct (clients_lock s); [exact Hs|].
    cbn [fst snd clients set_clients].
    pose proof (dict_set_length (clients s) (client_id_of addr)
                  (length (store s))). lia.
Qed.

Lemma step_within_capacity (ev : event) (s : ChatServer) :
  within_capacity s -> within_capacity (step isalnum_ext ev s).
Proof.
  intros Hs. destruct ev as [k addr | r | c | n t]; simpl.
  - destruct (accepting s && is_running s); [|exact Hs].
    pose proof (accept_within_capacity addr s k Hs) as H.
    destruct (accept_connections_pass isalnum_ext addr (s, k))
      as [[[|]|e|] [s1 k1]]; exact H.
  - pose proof (no_admission_session_step r s) as H.
    unfold within_capacity, no_admission in *. lia.
  - destruct (is_running s); [|exact Hs].
    pose proof (no_admission_console c s) as H.
    unfold within_capacity, no_admission in *. lia.
  - exact Hs.
Qed.

Lemma run_within_capacity (evs : list event) (s : ChatServer) :
  within_capacity s -> within_capacity (run isalnum_ext evs s).
Proof.
  revert s; induction evs as [|ev evs IH]; intros s Hs; simpl; [exact Hs|].
  apply IH, step_within_capacity, Hs.
Qed.

(** In every state that the server reaches from its start, the registry
    holds at most MAX_CLIENTS (5) entries; and when it holds that many, the
    acceptor answers the next connection without touching the server:
    SERVER_FULL is the only thing it may write, no password is asked for,
    and once that write has gone through the socket is closed. *)
Lemma capacity_bound_and_full_answer (evs : list event)
    (password : pystr) (n : datetime) (t : Z) :
  let s := run isalnum_ext evs (initial password n t) in
  Z.of_nat (length (clients s)) <= ServerConfig.MAX_CLIENTS /\
  forall (k : tcp_socket) (addr : pystr * Z),
    Z.of_nat (length (clients s)) = ServerConfig.MAX_CLIENTS ->
    exists o k',
      accept_connections_pass isalnum_ext addr (s, k) = (o, (s, k')) /\
      (outbox k' = outbox k \/ outbox k' = outbox k ++ [Text.SERVER_FULL]) /\
      (Socket.writable k = true ->
       o = Done Continue /\
       outbox k' = outbox k ++ [Text.SERVER_FULL] /\ closed k' = true).
Proof.
  intros s. split.
  - apply run_within_capacity. unfold within_capacity. simpl.
    unfold ServerConfig.MAX_CLIENTS. lia.
  - intros k addr Hfull. rewrite accept_full by lia.
    destruct (Socket.writable k) eqn:Hw.
    + rewrite (send_writable _ _ Hw). eexists _, _. split; [reflexivity|].
      simpl. auto.
    + destruct (send_unwritable Text.SERVER_FULL _ Hw) as (k' & E & Ho & _).
      rewrite E. eexists _, _. split; [reflexivity|].
      split; [left; exact Ho | discriminate].
Qed.

End Acceptor.

(** *** The registry stays well-formed in every state the server reaches *)

Lemma NoDup_distinct {A} (eqb : A -> A -> bool) (l : list A) :
  (forall a b, eqb a b = true <-> a = b) ->
  List.NoDup l -> distinct eqb l = true.
Proof.
  intros Heq. induction l as [|x t IH]; simpl; [auto|]. intros Hnd.
  apply NoDup_cons_iff in Hnd as [Hx Ht]. rewrite (IH Ht), andb_true_r.
  apply negb_true_iff. destruct (existsb (eqb x) t) eqn:E; [|reflexivity].
  apply existsb_exists in E as (y & Hy & E). apply Heq in E. subst y. tauto.
Qed.

Lemma registry_ok_sound (s : ChatServer) : registry_ok s = true <-> sound s.
Proof.
  split.
  - intros Hok. split; [exact (registry_ok_keys _ Hok)|].
    split; [exact (registry_ok_values _ Hok)|].
    intros k r Hin. exact (registry_ok_entry _ _ _ Hok Hin).
  - intros (Hk & Hv & He). unfold registry_ok. rewrite !andb_true_iff.
    split; [split|].
    + exact (NoDup_distinct _ _ eqb_eq Hk).
    + exact (NoDup_distinct _ _ Nat.eqb_eq Hv).
    + apply forallb_forall. intros [k r] Hin.
      destruct (He k r Hin) as (c & Hc & ->). simpl. rewrite Hc.
      apply eqb_refl.
Qed.

Lemma settles_refl (s : ChatServer) : settles s s.
Proof. unfold settles. repeat split; eauto. Qed.

Lemma settles_trans (a b c : ChatServer) :
  settles a b -> settles b c -> settles a c.
Proof.
  intros (K1 & V1 & I1 & S1) (K2 & V2 & I2 & S2). unfold settles.
  split; [auto|]. split; [auto|]. split; [auto|].
  intros r x Hx. destruct (S1 r x Hx) as (y & Hy & Ey).
  destruct (S2 r y Hy) as (z & Hz & Ez). exists z. split; [exact Hz | congruence].
Qed.

Lemma sound_settles (s s' : ChatServer) : sound s -> settles s s' -> sound s'.
Proof.
  intros (Hk & Hv & He) (K & V & I & St). split; [auto|]. split; [auto|].
  intros k r Hin. destruct (He k r (I _ Hin)) as (c & Hc & ->).
  destruct (St r c Hc) as (c' & Hc' & Ea). exists c'. split; [exact Hc'|].
  rewrite Ea. reflexivity.
Qed.

Lemma settles_same (s s' : ChatServer) :
  clients s' = clients s -> store s' = store s -> settles s s'.
Proof.
  intros Ec Es. unfold settles. rewrite Ec, Es. repeat split; eauto.
Qed.

Lemma settles_object (s : ChatServer) (r : nat) (c c' : ClientConnection) :
  store s !! r = Some c -> address c' = address c ->
  settles s (set_store (<[r := c']> (store s)) s).
Proof.
  intros Hc Ea. unfold settles. simpl.
  split; [auto|]. split; [auto|]. split; [auto|].
  intros r1 c1 Hc1. destruct (Nat.eq_dec r r1) as [<- | Hne].
  - rewrite list_lookup_insert_eq by exact (lookup_lt_Some _ _ _ Hc).
    exists c'. split; [reflexivity | congruence].
  - rewrite list_lookup_insert_ne by exact Hne. eauto.
Qed.

Lemma settles_del (k : pystr) (s : ChatServer) :
  settles s (set_clients (Dict.del k (clients s)) s).
Proof.
  unfold settles. simpl.
  split; [intros H; apply dict_keys_del, H|].
  split; [apply dict_del_values_nodup|].
  split; [apply dict_del_incl | eauto].
Qed.

Lemma settles_clear (s : ChatServer) : settles s (set_clients [] s).
Proof.
  unfold settles. simpl.
  split; [constructor|]. split; [constructor|]. split; [intros e []|eauto].
Qed.

Local Ltac settle :=
  first [ apply settles_refl | apply settles_trans | apply settles_object
        | apply settles_del | apply settles_clear
        | intros; apply settles_same; reflexivity ].

Lemma settles_session_step (r : nat) (s : ChatServer) :
  settles s (session_step r s).
Proof. apply framed_session_step; settle. Qed.

Lemma settles_console (ev : console_event) (s : ChatServer) :
  settles s (snd (server_input_handler_pass ev s)).
Proof. apply framed_server_input_handler_pass; settle. Qed.

Lemma dict_set_in {V} (d : list (pystr * V)) (k : pystr) (v : V)
    (e : pystr * V) :
  In e (Dict.set k v d) -> e = (k, v) \/ In e d.
Proof.
  induction d as [|[k0 v0] d IH]; simpl.
  - intros [<- | []]. left; reflexivity.
  - destruct (Py.eqb k0 k) eqn:E; simpl.
    + apply eqb_eq in E; subst. intros [<- | H]; auto.
    + intros [<- | H]; [auto|]. destruct (IH H); auto.
Qed.

Lemma dict_set_values_nodup {V} (d : list (pystr * V)) (k : pystr) (v : V) :
  List.NoDup (Dict.values d) -> ~ In v (Dict.values d) ->
  List.NoDup (Dict.values (Dict.set k v d)).
Proof.
  induction d as [|[k0 v0] d IH]; simpl; intros Hnd Hv.
  - constructor; [simpl; tauto | constructor].
  - apply NoDup_cons_iff in Hnd as [Hv0 Hnd].
    destruct (Py.eqb k0 k); simpl.
    + constructor; [tauto | exact Hnd].
    + constructor; [|apply IH; tauto].
      intros Hin. apply in_map_iff in Hin as (e & Ee & Hin).
      destruct (dict_set_in _ _ _ _ Hin) as [-> | Hin'].
      * simpl in Ee. subst. tauto.
      * apply Hv0. rewrite <- Ee. apply in_map. exact Hin'.
Qed.

Section Reachable.
Variable isalnum_ext : Z -> bool.

Lemma sound_accept (addr : pystr * Z) (s : ChatServer) (k : tcp_socket) :
  sound s ->
  sound (fst (snd (accept_connections_pass isalnum_ext addr (s, k)))).
Proof.
  intros Hs.
  destruct (Z.le_gt_cases ServerConfig.MAX_CLIENTS
              (Z.of_nat (length (clients s)))) as [Hfull | Hroom].
  - rewrite (accept_full _ _ _ _ Hfull).
    destruct (Socket.send Text.SERVER_FULL k) as [[[]|e|] k1]; exact Hs.
  - rewrite (accept_pass_auth _ _ _ _ Hroom).
    destruct (authenticate_client (room_password s) k) as [[[|]|e|] k1];
      try exact Hs.
    destruct (get_client_nickname isalnum_ext (time s) k1) as [[name|e|] k2];
      try exact Hs.
    cbv zeta. destruct Hs as (Hk & Hv & He).
    assert (Hold : forall k0 r0, In (k0, r0) (clients s) ->
              exists c, (store s ++ [new_ClientConnection (now s) k2 addr name])
                        !! r0 = Some c /\ k0 = client_id_of (address c)).
    { intros k0 r0 Hin. destruct (He k0 r0 Hin) as (c & Hc & ->).
      exists c. split; [apply lookup_app_l_Some, Hc | reflexivity]. }
    destruct (clients_lock s); cbn [fst snd].
    + split; [exact Hk|]. split; [exact Hv|]. exact Hold.
    + split; [apply dict_set_nodup, Hk|]. split.
      * apply dict_set_values_nodup; [exact Hv|]. simpl.
        intros Hin. apply in_map_iff in Hin as ([k0 r0] & Er & Hin).
        simpl in Er. subst r0. destruct (He _ _ Hin) as (c & Hc & _).
        apply lookup_lt_Some in Hc. lia.
      * simpl. intros k0 r0 Hin.
        destruct (dict_set_in _ _ _ _ Hin) as [E | Hin'].
        -- injection E as -> ->. eexists. split.
           ++ apply list_lookup_middle. reflexivity.
           ++ reflexivity.
        -- exact (Hold _ _ Hin').
Qed.

Lemma sound_step (ev : event) (s : ChatServer) :
  sound s -> sound (step isalnum_ext ev s).
Proof.
  intros Hs. destruct ev as [k addr | r | c | n t]; simpl.
  - destruct (accepting s && is_running s); [|exact Hs].
    pose proof (sound_accept addr s k Hs) as H.
    destruct (accept_connections_pass isalnum_ext addr (s, k))
      as [[[|]|e|] [s1 k1]]; exact H.
  - exact (sound_settles _ _ Hs (settles_session_step r s)).
  - destruct (is_running s); [|exact Hs].
    exact (sound_settles _ _ Hs (settles_console c s)).
  - exact Hs.
Qed.

(** In every state that the server reaches from its start the registry is
    a dictionary whose entries are filed under the identity of their
    connection objects, no object twice. *)
Lemma registry_ok_reachable (evs : list event) (password : pystr)
    (n : datetime) (t : Z) :
  registry_ok (run isalnum_ext evs (initial password n t)) = true.
Proof.
  apply registry_ok_sound.
  assert (H : forall s, sound s -> sound (run isalnum_ext evs s)).
  { induction evs as [|ev evs IH]; intros s Hs; simpl; [exact Hs|].
    apply IH, sound_step, Hs. }
  apply H. split; [constructor|]. split; [constructor|]. intros k r [].
Qed.

End Reachable.

(** *** The statements at work in the small room *)

Lemma remove_client_idempotent_witness :
  clients_lock Demo.chatting = false /\
  distinct Py.eqb (Dict.keys (clients Demo.chatting)) = true /\
  Dict.mem Demo.alice_id
    (clients (snd (remove_client Demo.alice_id Demo.chatting))) = false /\
  remove_client Demo.alice_id (snd (remove_client Demo.alice_id Demo.chatting))
  = (Done tt, snd (remove_client Demo.alice_id Demo.chatting)).
Proof.
  split; [vm_compute; reflexivity|]. split; [vm_compute; reflexivity|].
  destruct (remove_client_idempotent Demo.chatting Demo.alice_id)
    as (_ & _ & H1 & H2);
    [vm_compute; reflexivity | vm_compute; reflexivity |].
  split; assumption.
Defined.

Lemma handle_command_always_replies_witness :
  registry_ok Demo.chatting = true /\
  clients_lock Demo.chatting = false /\
  exists bob s' bob',
    store Demo.chatting !! 1%nat = Some bob /\
    is_active bob = true /\ Socket.writable (socket bob) = true /\
    handle_command 1 (Py.lit "/dance") Demo.chatting = (Done tt, s') /\
    store s' !! 1%nat = Some bob' /\
    is_active bob' = true /\
    outbox (socket bob')
    = outbox (socket bob)
      ++ [format_message Demo.noon Text.system
            (Text.unknown_pre ++ Py.lit "/dance" ++ Text.unknown_post)].
Proof.
  split; [vm_compute; reflexivity|]. split; [vm_compute; reflexivity|].
  assert (Hb : exists bob, store Demo.chatting !! 1%nat = Some bob /\
                           is_active bob = true /\
                           Socket.writable (socket bob) = true)
    by (vm_compute; eexists; split; [reflexivity | split; reflexivity]).
  destruct Hb as (bob & Hb & Ha & Hw).
  destruct (handle_command_always_replies Demo.chatting 1 bob (Py.lit "/dance")
              Hb Ha Hw)
    as (_ & reply & s' & bob' & E & Hb' & Hout & Hact & _ & Hreply);
    [vm_compute; reflexivity | vm_compute; reflexivity |].
  exists bob, s', bob'.
  split; [exact Hb|]. split; [exact Ha|]. split; [exact Hw|].
  split; [exact E|]. split; [exact Hb'|]. split; [exact Hact|].
  rewrite Hout, Hreply by (vm_compute; reflexivity). reflexivity.
Defined.

Lemma get_client_nickname_alnum_or_placeholder_witness :
  Socket.writable (Demo.peer [Demo.says "Alice"]) = true /\
  exists name k',
    get_client_nickname Demo.ascii_only 1700001234
      (Demo.peer [Demo.says "Alice"])
    = (Done name, k') /\
    name = Py.lit "Alice".
Proof.
  split; [reflexivity|].
  destruct (get_client_nickname_alnum_or_placeholder Demo.ascii_only
              1700001234 (Py.lit "Alice") (Demo.peer [Demo.says "Alice"]) []
              Demo.noon Demo.alice_address)
    as (name & k' & E & _ & Hok & _); [reflexivity | reflexivity |].
  exists name, k'. split; [exact E|].
  apply Hok; [vm_compute; discriminate | vm_compute; discriminate
             | vm_compute; reflexivity].
Defined.

(** C5 as stated fails: a nickname with an underscore is not kept, and the
    name put in its place comes from the clock (here 1700001234 seconds),
    not from the port of the connection. *)
Lemma get_client_nickname_rejects_underscore :
  fst (get_client_nickname Demo.ascii_only 1700001234
         (Demo.peer [Demo.says "a_b"]))
  = Done (Py.lit "User_1234").
Proof. vm_compute. reflexivity. Qed.

Lemma accept_connections_registers_matching_credential_witness :
  Z.of_nat (length (clients Demo.opened)) < ServerConfig.MAX_CLIENTS /\
  clients_lock Demo.opened = false /\
  accepts 2 (Demo.peer [Demo.says "room1"; Demo.says "Alice"]) = true /\
  exists s' k',
    accept_connections_pass Demo.ascii_only Demo.alice_address
      (Demo.opened, Demo.peer [Demo.says "room1"; Demo.says "Alice"])
    = (Done Continue, (s', k')) /\
    occurrences Demo.alice_id (clients s') = 1%nat.
Proof.
  split; [vm_compute; reflexivity|]. split; [reflexivity|].
  split; [reflexivity|].
  destruct (accept_connections_registers_matching_credential Demo.ascii_only
              Demo.opened (Demo.peer [Demo.says "room1"; Demo.says "Alice"])
              Demo.alice_address (Py.lit "room1") [Demo.says "Alice"])
    as [Hjoin _];
    [vm_compute; reflexivity | reflexivity | reflexivity | reflexivity
    | reflexivity |].
  destruct Hjoin as (s' & k' & r & c & E & Hocc & _);
    [vm_compute; reflexivity | discriminate |].
  exists s', k'. split; [exact E | exact Hocc].
Defined.

(** C1 as stated fails: the credential "room1 " differs from the secret
    "room1", and the connection is admitted all the same, the server
    comparing what is left after stripping. *)
Lemma credential_with_trailing_space_is_accepted :
  Py.eqb (Py.lit "room1 ") (room_password Demo.opened) = false /\
  Dict.mem Demo.alice_id
    (clients
       (step Demo.ascii_only
          (Connect (Demo.peer [Demo.says "room1 "; Demo.says "Alice"])
             Demo.alice_address)
          Demo.opened))
  = true.
Proof. vm_compute. split; reflexivity. Qed.

Lemma broadcast_message_reaches_every_live_recipient_witness :
  registry_ok Demo.chatting = true /\ locks_free Demo.chatting = true /\
  exists s' bob bob',
    broadcast_message (Py.lit "Alice") (Py.lit "hi") Demo.alice_id Demo.chatting
    = (Done tt, s') /\
    store Demo.chatting !! 1%nat = Some bob /\
    store s' !! 1%nat = Some bob' /\
    outbox (socket bob')
    = outbox (socket bob) ++ [Py.lit "[12:00:00] Alice: hi"].
Proof.
  split; [vm_compute; reflexivity|]. split; [vm_compute; reflexivity|].
  destruct (broadcast_message_reaches_every_live_recipient Demo.chatting
              (Py.lit "Alice") (Py.lit "hi") Demo.alice_id)
    as (s' & E & H); [vm_compute; reflexivity | vm_compute; reflexivity |].
  assert (Hb : exists bob, store Demo.chatting !! 1%nat = Some bob /\
                           is_active bob = true /\
                           Socket.writable (socket bob) = true)
    by (vm_compute; eexists; split; [reflexivity | split; reflexivity]).
  destruct Hb as (bob & Hb & Ha & Hw).
  destruct (H Demo.bob_id 1%nat bob) as (_ & Hlive & _);
    [vm_compute; auto | exact Hb |].
  destruct Hlive as (_ & bob' & Hb' & Hout);
    [vm_compute; discriminate | exact Ha | exact Hw |].
  exists s', bob, bob'.
  split; [exact E|]. split; [exact Hb|]. split; [exact Hb'|]. exact Hout.
Defined.

Lemma session_teardown_once_witness :
  registry_ok Demo.chatting = true /\ locks_free Demo.chatting = true /\
  exists alice,
    store Demo.chatting !! 0%nat = Some alice /\
    Dict.mem (client_id_of (address alice))
      (clients (finish_session 0 Demo.chatting)) = false /\
    threads (finish_session 0 Demo.chatting) !! 0%nat = Some Finished /\
    session_step 0 (finish_session 0 Demo.chatting)
    = finish_session 0 Demo.chatting.
Proof.
  split; [vm_compute; reflexivity|]. split; [vm_compute; reflexivity|].
  assert (Hb : exists alice, store Demo.chatting !! 0%nat = Some alice)
    by (vm_compute; eexists; reflexivity).
  destruct Hb as (alice & Hb). exists alice. split; [exact Hb|].
  destruct (session_teardown_once Demo.chatting 0 alice)
    as (Hgone & Hpc & _ & _ & _ & Hstep & _);
    [vm_compute; reflexivity | vm_compute; reflexivity | exact Hb
    | vm_compute; lia |].
  split; [exact Hgone|]. split; [exact Hpc | exact Hstep].
Defined.

(** C3 as stated fails: Alice is kicked and then hangs up.  [kick_user]
    broadcasts its notice, the [finally] block of her session broadcasts
    the leave notice, and Bob has two lines that announce her departure. *)
Lemma kicked_connection_is_announced_twice :
  let s :=
    run Demo.ascii_only
      [Console (Typed (Py.lit "/kick Alice")); Session 0] Demo.chatting in
  threads s !! 0%nat = Some Finished /\
  option_map
    (fun bob => departure_notices Demo.noon (Py.lit "Alice")
                  (outbox (socket bob)))
    (store s !! 1%nat)
  = Some 2%nat.
Proof. vm_compute. split; reflexivity. Qed.

(** When the socket refuses the marker, the pass at capacity neither
    closes it nor goes on: the [OSError] of the write leaves the loop. *)
Lemma accept_full_refused (isalnum_ext : Z -> bool) (s : ChatServer)
    (k : tcp_socket) (addr : pystr * Z) :
  ServerConfig.MAX_CLIENTS <= Z.of_nat (length (clients s)) ->
  Socket.writable k = false ->
  exists k',
    accept_connections_pass isalnum_ext addr (s, k) = (Done Break, (s, k')) /\
    outbox k' = outbox k /\ closed k' = closed k.
Proof.
  intros Hfull Hw. rewrite (accept_full isalnum_ext _ _ _ Hfull).
  destruct (send_unwritable Text.SERVER_FULL k Hw) as (k' & -> & Ho & _ & Hc).
  exists k'. split; [reflexivity|]. split; [exact Ho | exact Hc].
Qed.

(** C4 on the code.  The bound on the registry holds in every state that
    the server reaches.  The rejection at capacity does not: five guests
    fill the room, and the sixth peer has reset its connection before it
    is answered.  The write of SERVER_FULL fails, the socket is not
    closed, and the [OSError] ends the loop of the acceptor: no connection
    that comes later is answered at all. *)
Theorem refused_full_marker_ends_the_acceptor :
  (forall isalnum_ext evs password n t,
     Z.of_nat (length (clients (run isalnum_ext evs (initial password n t))))
     <= ServerConfig.MAX_CLIENTS) /\
  Z.of_nat (length (clients Scene.full)) = ServerConfig.MAX_CLIENTS /\
  accepting Scene.full = true /\ is_running Scene.full = true /\
  (exists k',
     accept_connections_pass Demo.ascii_only Scene.sixth_address
       (Scene.full, Scene.sixth)
     = (Done Break, (Scene.full, k')) /\
     outbox k' = [] /\ closed k' = false) /\
  let after :=
    step Demo.ascii_only (Connect Scene.sixth Scene.sixth_address) Scene.full in
  accepting after = false /\
  forall later later_address,
    step Demo.ascii_only (Connect later later_address) after = after.
Proof.
  split.
  { intros isalnum_ext evs password n t. apply run_within_capacity.
    unfold within_capacity. simpl. unfold ServerConfig.MAX_CLIENTS. lia. }
  assert (Hfull : Z.of_nat (length (clients Scene.full))
                  = ServerConfig.MAX_CLIENTS) by (vm_compute; reflexivity).
  assert (Hacc : accepting Scene.full = true) by (vm_compute; reflexivity).
  assert (Hrun : is_running Scene.full = true) by (vm_compute; reflexivity).
  split; [exact Hfull|]. split; [exact Hacc|]. split; [exact Hrun|].
  destruct (accept_full_refused Demo.ascii_only Scene.full Scene.sixth
              Scene.sixth_address)
    as (k' & E & Hout & Hcl); [rewrite Hfull; lia | reflexivity |].
  split; [exists k'; split; [exact E|]; split; [exact Hout | exact Hcl]|].
  intros after.
  assert (Eafter : after = set_accepting false Scene.full).
  { subst after. unfold step. rewrite Hacc, Hrun, E. reflexivity. }
  rewrite Eafter. split; [reflexivity|].
  intros later later_address. reflexivity.
Qed.

End ServerFacts.

(** ** The client *)

Module ClientFacts.
Import Client.

Section Input.
Variable lower_ext : Z -> pystr.

(** A body of more than 500 characters is refused before anything is
    written: the call reports failure and leaves the client as it was. *)
Lemma send_message_too_long (message : pystr) (c : ChatClient) :
  ClientConfig.MAX_MESSAGE_SIZE < Py.len message ->
  send_message message c = (Done false, c).
Proof.
  intros Hlen. apply Z.ltb_lt in Hlen.
  unfold send_message, try_except, bind, get. rewrite Hlen.
  destruct (negb (is_connected c)
            || match client_socket c with None => true | Some _ => false end);
    reflexivity.
Qed.

Lemma send_message_sent (message : pystr) (c : ChatClient) (k : tcp_socket) :
  is_connected c = true -> client_socket c = Some k ->
  Socket.writable k = true ->
  Py.len message <= ClientConfig.MAX_MESSAGE_SIZE ->
  send_message message c
  = (Done true, set_client_socket (Some (pushed message k)) c).
Proof.
  intros Hconn Hk Hw Hlen. apply Z.ltb_ge in Hlen.
  unfold send_message, try_except, bind, get, on_client_socket.
  rewrite Hconn, Hk, Hlen. simpl. rewrite Hk, (ServerFacts.send_writable _ _ Hw).
  reflexivity.
Qed.

(** The loop of the client, one typed line at a time. *)
Lemma handle_user_input_line (text : pystr) (rest : list input_event)
    (c : ChatClient) :
  is_running c = true -> is_connected c = true ->
  Py.strip text <> [] ->
  let u := Py.strip text in
  handle_user_input lower_ext (Line text :: rest) c
  = if among (lower lower_ext u) quit_directives
    then (send_message (Py.lit "/quit") ;; ret rest)%monad c
    else if among (lower lower_ext u) local_directives
    then handle_user_input lower_ext rest c
    else match send_message u c with
         | (Done true, c') =>
             handle_user_input lower_ext rest (set_current_input_buffer [] c')
         | (Done false, c') => (Done rest, c')
         | (Raise _, c') => (Done rest, c')
         | (Blocked, c') => (Blocked, c')
         end.
Proof.
  intros Hrun Hconn Hne u. subst u. simpl. rewrite Hrun, Hconn. simpl.
  remember (lower lower_ext (Py.strip text)) as l.
  remember (send_message (Py.strip text) c) as sm.
  destruct (Py.strip text) as [|x u']; [congruence|].
  repeat match goal with
         | |- context [Py.eqb l ?b] => destruct (Py.eqb l b)
         end; simpl; try reflexivity; destruct sm as [[[|]|e|] c']; reflexivity.
Qed.

(** C7, as the code has it.  A typed line, stripped and compared in lower
    case as a whole: /help, /clear, /cls and /time are handled locally and
    nothing is transmitted; /quit, /exit and /q transmit the line /quit and
    end the loop; any other line of at most 500 characters is transmitted
    as typed (stripped), and the loop goes on. *)
Theorem handle_user_input_directives (text : pystr) (rest : list input_event)
    (c : ChatClient) (k : tcp_socket) :
  is_running c = true -> is_connected c = true ->
  client_socket c = Some k -> Socket.writable k = true ->
  Py.strip text <> [] ->
  let u := Py.strip text in
  (among (lower lower_ext u) local_directives = true ->
   handle_user_input lower_ext (Line text :: rest) c
   = handle_user_input lower_ext rest c) /\
  (among (lower lower_ext u) quit_directives = true ->
   handle_user_input lower_ext (Line text :: rest) c
   = (Done rest, set_client_socket (Some (pushed (Py.lit "/quit") k)) c)) /\
  (among (lower lower_ext u) (quit_directives ++ local_directives) = false ->
   Py.len u <= ClientConfig.MAX_MESSAGE_SIZE ->
   handle_user_input lower_ext (Line text :: rest) c
   = handle_user_input lower_ext rest
       (set_current_input_buffer []
          (set_client_socket (Some (pushed u k)) c))).
Proof.
  intros Hrun Hconn Hk Hw Hne u.
  rewrite (handle_user_input_line _ _ _ Hrun Hconn Hne). fold u.
  assert (Hquit : send_message (Py.lit "/quit") c
                  = (Done true,
                     set_client_socket (Some (pushed (Py.lit "/quit") k)) c)).
  { apply send_message_sent; try assumption. vm_compute. discriminate. }
  split; [|split].
  - intros Hloc.
    destruct (among (lower lower_ext u) quit_directives) eqn:Eq;
      [|rewrite Hloc; reflexivity].
    exfalso. unfold among, quit_directives in Eq.
    apply existsb_exists in Eq as (q & Hq & Eq). apply eqb_eq in Eq.
    rewrite Eq in Hloc. simpl in Hq.
    destruct Hq as [<- | [<- | [<- | []]]]; vm_compute in Hloc; discriminate.
  - intros Hq. rewrite Hq. unfold bind. rewrite Hquit. reflexivity.
  - intros Hnone Hlen. unfold among in *. rewrite existsb_app in Hnone.
    apply orb_false_iff in Hnone as [-> ->].
    rewrite (send_message_sent _ _ _ Hconn Hk Hw Hlen). reflexivity.
Qed.

End Input.

(** *** The statements at work on a connected client *)

Lemma handle_user_input_directives_witness :
  Client.is_running Demo.client = true /\
  Client.is_connected Demo.client = true /\
  handle_user_input Demo.unchanged [Line (Py.lit " hello ")] Demo.client
  = handle_user_input Demo.unchanged []
      (set_current_input_buffer []
         (set_client_socket (Some (pushed (Py.lit "hello") (Demo.peer [])))
            Demo.client)).
Proof.
  split; [reflexivity|]. split; [reflexivity|].
  destruct (handle_user_input_directives Demo.unchanged (Py.lit " hello ") []
              Demo.client (Demo.peer []))
    as (_ & _ & Hsend);
    [reflexivity | reflexivity | reflexivity | reflexivity
    | vm_compute; discriminate |].
  apply Hsend; [vm_compute; reflexivity | vm_compute; discriminate].
Defined.

(** C7 as stated fails: the directive /quit is not kept local, the line
    /quit goes to the server; and a line that only begins with a directive
    is sent like any other line. *)
Lemma quit_directive_is_transmitted :
  handle_user_input Demo.unchanged [Line (Py.lit "/quit")] Demo.client
  = (Done [],
     set_client_socket (Some (pushed (Py.lit "/quit") (Demo.peer [])))
       Demo.client) /\
  handle_user_input Demo.unchanged [Line (Py.lit "/help me"); EOFError]
    Demo.client
  = (Done [],
     set_current_input_buffer []
       (set_client_socket
          (Some (pushed (Py.lit "/quit")
                   (pushed (Py.lit "/help me") (Demo.peer []))))
          Demo.client)).
Proof. vm_compute. split; reflexivity. Qed.

(** C6 on the code: a typed line of 501 characters puts nothing on the
    wire, and with it the interactive loop is over: the line typed next is
    never read, and [run] goes on to disconnect. *)
Theorem over_long_message_ends_the_chat :
  let long := repeat 97 501 in
  let typed := [Line long; Line (Py.lit "hello")] in
  send_message long Demo.client = (Done false, Demo.client) /\
  handle_user_input Demo.unchanged typed Demo.client
  = (Done [Line (Py.lit "hello")], Demo.client) /\
  fst (run_chat Demo.unchanged typed Demo.client)
  = Done [Line (Py.lit "hello")] /\
  Client.is_connected (snd (run_chat Demo.unchanged typed Demo.client)) = false /\
  client_socket (snd (run_chat Demo.unchanged typed Demo.client)) = None.
Proof. vm_compute. repeat split. Qed.

(** The same for every over-long line that is no directive: the loop ends
    where it stands and the client is as it was. *)
Lemma over_long_line_ends_loop (lower_ext : Z -> pystr) (text : pystr)
    (rest : list input_event) (c : ChatClient) :
  Client.is_running c = true -> Client.is_connected c = true ->
  ClientConfig.MAX_MESSAGE_SIZE < Py.len (Py.strip text) ->
  among (lower lower_ext (Py.strip text)) (quit_directives ++ local_directives)
  = false ->
  handle_user_input lower_ext (Line text :: rest) c = (Done rest, c).
Proof.
  intros Hrun Hconn Hlen Hnone.
  assert (Hne : Py.strip text <> []).
  { intros E. rewrite E in Hlen. vm_compute in Hlen. discriminate. }
  rewrite (handle_user_input_line _ _ _ _ Hrun Hconn Hne). cbv zeta.
  unfold among in *. rewrite existsb_app in Hnone.
  apply orb_false_iff in Hnone as [-> ->].
  rewrite (send_message_too_long _ _ Hlen). reflexivity.
Qed.

End ClientFacts.

(** * More of utils.py *)

Module UtilsFacts.

Import Utils.

Lemma tidy_chars (p : bool) (s : pystr) :
  tidy p s = true ->
  Forall (fun c => is_control c = false /\ (Py.isspace c = true -> c = 32)) s.
Proof.
  revert p; induction s as [|c t IH]; intros p; simpl; [constructor|].
  destruct (Py.isspace c) eqn:Ec; rewrite !andb_true_iff.
  - intros [[Hc _] Ht]. apply Z.eqb_eq in Hc. subst c.
    constructor; [split; [reflexivity | reflexivity] | eauto].
  - intros [Hc Ht]. apply negb_true_iff in Hc.
    constructor; [split; [exact Hc | congruence] | eauto].
Qed.

Lemma tidy_no_double_space (p : bool) (s : pystr) (i : nat) :
  tidy p s = true -> s !! i = Some 32 -> s !! S i <> Some 32.
Proof.
  revert p i; induction s as [|c t IH]; intros p i; simpl; [discriminate|].
  destruct i as [|i].
  - simpl. intros Ht [= ->]. simpl in Ht.
    rewrite !andb_true_iff in Ht. destruct Ht as [_ Ht].
    destruct t as [|d u]; [discriminate|]. simpl. intros [= ->].
    simpl in Ht. try rewrite andb_false_r in Ht. discriminate.
  - intros Ht. apply (IH (Py.isspace c)).
    destruct (Py.isspace c); rewrite !andb_true_iff in Ht; apply Ht.
Qed.

Lemma tidy_slice (n : Z) (s : pystr) :
  tidy false s = true -> tidy false (Py.slice_to n s) = true.
Proof.
  intros Ht. unfold Py.slice_to. destruct (n <? 0); apply tidy_take, Ht.
Qed.

Lemma sanitize_input_tidy_any (s : pystr) (m : option Z) (b : bool) :
  tidy false (sanitize_input s m b) = true.
Proof.
  unfold sanitize_input. fold (cleaned s b).
  pose proof (cleaned_tidy s b) as Ht.
  destruct m as [n|]; [|exact Ht].
  destruct (negb (n =? 0) && (n <? Py.len (cleaned s b))); [|exact Ht].
  apply tidy_rstrip, tidy_slice, Ht.
Qed.

Lemma sanitize_input_stable_after_two_witness :
  sanitize_input
    (sanitize_input (sanitize_input [0; 32; 97] (Some 10) false) (Some 10)
       false) (Some 10) false
  = [97].
Proof.
  rewrite (sanitize_input_stable_after_two [0; 32; 97] 10 false ltac:(lia)).
  reflexivity.
Defined.

(** X2 (sanitize_input): whatever the text, the bound and the flag, the
    result holds no character of the control class, its only white space
    is the plain space, and no two spaces are adjacent. *)
Theorem sanitize_input_normal_form
    (text : pystr) (max_length : option Z) (allow_newlines : bool) :
  let out := sanitize_input text max_length allow_newlines in
  Forall (fun c => is_control c = false /\ (Py.isspace c = true -> c = 32))
    out /\
  (forall i, out !! i = Some 32 -> out !! S i <> Some 32).
Proof.
  intros out. pose proof (sanitize_input_tidy_any text max_length
                            allow_newlines) as Ht.
  split; [exact (tidy_chars _ _ Ht)|].
  intros i. exact (tidy_no_double_space _ _ i Ht).
Qed.

Lemma collapse_after_replace (r : bool) (s : pystr) :
  collapse_ws r
    (List.filter (fun c => negb (is_control c))
       (Py.replace1 13 32 (Py.replace1 10 32 s)))
  = collapse_ws r (List.filter (fun c => negb (is_control c)) s).
Proof.
  revert r; induction s as [|c t IH]; intros r; [reflexivity|].
  unfold Py.replace1 in *. cbn [map List.filter].
  destruct (c =? 10) eqn:E10.
  - apply Z.eqb_eq in E10. subst c. cbn. destruct r; rewrite IH; reflexivity.
  - destruct (c =? 13) eqn:E13.
    + apply Z.eqb_eq in E13. subst c. cbn.
      destruct r; rewrite IH; reflexivity.
    + destruct (negb (is_control c)); [|apply IH].
      cbn [collapse_ws]. destruct (Py.isspace c);
        [destruct r|]; rewrite IH; reflexivity.
Qed.

(** X3 (sanitize_input): the flag [allow_newlines] changes nothing; line
    feeds and carriage returns are white space, which the collapsing of
    white space turns into spaces in either case. *)
Theorem sanitize_input_ignores_allow_newlines
    (text : pystr) (max_length : option Z) :
  sanitize_input text max_length true = sanitize_input text max_length false.
Proof.
  unfold sanitize_input. rewrite collapse_after_replace. reflexivity.
Qed.

(** ** [format_message] and [parse_message] *)

Lemma two_digits_upto_100 :
  forallb two_digits (map Z.of_nat (seq 0 100)) = true.
Proof. vm_compute. reflexivity. Qed.

Lemma padded_two (n : Z) :
  0 <= n < 100 ->
  exists a b, Py.padded 2 n = [a; b] /\ 48 <= a <= 57 /\ 48 <= b <= 57.
Proof.
  intros Hn.
  assert (Hin : In n (map Z.of_nat (seq 0 100))).
  { apply in_map_iff. exists (Z.to_nat n). split; [lia|].
    apply in_seq. lia. }
  pose proof (proj1 (forallb_forall _ _) two_digits_upto_100 n Hin) as H.
  unfold two_digits in H.
  destruct (Py.padded 2 n) as [|a [|b [|c r]]]; try discriminate.
  exists a, b. split; [reflexivity|].
  rewrite !andb_true_iff in H. lia.
Qed.

Lemma strftime_HMS_shape (t : datetime) :
  clock_ok t = true ->
  exists h1 h2 m1 m2 s1 s2,
    strftime_HMS t = [h1; h2; 58; m1; m2; 58; s1; s2] /\
    Forall (fun d => 48 <= d <= 57) [h1; h2; m1; m2; s1; s2].
Proof.
  unfold clock_ok. rewrite !andb_true_iff. intros H.
  destruct (padded_two (hour t)) as (h1 & h2 & Eh & Hh1 & Hh2); [lia|].
  destruct (padded_two (minute t)) as (m1 & m2 & Em & Hm1 & Hm2); [lia|].
  destruct (padded_two (second t)) as (s1 & s2 & Es & Hs1 & Hs2); [lia|].
  exists h1, h2, m1, m2, s1, s2. unfold strftime_HMS.
  rewrite Eh, Em, Es. split; [reflexivity|].
  repeat constructor; lia.
Qed.

Lemma sanitize_input_chars (s : pystr) (m : option Z) (b : bool) :
  Forall (fun c => is_control c = false /\ c <> 10 /\ c <> 13)
    (sanitize_input s m b).
Proof.
  pose proof (tidy_chars _ _ (sanitize_input_tidy_any s m b)) as H.
  eapply List.Forall_impl; [|exact H]. intros c [Hc Hsp].
  split; [exact Hc|].
  split; intros ->; specialize (Hsp eq_refl); discriminate.
Qed.

(** X4 (format_message): for a reading of the clock, the line is
    [[HH:MM:SS] sender: content] with the cleaned sender and content; it
    has at most 533 characters, none of them a line feed, a carriage
    return or of the control class. *)
Theorem format_message_is_one_bounded_line
    (now : datetime) (sender content : pystr) :
  clock_ok now = true ->
  let line := format_message now sender content in
  Py.len line <= 533 /\
  Forall (fun c => is_control c = false /\ c <> 10 /\ c <> 13) line.
Proof.
  intros Hnow line. subst line. unfold format_message.
  destruct (strftime_HMS_shape now Hnow)
    as (h1 & h2 & m1 & m2 & s1 & s2 & -> & Hd).
  pose proof (sanitize_input_length sender 20 false ltac:(lia)) as Hs.
  pose proof (sanitize_input_length content 500 false ltac:(lia)) as Hc.
  unfold UtilsConfig.MAX_NICKNAME_LENGTH, UtilsConfig.MAX_MESSAGE_LENGTH.
  split.
  - unfold Py.len in *. rewrite !length_app. cbn [length]. lia.
  - assert (Hin : forall d, In d [h1; h2; m1; m2; s1; s2] ->
              is_control d = false /\ d <> 10 /\ d <> 13).
    { intros d Hd'. rewrite List.Forall_forall in Hd. specialize (Hd d Hd').
      split; [unfold is_control; lia | lia]. }
    cbn [app].
    repeat (constructor;
            [first [apply Hin; simpl; tauto | split; [reflexivity | lia]]|]).
    apply Forall_app; split; [apply sanitize_input_chars|].
    repeat (constructor; [split; [reflexivity | lia]|]).
    apply sanitize_input_chars.
Qed.

Lemma format_message_is_one_bounded_line_witness :
  Py.len (format_message Demo.noon (Py.lit "alice") (Py.lit "hi")) <= 533.
Proof.
  exact (proj1 (format_message_is_one_bounded_line Demo.noon (Py.lit "alice")
                  (Py.lit "hi") eq_refl)).
Defined.

Lemma lstrip_rstrip (s : pystr) :
  Py.lstrip (Py.rstrip s) = Py.rstrip (Py.lstrip s).
Proof.
  induction s as [|c t IH]; [reflexivity|]. simpl.
  destruct (Py.isspace c) eqn:Hc.
  - destruct (Py.rstrip t) as [|d u] eqn:Et.
    + rewrite <- IH. reflexivity.
    + rewrite <- IH. simpl. rewrite Hc. reflexivity.
  - simpl. destruct (Py.rstrip t); simpl; rewrite Hc; reflexivity.
Qed.

Lemma strip_rstrip (s : pystr) : Py.strip (Py.rstrip s) = Py.strip s.
Proof.
  unfold Py.strip. rewrite lstrip_rstrip, rstrip_idem. reflexivity.
Qed.

Lemma rstrip_app (x s : pystr) :
  Py.rstrip s <> [] -> Py.rstrip (x ++ s) = x ++ Py.rstrip s.
Proof.
  intros Hs. induction x as [|c x IH]; [reflexivity|]. simpl. rewrite IH.
  destruct (x ++ Py.rstrip s) eqn:E; [|reflexivity].
  apply app_eq_nil in E. tauto.
Qed.

Lemma up_to_colon_app (s rest : pystr) :
  colon_free s = true -> up_to_colon (s ++ 58 :: rest) = s.
Proof.
  induction s as [|c t IH]; simpl; [reflexivity|].
  rewrite andb_true_iff. intros [Hc Ht].
  apply negb_true_iff in Hc. rewrite Hc, IH by exact Ht. reflexivity.
Qed.

Lemma dot_plus_end_line (s : pystr) :
  s <> [] -> Forall (fun c => c <> 10) s -> dot_plus_end s = Some s.
Proof.
  intros Hne Hs. unfold dot_plus_end.
  assert (Hbody : match rev s with
                  | c :: front => if c =? 10 then rev front else s
                  | [] => s
                  end = s).
  { destruct (rev s) as [|c front] eqn:E; [reflexivity|].
    destruct (c =? 10) eqn:Ec; [|reflexivity].
    apply Z.eqb_eq in Ec. subst c. exfalso.
    assert (Hin : In 10 s) by (apply in_rev; rewrite E; left; reflexivity).
    rewrite List.Forall_forall in Hs. exact (Hs 10 Hin eq_refl). }
  rewrite Hbody. destruct s as [|c t]; [congruence|].
  assert (forallb (fun c => negb (c =? 10)) (c :: t) = true) as ->;
    [|reflexivity].
  apply forallb_forall. intros d Hd. rewrite List.Forall_forall in Hs.
  apply negb_true_iff, Z.eqb_neq. exact (Hs d Hd).
Qed.

Lemma tidy_no_newline (p : bool) (s : pystr) :
  tidy p s = true -> Forall (fun c => c <> 10) s.
Proof.
  intros Ht. eapply List.Forall_impl; [|exact (tidy_chars _ _ Ht)].
  intros c [_ Hsp] ->. specialize (Hsp eq_refl). discriminate.
Qed.

Section Parse.

Variable digit_ext : Z -> bool.

(** X5 (parse_message after format_message): for a reading of the clock,
    a cleaned sender that is not empty and has no colon, and a cleaned
    content that is not blank, parsing the formatted line gives back the
    time as printed, and the cleaned sender and content without the white
    space at their ends. *)
Theorem parse_message_of_format_message
    (now : datetime) (sender content : pystr) :
  let clean_sender :=
    sanitize_input sender (Some UtilsConfig.MAX_NICKNAME_LENGTH) false in
  let clean_content :=
    sanitize_input content (Some UtilsConfig.MAX_MESSAGE_LENGTH) false in
  clock_ok now = true ->
  clean_sender <> [] -> colon_free clean_sender = true ->
  Py.strip clean_content <> [] ->
  parse_message digit_ext (format_message now sender content)
  = Some (strftime_HMS now, Py.strip clean_sender, Py.strip clean_content).
Proof.
  intros S C Hnow HS Hcolon HC.
  unfold format_message. fold S. fold C.
  destruct (strftime_HMS_shape now Hnow)
    as (h1 & h2 & m1 & m2 & s1 & s2 & -> & Hd).
  assert (HrC : Py.rstrip C <> []).
  { intros E. apply HC. rewrite <- strip_rstrip, E. reflexivity. }
  assert (Hstrip :
    Py.strip ([91] ++ [h1; h2; 58; m1; m2; 58; s1; s2] ++ [93; 32] ++ S
              ++ [58; 32] ++ C)
    = 91 :: h1 :: h2 :: 58 :: m1 :: m2 :: 58 :: s1 :: s2 :: 93 :: 32
      :: (S ++ 58 :: 32 :: Py.rstrip C)).
  { set (P := 91 :: h1 :: h2 :: 58 :: m1 :: m2 :: 58 :: s1 :: s2 :: 93 :: 32
              :: S ++ [58; 32]).
    assert (E : [91] ++ [h1; h2; 58; m1; m2; 58; s1; s2] ++ [93; 32] ++ S
                ++ [58; 32] ++ C = P ++ C).
    { subst P. cbn [app]. rewrite <- app_assoc. reflexivity. }
    rewrite E. unfold Py.strip.
    assert (El : Py.lstrip (P ++ C) = P ++ C) by reflexivity.
    rewrite El, rstrip_app by exact HrC.
    subst P. cbn [app]. rewrite <- app_assoc. reflexivity. }
  unfold parse_message. rewrite Hstrip.
  assert (Hdig : forallb (is_digit digit_ext) [h1; h2; m1; m2; s1; s2] = true).
  { apply forallb_forall. intros d Hd'. rewrite List.Forall_forall in Hd.
    specialize (Hd d Hd'). unfold is_digit.
    assert ((d <? 128) = true) as -> by (apply Z.ltb_lt; lia).
    apply andb_true_iff; split; apply Z.leb_le; lia. }
  rewrite Hdig. cbn [andb Z.eqb Pos.eqb].
  rewrite (up_to_colon_app _ _ Hcolon).
  destruct S as [|c0 S'] eqn:ES; [congruence|]. rewrite <- ES.
  replace (length (c0 :: S')) with (length S) by (rewrite ES; reflexivity).
  rewrite drop_app_length. cbn [andb Z.eqb Pos.eqb].
  rewrite dot_plus_end_line;
    [|exact HrC
     |apply (tidy_no_newline false), tidy_rstrip, sanitize_input_tidy_any].
  rewrite strip_rstrip. reflexivity.
Qed.


End Parse.

Lemma parse_message_of_format_message_witness :
  parse_message (fun _ => false)
    (format_message Demo.noon (Py.lit "alice") (Py.lit "  hi   there "))
  = Some (Py.lit "12:00:00", Py.lit "alice", Py.lit "hi there").
Proof.
  rewrite (parse_message_of_format_message (fun _ => false) Demo.noon (Py.lit "alice")
             (Py.lit "  hi   there "));
    [reflexivity | reflexivity | discriminate | reflexivity | discriminate].
Defined.

(** ** [truncate_message] *)

(** X6 (truncate_message): for a bound of three or more the result is never
    longer than the bound; a message that is cut has exactly the bound's
    length and ends with the three dots; truncating again changes
    nothing. *)
Theorem truncate_message_bounded (message : pystr) (max_length : Z) :
  3 <= max_length ->
  let out := truncate_message message max_length in
  Py.len out <= max_length /\
  (max_length < Py.len message ->
   Py.len out = max_length /\
   out = take (Z.to_nat (max_length - 3)) message ++ Py.lit "...") /\
  truncate_message out max_length = out.
Proof.
  intros Hmax out.
  assert (Hcut : max_length < Py.len message ->
            Py.len out = max_length /\
            out = take (Z.to_nat (max_length - 3)) message ++ Py.lit "...").
  { intros Hlong. subst out. unfold truncate_message, Py.slice_to.
    assert ((Py.len message <=? max_length) = false) as ->
      by (apply Z.leb_gt; exact Hlong).
    assert ((max_length - 3 <? 0) = false) as -> by (apply Z.ltb_ge; lia).
    split; [|reflexivity].
    unfold Py.len in *. rewrite length_app, length_take. simpl length. lia. }
  assert (Hlen : Py.len out <= max_length).
  { destruct (Z_lt_le_dec max_length (Py.len message)) as [Hlong | Hshort].
    - destruct (Hcut Hlong) as [E _]. lia.
    - subst out. unfold truncate_message.
      assert ((Py.len message <=? max_length) = true) as ->
        by (apply Z.leb_le; exact Hshort).
      exact Hshort. }
  split; [exact Hlen|]. split; [exact Hcut|].
  unfold truncate_message at 1.
  assert ((Py.len out <=? max_length) = true) as ->
    by (apply Z.leb_le; exact Hlen).
  reflexivity.
Qed.

Lemma truncate_message_bounded_witness :
  truncate_message (Py.lit "hello world") 8 = Py.lit "hello..." /\
  truncate_message (Py.lit "hello...") 8 = Py.lit "hello...".
Proof.
  destruct (truncate_message_bounded (Py.lit "hello world") 8 ltac:(lia))
    as (_ & Hcut & Hfix).
  destruct (Hcut ltac:(vm_compute; reflexivity)) as [_ E].
  split; [rewrite E; reflexivity|].
  rewrite E in Hfix. exact Hfix.
Defined.

(** X7 (truncate_message): for a bound below three a message longer than
    the bound comes back with three characters or more, hence longer than
    the bound; the slice [message[:max_length-3]] then counts from the
    end. *)
Theorem truncate_message_overruns_small_bound
    (message : pystr) (max_length : Z) :
  max_length < 3 -> max_length < Py.len message ->
  let out := truncate_message message max_length in
  max_length < Py.len out /\
  Py.len out = Z.max 0 (Py.len message + max_length - 3) + 3.
Proof.
  intros Hmax Hlong out. subst out. unfold truncate_message, Py.slice_to.
  assert ((Py.len message <=? max_length) = false) as ->
    by (apply Z.leb_gt; exact Hlong).
  assert ((max_length - 3 <? 0) = true) as -> by (apply Z.ltb_lt; lia).
  unfold Py.len in *. rewrite length_app, length_take. simpl length. lia.
Qed.

Lemma truncate_message_overruns_small_bound_witness :
  2 < Py.len (truncate_message (Py.lit "abcdef") 2) /\
  Py.len (truncate_message (Py.lit "abcdef") 2) = 8.
Proof.
  exact (truncate_message_overruns_small_bound (Py.lit "abcdef") 2
           ltac:(lia) ltac:(vm_compute; reflexivity)).
Defined.

(** ** [get_free_port] *)

Lemma get_free_port_from_some (check : Z -> bool) (n : nat) (port p : Z) :
  get_free_port_from check port n = Some p ->
  port <= p < port + Z.of_nat n /\ p <= PORT_RANGE_MAX /\ check p = true /\
  (forall q, port <= q < p -> check q = false).
Proof.
  revert port; induction n as [|n IH]; intros port; simpl; [discriminate|].
  destruct (PORT_RANGE_MAX <? port) eqn:Emax; [discriminate|].
  apply Z.ltb_ge in Emax.
  destruct (check port) eqn:Ec.
  - intros [= <-]. split; [lia|]. split; [lia|]. split; [exact Ec|].
    intros q Hq. lia.
  - intros H. destruct (IH _ H) as (Hr & Hm & Hc & Hfirst).
    split; [lia|]. split; [lia|]. split; [exact Hc|]. intros q Hq.
    destruct (Z.eq_dec q port) as [-> | Hne]; [exact Ec|].
    apply Hfirst. lia.
Qed.

Lemma get_free_port_from_none (check : Z -> bool) (n : nat) (port : Z) :
  get_free_port_from check port n = None ->
  forall q, port <= q < port + Z.of_nat n -> q <= PORT_RANGE_MAX ->
            check q = false.
Proof.
  revert port; induction n as [|n IH]; intros port; simpl; [lia|].
  destruct (PORT_RANGE_MAX <? port) eqn:Emax.
  - apply Z.ltb_lt in Emax. intros _ q Hq Hm. lia.
  - destruct (check port) eqn:Ec; [discriminate|].
    intros H q Hq Hm.
    destruct (Z.eq_dec q port) as [-> | Hne]; [exact Ec|].
    apply (IH _ H); lia.
Qed.

(** X8 (get_free_port): the port returned is the first one, counting up
    from the start, that the availability check accepts; it lies within
    the attempts and does not exceed 65535.  Nothing is returned only
    when the check refuses every port of the attempts up to 65535. *)
Theorem get_free_port_first_fit
    (check_port_available : Z -> bool) (start_port max_attempts : Z) :
  match get_free_port check_port_available start_port max_attempts with
  | Some p =>
      start_port <= p < start_port + max_attempts /\ p <= 65535 /\
      check_port_available p = true /\
      (forall q, start_port <= q < p -> check_port_available q = false)
  | None =>
      forall q, start_port <= q < start_port + max_attempts -> q <= 65535 ->
                check_port_available q = false
  end.
Proof.
  unfold get_free_port.
  destruct (get_free_port_from check_port_available start_port
              (Z.to_nat max_attempts)) as [p|] eqn:E.
  - destruct (get_free_port_from_some _ _ _ _ E) as (Hr & Hm & Hc & Hf).
    unfold PORT_RANGE_MAX in Hm.
    split; [lia|]. split; [lia|]. split; assumption.
  - intros q Hq Hm.
    apply (get_free_port_from_none _ _ _ E); unfold PORT_RANGE_MAX; lia.
Qed.

(** ** [sanitize_filename] *)

Lemma replace_unsafe (s : pystr) :
  fold_left (fun name char => Py.replace1 char 95 name) unsafe_chars s
  = map (fun c => if among_chars unsafe_chars c then 95 else c) s.
Proof.
  unfold unsafe_chars. cbn [fold_left]. unfold Py.replace1.
  rewrite !map_map. apply map_ext. intros c.
  unfold among_chars. cbn [existsb].
  repeat match goal with
         | |- context [c =? ?k] =>
             let E := fresh "E" in
             destruct (c =? k) eqn:E;
             [apply Z.eqb_eq in E; subst c; reflexivity|]
         end.
  reflexivity.
Qed.

Lemma safe_name_replace (s : pystr) :
  safe_name
    (fold_left (fun name char => Py.replace1 char 95 name) unsafe_chars s)
  = true.
Proof.
  rewrite replace_unsafe. unfold safe_name.
  induction s as [|c t IH]; [reflexivity|].
  cbn [map forallb]. rewrite IH, andb_true_r.
  destruct (among_chars unsafe_chars c) eqn:E;
    [reflexivity | rewrite E; reflexivity].
Qed.

Lemma replace_safe_fix (s : pystr) :
  safe_name s = true ->
  fold_left (fun name char => Py.replace1 char 95 name) unsafe_chars s = s.
Proof.
  intros Hs. rewrite replace_unsafe.
  rewrite <- (map_id s) at 2. apply map_ext_in. intros c Hc.
  unfold safe_name in Hs.
  pose proof (proj1 (forallb_forall _ _) Hs c Hc) as H.
  apply negb_true_iff in H. rewrite H. reflexivity.
Qed.

Lemma lstrip_chars_safe (chars s : pystr) :
  safe_name s = true -> safe_name (lstrip_chars chars s) = true.
Proof.
  unfold safe_name. induction s as [|c t IH]; [auto|].
  intros H. cbn [lstrip_chars].
  destruct (among_chars chars c); [|exact H].
  cbn [forallb] in H. apply andb_true_iff in H. apply IH, H.
Qed.

Lemma rstrip_chars_safe (chars s : pystr) :
  safe_name s = true -> safe_name (rstrip_chars chars s) = true.
Proof.
  unfold safe_name. induction s as [|c t IH]; [auto|].
  cbn [forallb rstrip_chars]. rewrite andb_true_iff. intros [Hc Ht].
  specialize (IH Ht).
  destruct (rstrip_chars chars t) as [|d u].
  - destruct (among_chars chars c); [reflexivity|].
    cbn [forallb]. rewrite Hc. reflexivity.
  - cbn [forallb] in *. rewrite Hc, IH. reflexivity.
Qed.

Lemma rstrip_chars_cases (chars s : pystr) :
  rstrip_chars chars s = [] \/
  exists u c, rstrip_chars chars s = u ++ [c] /\ among_chars chars c = false.
Proof.
  induction s as [|c t IH]; simpl; [left; reflexivity|].
  destruct IH as [E | (u & d & E & Hd)]; rewrite E.
  - destruct (among_chars chars c) eqn:Hc; [left; reflexivity|].
    right. exists [], c. split; [reflexivity | assumption].
  - right. exists (c :: u), d. split; [|assumption].
    destruct u; reflexivity.
Qed.

Lemma rstrip_chars_snoc (chars u : pystr) (c : Z) :
  among_chars chars c = false -> rstrip_chars chars (u ++ [c]) = u ++ [c].
Proof.
  intros Hc. induction u as [|x u IH]; simpl.
  - rewrite Hc; reflexivity.
  - rewrite IH. destruct u; reflexivity.
Qed.

Lemma lstrip_chars_head (chars s : pystr) :
  match lstrip_chars chars s with
  | c :: _ => among_chars chars c = false
  | [] => True
  end.
Proof.
  induction s as [|c t IH]; simpl; [exact I|].
  destruct (among_chars chars c) eqn:Hc; [exact IH | exact Hc].
Qed.

Lemma rstrip_chars_head (chars s : pystr) :
  match s with c :: _ => among_chars chars c = false | [] => True end ->
  match rstrip_chars chars s with
  | c :: _ => among_chars chars c = false
  | [] => True
  end.
Proof.
  destruct s as [|c t]; simpl; [auto|]. intros Hc.
  destruct (rstrip_chars chars t); [rewrite Hc|]; assumption.
Qed.

Lemma lstrip_chars_fix (chars s : pystr) :
  match s with c :: _ => among_chars chars c = false | [] => True end ->
  lstrip_chars chars s = s.
Proof. destruct s as [|c t]; simpl; [auto|]. intros ->. reflexivity. Qed.

Lemma strip_chars_spec (chars s : pystr) :
  let r := strip_chars chars s in
  match r with c :: _ => among_chars chars c = false | [] => True end /\
  match rev r with c :: _ => among_chars chars c = false | [] => True end /\
  strip_chars chars r = r.
Proof.
  intros r. subst r. unfold strip_chars.
  pose proof (rstrip_chars_head chars _ (lstrip_chars_head chars s)) as Hh.
  split; [exact Hh|].
  destruct (rstrip_chars_cases chars (lstrip_chars chars s))
    as [E | (u & c & E & Hc)].
  - rewrite E. split; [exact I | reflexivity].
  - rewrite (lstrip_chars_fix _ _ Hh). rewrite E.
    split; [rewrite rev_app_distr; exact Hc|].
    apply rstrip_chars_snoc, Hc.
Qed.

(** X9 (sanitize_filename): the result is never empty, holds none of the
    nine replaced characters, neither starts nor ends with a dot or a
    space, and is left as it is by a second call. *)
Theorem sanitize_filename_safe_and_stable (filename : pystr) :
  let out := sanitize_filename filename in
  out <> [] /\ safe_name out = true /\ trimmed_name out = true /\
  sanitize_filename out = out.
Proof.
  intros out. subst out. unfold sanitize_filename.
  set (replaced := fold_left _ unsafe_chars filename).
  pose proof (safe_name_replace filename) as Hsafe. fold replaced in Hsafe.
  destruct (strip_chars_spec [46; 32] replaced) as (Hhead & Hlast & Hfix).
  assert (Hs : safe_name (strip_chars [46; 32] replaced) = true)
    by (apply rstrip_chars_safe, lstrip_chars_safe, Hsafe).
  destruct (strip_chars [46; 32] replaced) as [|c t] eqn:E.
  - split; [discriminate|]. vm_compute. repeat split.
  - split; [discriminate|]. split; [exact Hs|]. split.
    + unfold trimmed_name. rewrite Hhead.
      destruct (rev (c :: t)); [reflexivity|]. rewrite Hlast. reflexivity.
    + rewrite (replace_safe_fix _ Hs), Hfix. reflexivity.
Qed.

(** ** [validate_password] *)

Lemma up_to_space_split (s : pystr) :
  forallb (fun c => negb (Py.isspace c)) (up_to_space s) = true /\
  s = up_to_space s ++ drop (length (up_to_space s)) s /\
  match drop (length (up_to_space s)) s with
  | c :: _ => Py.isspace c = true
  | [] => True
  end.
Proof.
  induction s as [|c t IH]; [repeat split|].
  cbn [up_to_space]. destruct (Py.isspace c) eqn:Ec.
  - split; [reflexivity|]. split; [reflexivity | exact Ec].
  - destruct IH as (Hb & Hs & Hd). cbn [forallb length drop app].
    rewrite Ec, Hb. split; [reflexivity|]. split; [congruence | exact Hd].
Qed.

Lemma up_to_space_app (body rest : pystr) :
  forallb (fun c => negb (Py.isspace c)) body = true ->
  match rest with c :: _ => Py.isspace c = true | [] => True end ->
  up_to_space (body ++ rest) = body.
Proof.
  intros Hb Hr. induction body as [|c t IH]; simpl.
  - destruct rest as [|d u]; [reflexivity|]. simpl. rewrite Hr. reflexivity.
  - simpl in Hb. apply andb_true_iff in Hb. destruct Hb as [Hc Ht].
    apply negb_true_iff in Hc. rewrite Hc, IH by exact Ht. reflexivity.
Qed.

(** X25 (validate_password): a password is accepted exactly when it has
    between 1 and 50 characters and holds no white space, save that one
    line feed at the very end passes the check: the [$] of the pattern
    also matches just before a final line feed. *)
Theorem validate_password_accepts (password : pystr) :
  validate_password password = true <->
  Py.len password <= 50 /\
  exists body,
    body <> [] /\ forallb (fun c => negb (Py.isspace c)) body = true /\
    (password = body \/ password = body ++ [10]).
Proof.
  unfold validate_password, MAX_PASSWORD_LENGTH. split.
  - destruct password as [|c0 t0] eqn:Ep; [discriminate|]. rewrite <- Ep.
    destruct (50 <? Py.len password) eqn:El; [discriminate|].
    apply Z.ltb_ge in El. intros H. split; [exact El|].
    unfold nonspace_to_end in H.
    destruct (up_to_space_split password) as (Hb & Hs & _).
    exists (up_to_space password).
    destruct (up_to_space password) as [|c body] eqn:Eb; [discriminate|].
    split; [discriminate|]. split; [exact Hb|].
    destruct (drop (length (c :: body)) password) as [|d [|e u]] eqn:Ed.
    + left. rewrite app_nil_r in Hs. exact Hs.
    + right. apply Z.eqb_eq in H. subst d. exact Hs.
    + discriminate.
  - intros (Hlen & body & Hne & Hb & Hshape).
    assert (Hup : up_to_space password = body /\
                  (drop (length body) password = [] \/
                   drop (length body) password = [10])).
    { destruct Hshape as [-> | ->].
      - split; [rewrite <- (app_nil_r body) at 1;
                apply up_to_space_app; [exact Hb | exact I]|].
        left. apply drop_all.
      - split; [apply up_to_space_app; [exact Hb | reflexivity]|].
        right. rewrite drop_app_length. reflexivity. }
    destruct Hup as [Hup Hrest].
    destruct password as [|c0 t0] eqn:Ep.
    { destruct Hshape as [E | E]; [congruence|].
      destruct body; discriminate. }
    rewrite <- Ep in *.
    assert ((50 <? Py.len password) = false) as -> by (apply Z.ltb_ge; lia).
    unfold nonspace_to_end. rewrite Hup.
    destruct body as [|c body]; [congruence|].
    destruct Hrest as [-> | ->]; reflexivity.
Qed.

End UtilsFacts.

(** * More of server.py *)

Module ServerExtras.

Import Server ServerFacts.

(** ** The acceptor *)

Lemma authenticate_client_true (room_password : pystr) (k k' : tcp_socket) :
  authenticate_client room_password k = (Done true, k') ->
  exists credential rest,
    inbox k = Arrives (Utf8 credential) :: rest /\
    Py.strip credential = room_password.
Proof.
  unfold authenticate_client, try_finally, try_except, bind, Socket.settimeout,
    Socket.send, Socket.recv, modify, decode, ret; simpl.
  destruct k as [inb scr out tmo cl]; simpl.
  destruct cl; simpl; [discriminate|].
  destruct scr as [|[|] [|[|] scr]]; simpl; try discriminate;
    (destruct inb as [|[[text|]| |] inb]; simpl; try discriminate);
    (destruct (Py.eqb (Py.strip text) room_password) eqn:E; simpl;
     try discriminate);
    intros _; exists text, inb; (split; [reflexivity | apply eqb_eq, E]).
Qed.

(** X28 (authenticate_client): on an open socket, as [accept] hands it
    over, the handshake always comes back with a verdict.  No failure of
    the peer or of a write escapes as an exception, the thirty-second limit
    keeps the read from waiting for ever, and a peer that sends nothing is
    refused; the socket is left open and without a timeout.  On a socket
    that is closed already, [settimeout] fails in the [try] block and
    again in the [finally] block, and that second [OSError] leaves the
    function. *)
Theorem authenticate_client_answers_unless_closed
    (room_password : pystr) (k : tcp_socket) :
  if closed k
  then authenticate_client room_password k = (Raise OtherOSError, k)
  else exists verdict k',
         authenticate_client room_password k = (Done verdict, k') /\
         timeout k' = None /\ closed k' = false /\
         (inbox k = [] -> verdict = false).
Proof.
  destruct k as [inb scr out tmo cl].
  unfold authenticate_client, try_finally, try_except, bind, Socket.settimeout,
    Socket.send, Socket.recv, modify, decode, ret; simpl.
  destruct cl; simpl; [reflexivity|].
  destruct scr as [|[|] [|[|] scr]]; simpl;
    try (eexists _, _; repeat split; fail);
    (destruct inb as [|[[text|]| |] inb]; simpl;
     try (eexists _, _; repeat split; discriminate));
    (destruct (Py.eqb (Py.strip text) room_password); simpl;
     eexists _, _; repeat split; discriminate).
Qed.

Section Acceptor.

Variable isalnum_ext : Z -> bool.

(** X10 (accept_connections): a pass of the acceptor changes the registry
    only if the room had room, and the first thing the newcomer sent was
    text that equals the room password once the white space at its ends
    is stripped; whatever else the peer does (silence, garbage, a reset,
    a closed or failing socket), the registry stays as it was. *)
Theorem accept_connections_registers_only_matching_credential
    (s s' : ChatServer) (k k' : tcp_socket) (client_address : pystr * Z)
    (o : outcome loop_ctl) :
  accept_connections_pass isalnum_ext client_address (s, k) = (o, (s', k')) ->
  clients s' <> clients s ->
  Z.of_nat (length (clients s)) < ServerConfig.MAX_CLIENTS /\
  exists credential rest,
    inbox k = Arrives (Utf8 credential) :: rest /\
    Py.strip credential = room_password s.
Proof.
  intros E Hch.
  destruct (Z_lt_le_dec (Z.of_nat (length (clients s)))
              ServerConfig.MAX_CLIENTS) as [Hroom | Hfull].
  - split; [exact Hroom|].
    rewrite (accept_pass_auth isalnum_ext _ _ _ Hroom) in E.
    destruct (authenticate_client (room_password s) k) as [[[|]|e|] k1] eqn:Ea.
    + exact (authenticate_client_true _ _ _ Ea).
    + injection E as _ <- _. congruence.
    + injection E as _ <- _. congruence.
    + injection E as _ <- _. congruence.
  - rewrite (accept_full isalnum_ext _ _ _ Hfull) in E. exfalso.
    destruct (Socket.send Text.SERVER_FULL k) as [[?|?|] k1];
      injection E as _ <- _; congruence.
Qed.


Lemma accept_pass_silent (s : ChatServer) (k : tcp_socket)
    (client_address : pystr * Z) (credential : pystr) :
  Z.of_nat (length (clients s)) < ServerConfig.MAX_CLIENTS ->
  accepts 3 k = true ->
  inbox k = [Arrives (Utf8 credential)] ->
  Py.strip credential = room_password s ->
  exists k',
    accept_connections_pass isalnum_ext client_address (s, k)
    = (Blocked, (s, k')) /\
    outbox k' = outbox k ++ [Text.PASSWORD_REQUEST; Text.AUTH_SUCCESS;
                             Text.NICKNAME_REQUEST] /\
    timeout k' = None.
Proof.
  intros Hroom Hw Hin Hc.
  rewrite (accept_pass_auth isalnum_ext _ _ _ Hroom).
  destruct k as [inb scr out tmo cl]. unfold accepts in Hw. simpl in *.
  subst inb. destruct cl; [discriminate|]. simpl in Hw.
  unfold authenticate_client, get_client_nickname, try_finally, try_except,
    bind, Socket.settimeout, Socket.send, Socket.recv, modify, decode, ret.
  simpl.
  destruct scr as [|[|] [|[|] [|[|] scr]]]; simpl in *; try discriminate;
    rewrite Hc, eqb_refl; simpl;
    (eexists; split; [reflexivity|]; simpl; rewrite <- ?app_assoc;
     split; reflexivity).
Qed.

(** X11 (accept_connections, get_client_nickname): the nickname is read
    without a time limit, the handshake having reset it.  A newcomer that
    gives the right password and then stays silent keeps the acceptor in
    that read: the pass does not return, nothing is registered, and no
    later connection is taken up. *)
Theorem silent_newcomer_stalls_the_acceptor
    (s : ChatServer) (k : tcp_socket) (client_address : pystr * Z)
    (credential : pystr) :
  Z.of_nat (length (clients s)) < ServerConfig.MAX_CLIENTS ->
  accepts 3 k = true ->
  inbox k = [Arrives (Utf8 credential)] ->
  Py.strip credential = room_password s ->
  accepting s = true -> is_running s = true ->
  fst (accept_connections_pass isalnum_ext client_address (s, k)) = Blocked /\
  let s1 := step isalnum_ext (Connect k client_address) s in
  clients s1 = clients s /\
  forall later later_address,
    step isalnum_ext (Connect later later_address) s1 = s1.
Proof.
  intros Hroom Hw Hin Hc Hacc Hrun.
  destruct (accept_pass_silent s k client_address credential Hroom Hw Hin Hc)
    as (k' & E & _).
  split; [rewrite E; reflexivity|].
  cbv zeta. unfold step. rewrite Hacc, Hrun, E. cbn [andb].
  split; [reflexivity|]. intros later later_address. reflexivity.
Qed.

Lemma authenticate_client_true_socket (room_password : pystr)
    (k k' : tcp_socket) :
  authenticate_client room_password k = (Done true, k') ->
  timeout k' = None /\ closed k' = false.
Proof.
  unfold authenticate_client, try_finally, try_except, bind, Socket.settimeout,
    Socket.send, Socket.recv, modify, decode, ret; simpl.
  destruct k as [inb scr out tmo cl]; simpl.
  destruct cl; simpl; [discriminate|].
  destruct scr as [|[|] [|[|] scr]]; simpl; try discriminate;
    (destruct inb as [|[[text|]| |] inb]; simpl; try discriminate);
    (destruct (Py.eqb (Py.strip text) room_password) eqn:E; simpl;
     try discriminate);
    intros [= <-]; split; reflexivity.
Qed.

Lemma get_client_nickname_socket (time : Z) (k k' : tcp_socket)
    (o : outcome pystr) :
  get_client_nickname isalnum_ext time k = (o, k') ->
  timeout k' = timeout k /\ closed k' = closed k.
Proof.
  unfold get_client_nickname, try_except, bind, Socket.send, Socket.recv,
    decode, ret; simpl.
  destruct k as [inb scr out tmo cl]; simpl.
  destruct cl; simpl; [intros [= _ <-]; split; reflexivity|].
  destruct scr as [|[|] scr]; simpl;
    (destruct inb as [|[[text|]| |] inb]; simpl;
     [destruct tmo; simpl| | | |]);
    try (destruct (negb (Py.eqb (Py.strip text) [])
                   && (Py.len (Py.strip text) <=? 20)
                   && isalnum isalnum_ext (Py.strip text)));
    intros [= _ <-]; split; reflexivity.
Qed.

(** X26 (accept_connections, authenticate_client, handle_client): a
    connection that a pass of the acceptor registers has a socket without
    any read timeout, the handshake having reset it and nothing setting
    one afterwards.  The read of its session therefore does not return
    while the peer is silent, whatever happens to the running flag. *)
Theorem registered_socket_has_no_timeout
    (s s' : ChatServer) (k k' : tcp_socket) (client_address : pystr * Z)
    (o : outcome loop_ctl) :
  accept_connections_pass isalnum_ext client_address (s, k) = (o, (s', k')) ->
  clients s' <> clients s ->
  exists r c,
    Dict.get (client_id_of client_address) (clients s') = Some r /\
    store s' !! r = Some c /\
    timeout (socket c) = None /\ closed (socket c) = false /\
    (inbox (socket c) = [] ->
     forall s2, store s2 !! r = Some c -> fst (handle_client_pass r s2) = Blocked).
Proof.
  intros E Hch.
  destruct (Z_lt_le_dec (Z.of_nat (length (clients s)))
              ServerConfig.MAX_CLIENTS) as [Hroom | Hfull].
  2:{ rewrite (accept_full isalnum_ext _ _ _ Hfull) in E. exfalso.
      destruct (Socket.send Text.SERVER_FULL k) as [[?|?|] k1];
        injection E as _ <- _; congruence. }
  rewrite (accept_pass_auth isalnum_ext _ _ _ Hroom) in E.
  destruct (authenticate_client (room_password s) k) as [[[|]|e|] k1] eqn:Ea;
    try (injection E as _ <- _; congruence).
  destruct (authenticate_client_true_socket _ _ _ Ea) as [Hto Hcl].
  destruct (get_client_nickname isalnum_ext (time s) k1) as [[name|e|] k2]
    eqn:En; try (injection E as _ <- _; congruence).
  destruct (get_client_nickname_socket _ _ _ _ En) as [Hto2 Hcl2].
  cbv zeta in E.
  destruct (clients_lock s); [injection E as _ <- _; exfalso; apply Hch; reflexivity|].
  injection E as _ <- <-.
  exists (length (store s)),
         (new_ClientConnection (now s) k2 client_address name).
  split; [apply dict_get_set_eq|].
  split; [apply list_lookup_middle; reflexivity|].
  split; [simpl; congruence|]. split; [simpl; congruence|].
  intros Hin s2 Hc2.
  unfold handle_client_pass, try_except, bind at 1.
  rewrite (on_conn_at _ _ _ _ Hc2).
  unfold on_socket, focus, Socket.recv. cbv beta. simpl socket.
  rewrite Hcl2, Hcl. simpl in Hin. rewrite Hin, Hto2, Hto. reflexivity.
Qed.

End Acceptor.

Lemma accept_connections_registers_only_matching_credential_witness :
  exists credential rest,
    inbox (Demo.peer [Demo.says " room1 "; Demo.says "Alice"])
    = Arrives (Utf8 credential) :: rest /\
    Py.strip credential = room_password Demo.opened.
Proof.
  refine (proj2
    (accept_connections_registers_only_matching_credential
       Demo.ascii_only Demo.opened
       (fst (snd (accept_connections_pass Demo.ascii_only Demo.alice_address
                    (Demo.opened,
                     Demo.peer [Demo.says " room1 "; Demo.says "Alice"]))))
       (Demo.peer [Demo.says " room1 "; Demo.says "Alice"])
       (snd (snd (accept_connections_pass Demo.ascii_only Demo.alice_address
                    (Demo.opened,
                     Demo.peer [Demo.says " room1 "; Demo.says "Alice"]))))
       Demo.alice_address
       (fst (accept_connections_pass Demo.ascii_only Demo.alice_address
               (Demo.opened,
                Demo.peer [Demo.says " room1 "; Demo.says "Alice"])))
       _ _)).
  - vm_compute. reflexivity.
  - vm_compute. discriminate.
Defined.

(** ** [kick_user] *)

Lemma relock (s : ChatServer) :
  clients_lock s = false ->
  set_clients_lock false (set_clients_lock true s) = s.
Proof. intros H. destruct s; simpl in *; subst; reflexivity. Qed.

Lemma kick_loop_find (username : pystr) (items : list (pystr * nat))
    (s : ChatServer) :
  (forall k r, In (k, r) items -> exists c, store s !! r = Some c) ->
  kick_loop username items s
  = match List.find
            (fun e =>
               match store s !! snd e with
               | Some c => Py.eqb (nickname c) username && is_active c
               | None => false
               end) items with
    | None => (Done tt, s)
    | Some (client_id, client_conn) =>
        (t <- gets now ;;
         on_conn client_conn
           (send_message t (format_message t Text.system Text.kicked)) ;;
         on_conn client_conn (modify (set_is_active false)) ;;
         broadcast_message Text.system (username ++ Text.kick_post)
           client_id)%monad s
    end.
Proof.
  induction items as [|[k r] items IH]; intros Hval; [reflexivity|].
  destruct (Hval k r (or_introl eq_refl)) as [c Hc].
  cbn [kick_loop List.find snd]. unfold bind at 1.
  rewrite (deref_at _ _ _ Hc), Hc.
  destruct (Py.eqb (nickname c) username && is_active c); [reflexivity|].
  apply IH. intros k' r' Hin. apply (Hval k' r'). right. exact Hin.
Qed.

(** X12 (kick_user): when no active connection of the registry bears the
    name, nothing is sent and the server is left as it was. *)
Theorem kick_user_unknown_name (username : pystr) (s : ChatServer) :
  registry_ok s = true -> clients_lock s = false ->
  kick_target username s = None ->
  kick_user username s = (Done tt, s).
Proof.
  intros Hok Hl Hnone. unfold kick_user.
  rewrite (with_lock_free _ _ _ _ Hl). unfold try_finally, bind at 1, get.
  rewrite kick_loop_find.
  - change (store (set_clients_lock true s)) with (store s).
    change (clients (set_clients_lock true s)) with (clients s).
    unfold kick_target in Hnone. rewrite Hnone.
    unfold bind, modify, ret. rewrite (relock _ Hl). reflexivity.
  - intros k r Hin. change (store (set_clients_lock true s)) with (store s).
    destruct (registry_ok_entry _ _ _ Hok Hin) as (c & Hc & _). eauto.
Qed.

Lemma broadcast_message_under_lock (s : ChatServer)
    (sender message exclude : pystr) :
  List.NoDup (Dict.values (clients s)) ->
  (forall k r, In (k, r) (clients s) -> exists c, store s !! r = Some c) ->
  message_lock s = false -> clients_lock s = true ->
  clients s <> [] ->
  exists dropped h,
    broadcast_message sender message exclude s
    = match dropped with
      | [] => (Done tt, set_store h s)
      | _ => (Blocked, set_message_lock true (set_store h s))
      end /\
    length h = length (store s) /\
    (forall r, ~ In r (Dict.values (clients s)) -> h !! r = store s !! r) /\
    (forall k, In k dropped ->
       exists r c, In (k, r) (clients s) /\ store s !! r = Some c /\
                   Py.eqb k exclude = false /\
                   is_active c && Socket.writable (socket c) = false) /\
    (forall k r c, In (k, r) (clients s) -> store s !! r = Some c ->
       broadcast_effect (now s) (format_message (now s) sender message)
         exclude k c dropped (h !! r)).
Proof.
  intros Hnv Hval Hm Hc Hne.
  unfold broadcast_message, bind at 1, get.
  destruct (clients s) as [|e items] eqn:Ecl; [congruence|].
  rewrite <- Ecl in *.
  rewrite (with_lock_free _ _ _ _ Hm).
  destruct (broadcast_loop_spec (format_message (now s) sender message)
              exclude (clients s) [] (set_message_lock true s))
    as (dropped & h & E & Hlh & Hframe & Hdrop & Heff).
  { exact Hnv. }
  { exact Hval. }
  unfold try_finally, bind, gets.
  change (clients (set_message_lock true s)) with (clients s).
  rewrite E. simpl app.
  exists dropped, h. split.
  { destruct dropped as [|k dropped].
    - unfold remove_all, modify, ret. f_equal.
      destruct s; simpl in *; subst; reflexivity.
    - cbn [remove_all]. unfold bind, remove_client, with_lock.
      change (clients_lock (set_store h (set_message_lock true s)))
        with (clients_lock s).
      rewrite Hc. f_equal. }
  split; [exact Hlh|].
  split; [exact Hframe | split; [exact Hdrop | exact Heff]].
Qed.

(** With the registry lock held, one recipient that is inactive or whose
    write fails is enough: the removal that follows the fan-out waits for
    the lock, and the call never returns. *)
Lemma broadcast_message_blocks_under_lock (s : ChatServer)
    (sender message exclude : pystr) (k : pystr) (r : nat)
    (c : ClientConnection) :
  registry_ok s = true -> message_lock s = false -> clients_lock s = true ->
  In (k, r) (clients s) -> k <> exclude -> store s !! r = Some c ->
  live c = false ->
  exists s',
    broadcast_message sender message exclude s = (Blocked, s') /\
    clients s' = clients s /\
    clients_lock s' = true /\ message_lock s' = true.
Proof.
  intros Hok Hm Hl Hin Hne Hc Hdead.
  destruct (broadcast_message_under_lock s sender message exclude)
    as (dropped & h & E & _ & _ & _ & Heff).
  { exact (registry_ok_values _ Hok). }
  { intros k0 r0 H0.
    destruct (registry_ok_entry _ _ _ Hok H0) as (c0 & Hc0 & _). eauto. }
  { exact Hm. }
  { exact Hl. }
  { intros E0. rewrite E0 in Hin. destruct Hin. }
  specialize (Heff k r c Hin Hc). unfold broadcast_effect in Heff.
  apply eqb_neq in Hne. rewrite Hne in Heff.
  assert (Hk : In k dropped).
  { unfold live in Hdead. destruct (is_active c); [|tauto].
    simpl in Hdead. rewrite Hdead in Heff. tauto. }
  destruct dropped as [|k0 dropped]; [destruct Hk|].
  eexists. split; [exact E|]. split; [reflexivity|].
  split; [exact Hl | reflexivity].
Qed.

(** C2 on the code.  [kick_user] calls [broadcast_message] with the
    registry lock held.  Alice and Bob are registered and Bob's peer has
    reset its connection; the operator kicks Alice.  The call that
    [kick_user] makes writes to Bob, the write fails, Bob is marked
    inactive and scheduled for removal; the removal waits for the lock
    that the caller holds.  The call never returns, Bob's entry stays in
    the registry and both locks stay held. *)
Theorem broadcast_message_from_kick_never_returns :
  let notice := Py.lit "Alice" ++ Text.kick_post in
  let call :=
    broadcast_message Text.system notice Demo.alice_id Scene.kicking_alice in
  kick_user (Py.lit "Alice") Scene.crowd = call /\
  option_map live (store Scene.kicking_alice !! 1%nat) = Some false /\
  option_map is_active (store Scene.kicking_alice !! 1%nat) = Some true /\
  fst call = Blocked /\
  Dict.get Demo.bob_id (clients (snd call)) = Some 1%nat /\
  option_map is_active (store (snd call) !! 1%nat) = Some false /\
  clients_lock (snd call) = true /\ message_lock (snd call) = true.
Proof. vm_compute. repeat split. Qed.

Lemma kick_user_found (username : pystr) (s : ChatServer) (cid : pystr)
    (r : nat) (c : ClientConnection) :
  registry_ok s = true -> locks_free s = true ->
  kick_target username s = Some (cid, r) -> store s !! r = Some c ->
  let t := now s in
  let c2 :=
    set_is_active false
      (snd (send_message t (format_message t Text.system Text.kicked) c)) in
  exists dropped h,
    kick_user username s
    = match dropped with
      | [] => (Done tt, set_store h s)
      | _ => (Blocked,
              set_message_lock true (set_clients_lock true (set_store h s)))
      end /\
    h !! r = Some c2 /\
    (forall k, In k dropped ->
       exists r' c', In (k, r') (clients s) /\ k <> cid /\
                     store s !! r' = Some c' /\ live c' = false) /\
    (forall k r' c', In (k, r') (clients s) -> k <> cid ->
       store s !! r' = Some c' ->
       broadcast_effect t (kick_notice t username) cid k c' dropped
         (h !! r')).
Proof.
  intros Hok Hfree Htarget Hc t c2.
  destruct (locks_free_each _ Hfree) as [Hm Hl].
  assert (Hin : In (cid, r) (clients s)).
  { unfold kick_target in Htarget. apply find_some in Htarget. tauto. }
  assert (Hother : forall k r' c', In (k, r') (clients s) -> k <> cid ->
            store s !! r' = Some c' -> r' <> r).
  { intros k r' c' Hk Hne Hc' ->.
    destruct (registry_ok_entry _ _ _ Hok Hk) as (c0 & Hc0 & Ek).
    destruct (registry_ok_entry _ _ _ Hok Hin) as (c1 & Hc1 & Ecid).
    congruence. }
  unfold kick_user.
  rewrite (with_lock_free _ _ _ _ Hl). unfold try_finally, bind at 1, get.
  rewrite kick_loop_find.
  2:{ intros k r' Hk. change (store (set_clients_lock true s)) with (store s).
      destruct (registry_ok_entry _ _ _ Hok Hk) as (c0 & Hc0 & _). eauto. }
  change (store (set_clients_lock true s)) with (store s).
  change (clients (set_clients_lock true s)) with (clients s).
  unfold kick_target in Htarget. rewrite Htarget.
  unfold bind at 1, gets. unfold bind at 1.
  rewrite (on_conn_at r _ (set_clients_lock true s) c Hc).
  destruct (send_message_returns (now (set_clients_lock true s))
              (format_message (now (set_clients_lock true s)) Text.system
                 Text.kicked) c) as (b & c1 & Es).
  change (now (set_clients_lock true s)) with t in *.
  rewrite Es. cbn [fst snd]. unfold bind at 1.
  assert (Hr : (r < length (store s))%nat)
    by (eapply lookup_lt_Some; exact Hc).
  set (s1 := set_store (<[r:=c1]> (store (set_clients_lock true s)))
               (set_clients_lock true s)).
  assert (H1 : store s1 !! r = Some c1)
    by (apply list_lookup_insert_eq; exact Hr).
  rewrite (on_conn_at r _ s1 c1 H1). unfold modify at 1. cbn [fst snd].
  set (s2 := set_store (<[r:=set_is_active false c1]> (store s1)) s1).
  assert (Ec2 : c2 = set_is_active false c1)
    by (subst c2; rewrite Es; reflexivity).
  assert (H2 : store s2 !! r = Some c2).
  { rewrite Ec2. apply list_lookup_insert_eq.
    subst s1. simpl. rewrite length_insert. exact Hr. }
  assert (H2' : forall r', r' <> r -> store s2 !! r' = store s !! r').
  { intros r' Hne. subst s2 s1. simpl.
    rewrite !list_lookup_insert_ne by congruence. reflexivity. }
  destruct (broadcast_message_under_lock s2 Text.system
              (username ++ Text.kick_post) cid)
    as (dropped & h & E & Hlh & Hframe & Hdrop & Heff).
  { exact (registry_ok_values _ Hok). }
  { intros k r' Hk.
    destruct (registry_ok_entry _ _ _ Hok Hk) as (c0 & Hc0 & _).
    destruct (Nat.eq_dec r' r) as [-> | Hne]; [eauto|].
    rewrite (H2' _ Hne). eauto. }
  { exact Hm. }
  { reflexivity. }
  { intros E0. change (clients s2) with (clients s) in E0.
    rewrite E0 in Hin. destruct Hin. }
  change (set_store (<[r:=(modify (set_is_active false) c1).2]> (store s1))
            s1) with s2.
  rewrite E. exists dropped, h. split.
  { destruct dropped; [|reflexivity].
    unfold bind, modify, ret. f_equal.
    destruct s; simpl in *; subst; reflexivity. }
  split.
  { specialize (Heff cid r c2 Hin H2). unfold broadcast_effect in Heff.
    rewrite eqb_refl in Heff. exact Heff. }
  split.
  - intros k Hk. destruct (Hdrop k Hk) as (r' & c' & Hk' & Hc' & Hne & Hlive).
    apply eqb_neq in Hne.
    destruct (registry_ok_entry _ _ _ Hok Hk') as (c0 & Hc0 & _).
    pose proof (Hother _ _ _ Hk' Hne Hc0) as Hr'.
    rewrite (H2' _ Hr') in Hc'.
    exists r', c'. unfold live. tauto.
  - intros k r' c' Hk Hne Hc'.
    pose proof (Hother _ _ _ Hk Hne Hc') as Hr'.
    rewrite <- (H2' _ Hr') in Hc'.
    exact (Heff k r' c' Hk Hc').
Qed.



Lemma send_message_keeps_closed (t : datetime) (text : pystr)
    (c : ClientConnection) :
  closed (socket (snd (send_message t text c))) = closed (socket c).
Proof.
  destruct c as [[inb scr out tmo cl] addr nick ct la act].
  unfold send_message, try_except, bind, on_socket, focus, Socket.send,
    modify, ret. simpl.
  destruct cl; [reflexivity|]. destruct scr as [|[|] scr]; reflexivity.
Qed.

(** X13 (kick_user): with every other registered connection live, the
    kick returns; the connection picked is told that it was kicked (when
    its socket takes the write) and marked inactive, but it stays in the
    registry and its socket is not closed; every other connection is told
    of the kick, and the registry is left as it was. *)
Theorem kick_user_marks_and_announces
    (username : pystr) (s : ChatServer) (cid : pystr) (r : nat)
    (c : ClientConnection) :
  registry_ok s = true -> locks_free s = true ->
  kick_target username s = Some (cid, r) -> store s !! r = Some c ->
  (forall k r' c', In (k, r') (clients s) -> k <> cid ->
                   store s !! r' = Some c' -> live c' = true) ->
  exists s',
    kick_user username s = (Done tt, s') /\
    clients s' = clients s /\ locks_free s' = true /\
    (exists c2,
       store s' !! r = Some c2 /\ is_active c2 = false /\
       closed (socket c2) = closed (socket c) /\
       (Socket.writable (socket c) = true ->
        outbox (socket c2)
        = outbox (socket c)
          ++ [format_message (now s) Text.system Text.kicked])) /\
    forall k r' c',
      In (k, r') (clients s) -> k <> cid -> store s !! r' = Some c' ->
      exists c1,
        store s' !! r' = Some c1 /\
        outbox (socket c1)
        = outbox (socket c') ++ [kick_notice (now s) username].
Proof.
  intros Hok Hfree Htarget Hc Hlive.
  destruct (kick_user_found username s cid r c Hok Hfree Htarget Hc)
    as (dropped & h & E & Hr & Hdrop & Heff).
  destruct dropped as [|k0 dropped].
  2:{ exfalso. destruct (Hdrop k0 (or_introl eq_refl))
        as (r' & c' & Hk & Hne & Hc' & Hdead).
      rewrite (Hlive _ _ _ Hk Hne Hc') in Hdead. discriminate. }
  exists (set_store h s). split; [exact E|].
  split; [reflexivity|]. split; [exact Hfree|]. split.
  - eexists. split; [exact Hr|]. split; [reflexivity|].
    split; [apply send_message_keeps_closed|].
    intros Hw. rewrite (send_message_ok _ _ _ Hw). reflexivity.
  - intros k r' c' Hk Hne Hc'.
    specialize (Heff k r' c' Hk Hne Hc'). unfold broadcast_effect in Heff.
    pose proof (Hlive _ _ _ Hk Hne Hc') as Hl.
    apply eqb_neq in Hne. rewrite Hne in Heff.
    unfold live in Hl. apply andb_true_iff in Hl. destruct Hl as [Ha Hw].
    rewrite Ha, Hw in Heff. eexists. split; [exact Heff | reflexivity].
Qed.

(** X14 (kick_user, broadcast_message, remove_client): [kick_user] holds
    the registry lock while it broadcasts.  When another registered
    connection is inactive or refuses the write, the broadcast goes on to
    remove it, [remove_client] takes the registry lock a second time, and
    the call never returns; both locks stay held. *)
Theorem kick_user_blocks_on_a_dead_connection
    (username : pystr) (s : ChatServer) (cid : pystr) (r : nat)
    (c : ClientConnection) (k : pystr) (r' : nat) (c' : ClientConnection) :
  registry_ok s = true -> locks_free s = true ->
  kick_target username s = Some (cid, r) -> store s !! r = Some c ->
  In (k, r') (clients s) -> k <> cid -> store s !! r' = Some c' ->
  live c' = false ->
  exists s',
    kick_user username s = (Blocked, s') /\
    clients_lock s' = true /\ message_lock s' = true /\
    clients s' = clients s.
Proof.
  intros Hok Hfree Htarget Hc Hk Hne Hc' Hdead.
  destruct (kick_user_found username s cid r c Hok Hfree Htarget Hc)
    as (dropped & h & E & _ & _ & Heff).
  specialize (Heff k r' c' Hk Hne Hc'). unfold broadcast_effect in Heff.
  apply eqb_neq in Hne. rewrite Hne in Heff.
  assert (Hin : In k dropped).
  { unfold live in Hdead. destruct (is_active c'); [|tauto].
    simpl in Hdead. rewrite Hdead in Heff. tauto. }
  destruct dropped as [|k0 dropped]; [destruct Hin|].
  eexists. split; [exact E|]. repeat split.
Qed.

(** ** [shutdown] *)

Lemma settles_broadcast (sender message exclude : pystr) (s : ChatServer) :
  settles s (snd (broadcast_message sender message exclude s)).
Proof.
  apply framed_broadcast_message;
    first [ apply settles_refl | apply settles_trans | apply settles_object
          | apply settles_del | intros; apply settles_same; reflexivity ].
Qed.

Lemma broadcast_keeps_running (sender message exclude : pystr)
    (s : ChatServer) :
  is_running (snd (broadcast_message sender message exclude s))
  = is_running s.
Proof.
  apply (framed_broadcast_message (fun a b => is_running b = is_running a));
    intros; simpl; congruence.
Qed.

Lemma close_all_spec (values : list nat) :
  forall s : ChatServer,
    List.NoDup values ->
    (forall r, In r values -> exists c, store s !! r = Some c) ->
    exists h,
      close_all values s = (Done tt, set_store h s) /\
      (forall r, ~ In r values -> h !! r = store s !! r) /\
      (forall r c, In r values -> store s !! r = Some c ->
         h !! r = Some (set_socket (snd (Socket.close (socket c)))
                          (set_is_active false c))).
Proof.
  induction values as [|r rest IH]; intros s Hnd Hval.
  - exists (store s). split; [|split; [reflexivity | intros r c []]].
    unfold close_all, ret. f_equal. destruct s; reflexivity.
  - inversion Hnd as [|? ? Hnotin Hnd']; subst.
    destruct (Hval r (or_introl eq_refl)) as [c Hc].
    cbn [close_all]. unfold bind.
    rewrite (on_conn_at _ _ _ _ Hc), close_spec. cbn [fst snd].
    set (closed_c := set_socket (snd (Socket.close (socket c)))
                       (set_is_active false c)).
    set (s1 := set_store (<[r:=closed_c]> (store s)) s).
    assert (Hr : (r < length (store s))%nat)
      by (eapply lookup_lt_Some; exact Hc).
    assert (Hat : store s1 !! r = Some closed_c)
      by (apply list_lookup_insert_eq; exact Hr).
    assert (Hne : forall r0, r0 <> r -> store s1 !! r0 = store s !! r0).
    { intros r0 H0. subst s1. simpl.
      rewrite list_lookup_insert_ne by congruence. reflexivity. }
    destruct (IH s1 Hnd') as (h & E & Hframe & Hclosed).
    { intros r0 H0. destruct (Nat.eq_dec r0 r) as [-> | H1]; [eauto|].
      rewrite (Hne _ H1). apply Hval. right. exact H0. }
    exists h. split; [rewrite E; reflexivity|]. split.
    + intros r0 H0. rewrite (Hframe r0) by (intros H1; apply H0; right; exact H1).
      apply Hne. intros ->. apply H0. left. reflexivity.
    + intros r0 c0 [<- | Hin] Hc0.
      * rewrite (Hframe r Hnotin), Hat. subst closed_c. congruence.
      * apply Hclosed; [exact Hin|]. rewrite Hne; [exact Hc0|].
        intros ->. exact (Hnotin Hin).
Qed.

Lemma shutdown_idle (s : ChatServer) :
  clients s = [] -> is_running s = false -> clients_lock s = false ->
  shutdown s = (Done tt, s).
Proof.
  intros Hc Hr Hl. destruct s as [cl pw run ml cll st th acc nw tm].
  simpl in *. subst. reflexivity.
Qed.

(** X15 (shutdown): on a well-formed registry with both locks free,
    [shutdown] returns with the registry empty and the server no longer
    running; every connection that was live has been sent the closing
    notice, is closed and inactive; a second [shutdown] changes nothing. *)
Theorem shutdown_notifies_closes_and_clears (s : ChatServer) :
  registry_ok s = true -> locks_free s = true ->
  exists s',
    shutdown s = (Done tt, s') /\
    clients s' = [] /\ is_running s' = false /\ locks_free s' = true /\
    (forall cid r c,
       In (cid, r) (clients s) -> store s !! r = Some c -> live c = true ->
       exists c',
         store s' !! r = Some c' /\
         outbox (socket c')
         = outbox (socket c)
           ++ [format_message (now s) Text.system Text.closing] /\
         closed (socket c') = true /\ is_active c' = false) /\
    shutdown s' = (Done tt, s').
Proof.
  intros Hok Hfree.
  destruct (locks_free_each _ Hfree) as [Hm Hl].
  pose proof (proj1 (registry_ok_sound s) Hok) as Hsound.
  set (s0 := set_is_running false s).
  assert (Hsound0 : sound s0) by exact Hsound.
  destruct (broadcast_message_entries s0 Text.system Text.closing [])
    as (s1 & E1 & Hm1 & Hl1 & _ & _ & _ & Hent).
  { exact (registry_ok_keys _ Hok). }
  { exact (registry_ok_values _ Hok). }
  { intros k r Hin. destruct (registry_ok_entry _ _ _ Hok Hin) as (c & Hc & _).
    eauto. }
  { exact Hm. }
  { exact Hl. }
  assert (Hsound1 : sound s1).
  { apply (sound_settles s0); [exact Hsound0|].
    pose proof (settles_broadcast Text.system Text.closing [] s0) as H.
    rewrite E1 in H. exact H. }
  assert (Hrun1 : is_running s1 = false).
  { pose proof (broadcast_keeps_running Text.system Text.closing [] s0) as H.
    rewrite E1 in H. exact H. }
  destruct Hsound1 as (Hk1 & Hv1 & He1).
  destruct (close_all_spec (Dict.values (clients s1))
              (set_clients_lock true s1) Hv1)
    as (h & Ec & _ & Hclosed).
  { intros r Hin. apply in_map_iff in Hin. destruct Hin as ([k r'] & <- & Hin).
    destruct (He1 _ _ Hin) as (c & Hc & _). eauto. }
  set (s' := set_clients [] (set_store h s1)).
  assert (E : shutdown s = (Done tt, s')).
  { unfold shutdown, bind at 1, modify at 1. fold s0.
    unfold bind at 1. rewrite E1.
    rewrite (with_lock_free _ _ _ _ Hl1).
    unfold try_finally, bind at 1, get. unfold bind at 1.
    change (clients (set_clients_lock true s1)) with (clients s1).
    rewrite Ec. unfold bind, modify, ret. f_equal.
    subst s'. destruct s1; simpl in *; subst; reflexivity. }
  exists s'. split; [exact E|].
  split; [reflexivity|]. split; [exact Hrun1|].
  split; [unfold locks_free; simpl; rewrite Hm1, Hl1; reflexivity|].
  split.
  - intros cid r c Hin Hc Hlive.
    unfold live in Hlive. apply andb_true_iff in Hlive.
    destruct Hlive as [Ha Hw].
    destruct (registry_ok_entry _ _ _ Hok Hin) as (c0 & Hc0 & Ecid).
    assert (Hcid : cid <> []) by (rewrite Ecid; apply client_id_of_nonempty).
    destruct (Hent cid r c Hin Hc) as (_ & Hgo & _).
    destruct (Hgo Hcid Ha Hw) as (Hget & c1 & Hc1 & Hout).
    assert (Hin1 : In r (Dict.values (clients s1))).
    { apply dict_get_in in Hget. apply in_map_iff. exists (cid, r).
      split; [reflexivity | exact Hget]. }
    eexists. split; [exact (Hclosed r c1 Hin1 Hc1)|].
    split; [exact Hout|]. split; reflexivity.
  - apply shutdown_idle; [reflexivity | exact Hrun1 | exact Hl1].
Qed.


(** ** [handle_client]: a line of chat *)

Lemma broadcast_keeps_clock (sender message exclude : pystr)
    (s : ChatServer) :
  now (snd (broadcast_message sender message exclude s)) = now s.
Proof.
  apply (framed_broadcast_message (fun a b => now b = now a));
    intros; simpl; congruence.
Qed.

(** X16 (handle_client, broadcast_message): a line of chat that a session
    reads is relayed, stripped and formatted under the sender's nickname,
    to every other live connection of the registry; the sender gets no
    copy; the sender's last activity is set to the time of the relay. *)
Theorem handle_client_relays_a_chat_line
    (s : ChatServer) (r : nat) (c : ClientConnection) (text : pystr)
    (rest : list recv_event) :
  registry_ok s = true -> locks_free s = true ->
  store s !! r = Some c -> closed (socket c) = false ->
  inbox (socket c) = Arrives (Utf8 text) :: rest ->
  Py.strip text <> [] -> Py.startswith Text.slash (Py.strip text) = false ->
  let line := format_message (now s) (nickname c) (Py.strip text) in
  exists s',
    handle_client_pass r s = (Done Continue, s') /\
    (exists c',
       store s' !! r = Some c' /\ outbox (socket c') = outbox (socket c) /\
       inbox (socket c') = rest /\ last_activity c' = now s) /\
    forall k r' c0,
      In (k, r') (clients s) -> k <> client_id_of (address c) ->
      store s !! r' = Some c0 -> live c0 = true ->
      exists c1,
        store s' !! r' = Some c1 /\
        outbox (socket c1) = outbox (socket c0) ++ [line].
Proof.
  intros Hok Hfree Hc Hcl Hin Hmsg Hslash line.
  destruct (locks_free_each _ Hfree) as [Hm Hl].
  assert (Eread : on_conn r (on_socket Socket.recv) s
                  = (Done (Utf8 text), after_read r c s)).
  { rewrite (on_conn_at _ _ _ _ Hc).
    unfold on_socket, focus, Socket.recv, after_read. cbv beta.
    rewrite Hcl, Hin. reflexivity. }
  pose proof (registry_ok_after_read _ _ _ Hok Hc) as Hok1.
  set (s1 := after_read r c s) in *.
  set (c1 := set_socket
               {| inbox := tl (inbox (socket c));
                  send_script := send_script (socket c);
                  outbox := outbox (socket c);
                  timeout := timeout (socket c);
                  closed := closed (socket c) |} c).
  assert (Hr : (r < length (store s))%nat)
    by (eapply lookup_lt_Some; exact Hc).
  assert (Hc1 : store s1 !! r = Some c1)
    by (apply list_lookup_insert_eq; exact Hr).
  assert (Hne1 : forall r', r' <> r -> store s1 !! r' = store s !! r').
  { intros r' H0. subst s1. unfold after_read. simpl.
    rewrite list_lookup_insert_ne by congruence. reflexivity. }
  assert (Hother : forall k r' c0, In (k, r') (clients s) ->
            k <> client_id_of (address c) -> store s !! r' = Some c0 ->
            r' <> r).
  { intros k r' c0 Hk Hne Hc0 ->.
    destruct (registry_ok_entry _ _ _ Hok Hk) as (c2 & Hc2 & Ek). congruence. }
  destruct (broadcast_message_entries s1 (nickname c1) (Py.strip text)
              (client_id_of (address c1)))
    as (s2 & E2 & _ & _ & _ & Hframe & _ & Hent).
  { exact (registry_ok_keys _ Hok1). }
  { exact (registry_ok_values _ Hok1). }
  { intros k r' Hk.
    destruct (registry_ok_entry _ _ _ Hok1 Hk) as (c2 & Hc2 & _). eauto. }
  { exact Hm. }
  { exact Hl. }
  assert (Hnow2 : now s2 = now s).
  { pose proof (broadcast_keeps_clock (nickname c1) (Py.strip text)
                  (client_id_of (address c1)) s1) as H.
    rewrite E2 in H. exact H. }
  assert (Hc2 : store s2 !! r = Some c1).
  { destruct (in_dec Nat.eq_dec r (Dict.values (clients s1))) as [Hreg | Hun].
    - apply in_map_iff in Hreg. destruct Hreg as ([k r0] & Er & Hk).
      simpl in Er. subst r0.
      destruct (registry_ok_entry _ _ _ Hok1 Hk) as (c3 & Hc3 & Ek).
      rewrite Hc1 in Hc3. injection Hc3 as <-.
      destruct (Hent k r c1 Hk Hc1) as (Hex & _). apply (Hex Ek).
    - rewrite (Hframe r Hun). exact Hc1. }
  set (s3 := set_store (<[r:=set_last_activity (now s2) c1]> (store s2)) s2).
  assert (E : handle_client_pass r s = (Done Continue, s3)).
  { unfold handle_client_pass, try_except, bind at 1. rewrite Eread.
    destruct text as [|x text]; [exfalso; apply Hmsg; reflexivity|].
    cbn [is_empty decode]. unfold bind at 1, ret at 1.
    destruct (Py.strip (x :: text)) as [|y msg] eqn:Es; [congruence|].
    unfold bind at 1. rewrite (deref_at _ _ _ Hc1).
    rewrite Hslash. unfold bind at 1. rewrite E2.
    unfold bind at 1, gets. unfold bind at 1.
    rewrite (on_conn_at _ _ _ _ Hc2). reflexivity. }
  exists s3. split; [exact E|]. split.
  - exists (set_last_activity (now s2) c1). split.
    + apply list_lookup_insert_eq. eapply lookup_lt_Some. exact Hc2.
    + split; [reflexivity|]. split; [simpl; rewrite Hin; reflexivity|].
      exact Hnow2.
  - intros k r' c0 Hk Hne Hc0 Hlive.
    pose proof (Hother _ _ _ Hk Hne Hc0) as Hr'.
    unfold live in Hlive. apply andb_true_iff in Hlive.
    destruct Hlive as [Ha Hw].
    rewrite <- (Hne1 _ Hr') in Hc0.
    destruct (Hent k r' c0 Hk Hc0) as (_ & Hgo & _).
    destruct (Hgo Hne Ha Hw) as (_ & c4 & Hc4 & Hout).
    exists c4. split; [|exact Hout].
    subst s3. simpl. rewrite list_lookup_insert_ne by congruence. exact Hc4.
Qed.

(** ** The keys of the registry *)

Lemma digits_value (fuel : nat) :
  forall (n : Z) (acc : pystr),
    0 <= n < 10 ^ Z.of_nat fuel ->
    fold_left (fun a c => 10 * a + (c - 48)) (Py.digits fuel n acc) 0
    = fold_left (fun a c => 10 * a + (c - 48)) acc n.
Proof.
  induction fuel as [|fuel IH]; intros n acc Hn.
  - simpl in *. assert (n = 0) as -> by lia. reflexivity.
  - cbn [Py.digits]. destruct (n <? 10) eqn:E.
    + apply Z.ltb_lt in E. unfold Py.digit. cbn [fold_left]. f_equal. lia.
    + apply Z.ltb_ge in E. rewrite IH.
      * unfold Py.digit. cbn [fold_left]. f_equal.
        pose proof (Z.div_mod n 10 ltac:(lia)). lia.
      * rewrite Nat2Z.inj_succ, Z.pow_succ_r in Hn by lia.
        split; [apply Z.div_pos; lia|].
        apply Z.div_lt_upper_bound; lia.
Qed.

Lemma int_of_of_int (n : Z) : 0 <= n -> int_of (Py.of_int n) = n.
Proof.
  intros Hn. unfold int_of, Py.of_int.
  assert ((n <? 0) = false) as -> by (apply Z.ltb_ge; exact Hn).
  rewrite digits_value; [reflexivity|].
  split; [exact Hn|].
  rewrite Nat2Z.inj_succ, Z2Nat.id by apply Z.log2_nonneg.
  destruct (Z.eq_dec n 0) as [-> | Hpos]; [reflexivity|].
  pose proof (Z.log2_spec n ltac:(lia)) as [_ Hlt].
  pose proof (Z.log2_nonneg n) as Hlog.
  assert (2 ^ Z.succ (Z.log2 n) <= 10 ^ Z.succ (Z.log2 n))
    by (apply Z.pow_le_mono_l; lia).
  lia.
Qed.

Lemma colon_split (a b x y : pystr) :
  colon_free a = true -> colon_free b = true ->
  a ++ 58 :: x = b ++ 58 :: y -> a = b /\ x = y.
Proof.
  intros Ha Hb E.
  assert (Eab : a = b).
  { rewrite <- (UtilsFacts.up_to_colon_app a x Ha),
            <- (UtilsFacts.up_to_colon_app b y Hb), E. reflexivity. }
  subst b. split; [reflexivity|].
  apply app_inv_head in E. congruence.
Qed.

(** X22 (accept_connections, the registry key): the key
    [f"{address[0]}:{address[1]}"] tells the peers apart: two addresses
    whose hosts hold no colon and whose ports are not negative have the
    same key only if they are the same address. *)
Theorem client_id_of_injective (a b : pystr * Z) :
  colon_free (fst a) = true -> colon_free (fst b) = true ->
  0 <= snd a -> 0 <= snd b ->
  client_id_of a = client_id_of b -> a = b.
Proof.
  intros Ha Hb Hpa Hpb E. unfold client_id_of in E. cbn [app] in E.
  destruct (colon_split _ _ _ _ Ha Hb E) as [Eh Ep].
  destruct a as [ha pa], b as [hb pb]. simpl in *. subst hb. f_equal.
  rewrite <- (int_of_of_int pa Hpa), <- (int_of_of_int pb Hpb), Ep.
  reflexivity.
Qed.

(** ** The operator's console *)

(** X23 (server_input_handler, broadcast_message): a line typed at the
    console that is not blank and is none of the console's commands is
    sent, stripped and under the administrator's label, to every live
    connection of the registry, and the console loop goes on. *)
Theorem console_line_is_broadcast (s : ChatServer) (line : pystr) :
  registry_ok s = true -> locks_free s = true ->
  Py.strip line <> [] -> console_command (Py.strip line) = false ->
  exists s',
    server_input_handler_pass (Typed line) s = (Done Continue, s') /\
    forall cid r c,
      In (cid, r) (clients s) -> store s !! r = Some c -> live c = true ->
      exists c',
        store s' !! r = Some c' /\
        outbox (socket c')
        = outbox (socket c)
          ++ [format_message (now s) Text.admin (Py.strip line)].
Proof.
  intros Hok Hfree Hne Hcmd.
  destruct (locks_free_each _ Hfree) as [Hm Hl].
  destruct (broadcast_message_entries s Text.admin (Py.strip line) [])
    as (s1 & E1 & _ & _ & _ & _ & _ & Hent).
  { exact (registry_ok_keys _ Hok). }
  { exact (registry_ok_values _ Hok). }
  { intros k r Hin. destruct (registry_ok_entry _ _ _ Hok Hin) as (c & Hc & _).
    eauto. }
  { exact Hm. }
  { exact Hl. }
  exists s1. split.
  - unfold console_command in Hcmd. rewrite !orb_false_iff in Hcmd.
    destruct Hcmd as ((((Hq & Hh) & Hs) & Hu) & Hk).
    unfold server_input_handler_pass, try_except.
    destruct (Py.strip line) as [|x t] eqn:Es; [congruence|].
    rewrite Hq, Hh, Hs, Hu, Hk. unfold bind. rewrite E1. reflexivity.
  - intros cid r c Hin Hc Hlive.
    unfold live in Hlive. apply andb_true_iff in Hlive.
    destruct Hlive as [Ha Hw].
    destruct (registry_ok_entry _ _ _ Hok Hin) as (c0 & Hc0 & Ecid).
    assert (Hcid : cid <> []) by (rewrite Ecid; apply client_id_of_nonempty).
    destruct (Hent cid r c Hin Hc) as (_ & Hgo & _).
    destruct (Hgo Hcid Ha Hw) as (_ & c1 & Hc1 & Hout).
    exists c1. split; [exact Hc1 | exact Hout].
Qed.

(** ** [handle_client]: the welcome *)

Lemma online_users_spec (s : ChatServer) (values : list nat) :
  (forall r, In r values -> exists c, store s !! r = Some c) ->
  online_users values s
  = (Done
       (flat_map
          (fun r =>
             match store s !! r with
             | Some c => if is_active c then [nickname c] else []
             | None => []
             end) values),
     s).
Proof.
  induction values as [|r rest IH]; intros Hval; [reflexivity|].
  destruct (Hval r (or_introl eq_refl)) as [c Hc].
  cbn [online_users flat_map]. unfold bind at 1.
  rewrite (deref_at _ _ _ Hc). unfold bind.
  rewrite IH by (intros r0 H0; apply Hval; right; exact H0).
  rewrite Hc. unfold ret. destruct (is_active c); reflexivity.
Qed.

Lemma flat_map_ext_in {A B} (f g : A -> list B) (l : list A) :
  (forall x, In x l -> f x = g x) -> flat_map f l = flat_map g l.
Proof.
  induction l as [|x l IH]; intros H; [reflexivity|]. simpl.
  rewrite (H x (or_introl eq_refl)), IH; [reflexivity|].
  intros y Hy. apply H. right. exact Hy.
Qed.

(** X24 (handle_client, before its loop): with every registered connection
    live, the session of a newcomer tells every other connection that the
    newcomer has joined, and sends the newcomer the list of the nicknames
    of all active connections of the registry, its own among them, in the
    order of the registry; the registry is left as it was. *)
Theorem handle_client_welcomes_the_newcomer
    (s : ChatServer) (r : nat) (c : ClientConnection) :
  registry_ok s = true -> locks_free s = true ->
  store s !! r = Some c -> In (client_id_of (address c), r) (clients s) ->
  (forall k r' c', In (k, r') (clients s) -> store s !! r' = Some c' ->
                   live c' = true) ->
  exists s',
    handle_client_welcome r s = (Done tt, s') /\
    clients s' = clients s /\
    In (nickname c) (roster s) /\
    (exists c',
       store s' !! r = Some c' /\
       outbox (socket c')
       = outbox (socket c)
         ++ [format_message (now s) Text.system
               (Text.roster_pre ++ Py.join Text.comma (roster s))]) /\
    forall k r' c0,
      In (k, r') (clients s) -> k <> client_id_of (address c) ->
      store s !! r' = Some c0 ->
      exists c1,
        store s' !! r' = Some c1 /\
        outbox (socket c1)
        = outbox (socket c0)
          ++ [format_message (now s) Text.system
                (Text.welcome_pre ++ nickname c ++ Text.welcome_post)].
Proof.
  intros Hok Hfree Hc Hreg Hlive.
  destruct (locks_free_each _ Hfree) as [Hm Hl].
  set (cid := client_id_of (address c)) in *.
  set (welcome := Text.welcome_pre ++ nickname c ++ Text.welcome_post).
  assert (Hval : forall k r', In (k, r') (clients s) ->
            exists c', store s !! r' = Some c').
  { intros k r' Hk. destruct (registry_ok_entry _ _ _ Hok Hk) as (c' & Hc' & _).
    eauto. }
  destruct (broadcast_message_spec s Text.system welcome cid)
    as (dropped & h & E & Hlh & Hframe & Hdrop & Heff).
  { exact (registry_ok_values _ Hok). }
  { exact Hval. }
  { exact Hm. }
  { exact Hl. }
  { intros E0. rewrite E0 in Hreg. destruct Hreg. }
  assert (Hnone : dropped = []).
  { destruct dropped as [|k0 dropped]; [reflexivity|]. exfalso.
    destruct (Hdrop k0 (or_introl eq_refl)) as (r' & c' & Hk & Hc' & _ & Hdead).
    pose proof (Hlive _ _ _ Hk Hc') as H. unfold live in H. congruence. }
  subst dropped. cbn [fold_left] in E.
  set (s1 := set_store h s).
  change (set_clients (clients s) (set_store h s)) with s1 in E.
  set (formatted := format_message (now s) Text.system welcome) in *.
  assert (Hobj : forall k r' c', In (k, r') (clients s) ->
            store s !! r' = Some c' ->
            exists c1, h !! r' = Some c1 /\ nickname c1 = nickname c' /\
                       is_active c1 = is_active c' /\
                       (k = cid -> c1 = c') /\
                       (k <> cid ->
                        outbox (socket c1) = outbox (socket c') ++ [formatted])).
  { intros k r' c' Hk Hc'. specialize (Heff k r' c' Hk Hc').
    unfold broadcast_effect in Heff.
    pose proof (Hlive _ _ _ Hk Hc') as Hl'. unfold live in Hl'.
    apply andb_true_iff in Hl'. destruct Hl' as [Ha Hw].
    destruct (Py.eqb k cid) eqn:Ek.
    - apply eqb_eq in Ek. exists c'. split; [exact Heff|].
      split; [reflexivity|]. split; [reflexivity|].
      split; [reflexivity | congruence].
    - apply eqb_neq in Ek. rewrite Ha, Hw in Heff.
      eexists. split; [exact Heff|]. split; [reflexivity|].
      split; [reflexivity|]. split; [congruence | reflexivity]. }
  assert (Hh : h !! r = Some c).
  { destruct (Hobj _ _ _ Hreg Hc) as (c1 & Hc1 & _ & _ & Hsame & _).
    rewrite (Hsame eq_refl) in Hc1. exact Hc1. }
  assert (Hnames : flat_map
                     (fun r0 =>
                        match store s1 !! r0 with
                        | Some c0 => if is_active c0 then [nickname c0] else []
                        | None => []
                        end) (Dict.values (clients s1))
                   = roster s).
  { unfold roster. apply flat_map_ext_in. intros r0 H0.
    apply in_map_iff in H0. destruct H0 as ([k r'] & Er & Hk).
    simpl in Er. subst r'.
    destruct (Hval _ _ Hk) as (c' & Hc').
    destruct (Hobj _ _ _ Hk Hc') as (c1 & Hc1 & Hn & Ha & _).
    change (store s1) with h. rewrite Hc1, Hc', Hn, Ha. reflexivity. }
  pose proof (Hlive _ _ _ Hreg Hc) as Hlc. unfold live in Hlc.
  apply andb_true_iff in Hlc. destruct Hlc as [Hac Hwc].
  eexists. split.
  { unfold handle_client_welcome, bind at 1. rewrite (deref_at _ _ _ Hc).
    fold cid. fold welcome. unfold bind at 1. rewrite E.
    unfold bind at 1, get. unfold bind at 1.
    rewrite online_users_spec.
    2:{ intros r0 H0. apply in_map_iff in H0.
        destruct H0 as ([k r'] & Er & Hk). simpl in Er. subst r'.
        destruct (Hval _ _ Hk) as (c' & Hc').
        destruct (Hobj _ _ _ Hk Hc') as (c1 & Hc1 & _). eauto. }
    rewrite Hnames. unfold bind.
    rewrite (on_conn_send_ok r _ _ s1 c Hh Hwc). reflexivity. }
  split; [reflexivity|]. split.
  { unfold roster. apply in_flat_map. exists r. split.
    - apply in_map_iff. exists (cid, r). split; [reflexivity | exact Hreg].
    - rewrite Hc, Hac. left. reflexivity. }
  split.
  - eexists. split.
    + simpl. apply list_lookup_insert_eq. eapply lookup_lt_Some. exact Hh.
    + reflexivity.
  - intros k r' c0 Hk Hne Hc0.
    destruct (Hobj _ _ _ Hk Hc0) as (c1 & Hc1 & _ & _ & _ & Hout).
    exists c1. split; [|exact (Hout Hne)].
    simpl. rewrite list_lookup_insert_ne; [exact Hc1|].
    intros <-. apply Hne.
    destruct (registry_ok_entry _ _ _ Hok Hk) as (c2 & Hc2 & Ek).
    subst cid. congruence.
Qed.

Lemma registered_socket_has_no_timeout_witness :
  exists r c,
    Dict.get Demo.alice_id
      (clients (fst (snd (accept_connections_pass Demo.ascii_only
                            Demo.alice_address
                            (Demo.opened,
                             fresh (wire [Py.lit "room1"; Py.lit "Alice"])
                               (Some 5))))))
    = Some r /\
    store (fst (snd (accept_connections_pass Demo.ascii_only
                       Demo.alice_address
                       (Demo.opened,
                        fresh (wire [Py.lit "room1"; Py.lit "Alice"])
                          (Some 5))))) !! r = Some c /\
    timeout (socket c) = None.
Proof.
  destruct (registered_socket_has_no_timeout Demo.ascii_only Demo.opened
              (fst (snd (accept_connections_pass Demo.ascii_only
                           Demo.alice_address
                           (Demo.opened,
                            fresh (wire [Py.lit "room1"; Py.lit "Alice"])
                              (Some 5)))))
              (fresh (wire [Py.lit "room1"; Py.lit "Alice"]) (Some 5))
              (snd (snd (accept_connections_pass Demo.ascii_only
                           Demo.alice_address
                           (Demo.opened,
                            fresh (wire [Py.lit "room1"; Py.lit "Alice"])
                              (Some 5)))))
              Demo.alice_address
              (fst (accept_connections_pass Demo.ascii_only
                      Demo.alice_address
                      (Demo.opened,
                       fresh (wire [Py.lit "room1"; Py.lit "Alice"])
                         (Some 5)))))
    as (r & c & Hget & Hc & Hto & _).
  - vm_compute. reflexivity.
  - vm_compute. discriminate.
  - exists r, c. split; [exact Hget|]. split; [exact Hc | exact Hto].
Defined.

Lemma silent_newcomer_stalls_the_acceptor_witness :
  clients
    (run Demo.ascii_only
       [Connect (Demo.peer [Demo.says "room1"]) Demo.alice_address;
        Connect (Demo.peer [Demo.says "room1"; Demo.says "Bob"])
          Demo.bob_address]
       Demo.opened)
  = [].
Proof.
  destruct (silent_newcomer_stalls_the_acceptor Demo.ascii_only Demo.opened
              (Demo.peer [Demo.says "room1"]) Demo.alice_address
              (Py.lit "room1"))
    as (_ & Hsame & Hlater);
    [vm_compute; reflexivity | reflexivity | reflexivity | reflexivity
    | reflexivity | reflexivity |].
  unfold run. cbn [fold_left]. rewrite Hlater. exact Hsame.
Defined.

Lemma kick_user_unknown_name_witness :
  kick_user (Py.lit "Carol") Demo.chatting = (Done tt, Demo.chatting).
Proof.
  apply kick_user_unknown_name; vm_compute; reflexivity.
Defined.

Lemma all_entries (P : pystr -> ClientConnection -> bool) (s : ChatServer) :
  forallb
    (fun e =>
       match store s !! snd e with
       | Some c => P (fst e) c
       | None => true
       end) (clients s) = true ->
  forall k r c, In (k, r) (clients s) -> store s !! r = Some c ->
                P k c = true.
Proof.
  intros Hall k r c Hin Hc.
  pose proof (proj1 (forallb_forall _ _) Hall (k, r) Hin) as H.
  cbn [fst snd] in H. rewrite Hc in H. exact H.
Qed.

Local Ltac object_at s r k :=
  let o := eval vm_compute in (store s !! r) in
  match o with
  | Some ?c => k c
  end.

Lemma kick_user_marks_and_announces_witness :
  exists s',
    kick_user (Py.lit "Bob") Demo.chatting = (Done tt, s') /\
    clients s' = clients Demo.chatting.
Proof.
  object_at Demo.chatting 1%nat ltac:(fun c =>
    destruct (kick_user_marks_and_announces (Py.lit "Bob") Demo.chatting
                Demo.bob_id 1 c) as (s' & E & Hcl & _)).
  - vm_compute. reflexivity.
  - vm_compute. reflexivity.
  - vm_compute. reflexivity.
  - vm_compute. reflexivity.
  - intros k r' c' Hin Hne Hc'.
    pose proof (all_entries (fun k c => Py.eqb k Demo.bob_id || live c)
                  Demo.chatting ltac:(vm_compute; reflexivity) k r' c' Hin Hc')
      as H.
    apply orb_true_iff in H. destruct H as [H | H]; [|exact H].
    apply eqb_eq in H. contradiction.
  - exists s'. split; [exact E | exact Hcl].
Defined.

Lemma kick_user_blocks_on_a_dead_connection_witness :
  exists s',
    kick_user (Py.lit "Alice")
      (snd (kick_user (Py.lit "Bob") Demo.chatting))
    = (Blocked, s') /\
    clients_lock s' = true.
Proof.
  object_at (snd (kick_user (Py.lit "Bob") Demo.chatting)) 0%nat
    ltac:(fun c =>
  object_at (snd (kick_user (Py.lit "Bob") Demo.chatting)) 1%nat
    ltac:(fun c' =>
    destruct (kick_user_blocks_on_a_dead_connection (Py.lit "Alice")
                (snd (kick_user (Py.lit "Bob") Demo.chatting))
                Demo.alice_id 0 c Demo.bob_id 1 c')
      as (s' & E & Hl & _))).
  - vm_compute. reflexivity.
  - vm_compute. reflexivity.
  - vm_compute. reflexivity.
  - vm_compute. reflexivity.
  - vm_compute. tauto.
  - vm_compute. discriminate.
  - vm_compute. reflexivity.
  - vm_compute. reflexivity.
  - exists s'. split; [exact E | exact Hl].
Defined.

Lemma shutdown_notifies_closes_and_clears_witness :
  exists s', shutdown Demo.chatting = (Done tt, s') /\ clients s' = [].
Proof.
  destruct (shutdown_notifies_closes_and_clears Demo.chatting)
    as (s' & E & Hcl & _);
    [vm_compute; reflexivity | vm_compute; reflexivity |].
  exists s'. split; [exact E | exact Hcl].
Defined.

Lemma handle_client_relays_a_chat_line_witness :
  exists s' c1,
    handle_client_pass 0 Scene.talking = (Done Continue, s') /\
    store s' !! 1%nat = Some c1 /\
    last (outbox (socket c1)) = Some (Py.lit "[12:00:00] Alice: hello").
Proof.
  object_at Scene.talking 0%nat ltac:(fun c =>
    destruct (handle_client_relays_a_chat_line Scene.talking 0 c
                (Py.lit " hello ") [])
      as (s' & E & _ & Hrelay)).
  - vm_compute. reflexivity.
  - vm_compute. reflexivity.
  - vm_compute. reflexivity.
  - vm_compute. reflexivity.
  - vm_compute. reflexivity.
  - vm_compute. discriminate.
  - vm_compute. reflexivity.
  - object_at Scene.talking 1%nat ltac:(fun c0 =>
      destruct (Hrelay Demo.bob_id 1%nat c0) as (c1 & Hc1 & Hout)).
    + vm_compute. tauto.
    + vm_compute. discriminate.
    + vm_compute. reflexivity.
    + vm_compute. reflexivity.
    + exists s', c1. split; [exact E|]. split; [exact Hc1|].
      rewrite Hout. vm_compute. reflexivity.
Defined.

Lemma client_id_of_injective_witness :
  (Py.lit "10.0.0.2", Z.pos 50001) = Demo.alice_address.
Proof.
  apply client_id_of_injective;
    [reflexivity | reflexivity | vm_compute; discriminate
    | vm_compute; discriminate | vm_compute; reflexivity].
Defined.

Lemma console_line_is_broadcast_witness :
  exists s' c',
    server_input_handler_pass (Typed (Py.lit " lunch at noon ")) Demo.chatting
    = (Done Continue, s') /\
    store s' !! 1%nat = Some c' /\
    last (outbox (socket c'))
    = Some (format_message Demo.noon Text.admin (Py.lit "lunch at noon")).
Proof.
  destruct (console_line_is_broadcast Demo.chatting
              (Py.lit " lunch at noon "))
    as (s' & E & Hall);
    [vm_compute; reflexivity | vm_compute; reflexivity
    | vm_compute; discriminate | vm_compute; reflexivity |].
  object_at Demo.chatting 1%nat ltac:(fun c =>
    destruct (Hall Demo.bob_id 1%nat c) as (c' & Hc' & Hout)).
  - vm_compute. tauto.
  - vm_compute. reflexivity.
  - vm_compute. reflexivity.
  - exists s', c'. split; [exact E|]. split; [exact Hc'|].
    rewrite Hout. vm_compute. reflexivity.
Defined.

Lemma handle_client_welcomes_the_newcomer_witness :
  exists s' c',
    handle_client_welcome 1 Scene.joining = (Done tt, s') /\
    store s' !! 1%nat = Some c' /\
    last (outbox (socket c'))
    = Some (format_message Demo.noon Text.system
              (Text.roster_pre ++ Py.lit "Alice, Bob")).
Proof.
  object_at Scene.joining 1%nat ltac:(fun c =>
    destruct (handle_client_welcomes_the_newcomer Scene.joining 1 c)
      as (s' & E & _ & _ & (c' & Hc' & Hout) & _)).
  - vm_compute. reflexivity.
  - vm_compute. reflexivity.
  - vm_compute. reflexivity.
  - vm_compute. tauto.
  - exact (all_entries (fun _ c => live c) Scene.joining
             ltac:(vm_compute; reflexivity)).
  - exists s', c'. split; [exact E|]. split; [exact Hc'|].
    rewrite Hout. vm_compute. reflexivity.
Defined.

End ServerExtras.

(** * More of client.py *)

Module ClientExtras.

Import Client ClientLogin.

(** ** The handshake of both sides *)

Section Handshake.

Variable isalnum_ext : Z -> bool.

(** X17 (ChatClient.authenticate with accept_connections): the two sides
    of the handshake fit.  With room in the registry and a password that
    matches, each write arriving as one read, the server reads what the
    client writes and the client reads what the server writes: the server
    registers the connection under the nickname (or the placeholder when
    the nickname is not acceptable) and the client reports success. *)
Theorem handshake_of_client_and_server_agree
    (s : Server.ChatServer) (client_address : pystr * Z)
    (password nick : pystr) :
  Z.of_nat (length (Server.clients s)) < ServerConfig.MAX_CLIENTS ->
  Server.clients_lock s = false ->
  password <> [] -> nick <> [] ->
  Py.strip password = Server.room_password s ->
  exists s' ks' kc' r c,
    Server.accept_connections_pass isalnum_ext client_address
      (s, fresh (wire [password; nick]) None)
    = (Done Continue, (s', ks')) /\
    authenticate password nick
      (fresh (wire (outbox ks')) (Some CONNECTION_TIMEOUT))
    = (Done true, kc') /\
    outbox kc' = [password; nick] /\
    Dict.get (Server.client_id_of client_address) (Server.clients s')
    = Some r /\
    Server.store s' !! r = Some c /\
    Server.nickname c
    = (if negb (Py.eqb (Py.strip nick) []) && (Py.len (Py.strip nick) <=? 20)
          && Server.isalnum isalnum_ext (Py.strip nick)
       then Py.strip nick else placeholder (Server.time s)).
Proof.
  intros Hroom Hl Hpw Hnick Hmatch.
  rewrite (ServerFacts.accept_pass_auth isalnum_ext _ _ _ Hroom).
  rewrite (ServerFacts.authenticate_client_match (Server.room_password s)
             password _ [Arrives (Utf8 nick)]);
    [|reflexivity | reflexivity | exact Hmatch].
  rewrite (ServerFacts.get_client_nickname_spec isalnum_ext _ nick _ []);
    [|reflexivity | reflexivity].
  rewrite Hl.
  cbv zeta.
  set (name := if negb (Py.eqb (Py.strip nick) [])
                  && (Py.len (Py.strip nick) <=? 20)
                  && Server.isalnum isalnum_ext (Py.strip nick)
               then Py.strip nick else placeholder (Server.time s)).
  assert (Hname : name <> []).
  { subst name.
    destruct (Py.eqb (Py.strip nick) []) eqn:E; [discriminate|].
    apply eqb_neq in E. cbn [negb andb].
    destruct ((Py.len (Py.strip nick) <=? 20)
              && Server.isalnum isalnum_ext (Py.strip nick));
      [exact E | discriminate]. }
  eexists _, _, _, (length (Server.store s)), _.
  split; [reflexivity|]. split; [reflexivity|]. split; [reflexivity|].
  split; [apply dict_get_set_eq|].
  split; [apply list_lookup_middle; reflexivity|].
  simpl. destruct name; [congruence | reflexivity].
Qed.

(** X18 (accept_connections with ChatClient.authenticate): a server whose
    registry is full writes SERVER_FULL in place of the password prompt
    and closes; the client, which expects the prompt first, gives up at
    its first read and never sends the password. *)
Theorem full_server_turns_the_client_away
    (s : Server.ChatServer) (client_address : pystr * Z)
    (password nick : pystr) :
  ServerConfig.MAX_CLIENTS <= Z.of_nat (length (Server.clients s)) ->
  exists ks' kc',
    Server.accept_connections_pass isalnum_ext client_address
      (s, fresh [] None)
    = (Done Continue, (s, ks')) /\
    outbox ks' = [Text.SERVER_FULL] /\ closed ks' = true /\
    authenticate password nick
      (fresh (wire (outbox ks')) (Some CONNECTION_TIMEOUT))
    = (Done false, kc') /\
    outbox kc' = [].
Proof.
  intros Hfull.
  rewrite (ServerFacts.accept_full isalnum_ext _ _ _ Hfull).
  eexists _, _. split; [reflexivity|].
  split; [reflexivity|]. split; [reflexivity|].
  split; reflexivity.
Qed.

End Handshake.

Lemma handshake_of_client_and_server_agree_witness :
  exists s' ks' kc',
    Server.accept_connections_pass Demo.ascii_only Demo.alice_address
      (Demo.opened, fresh (wire [Py.lit "room1"; Py.lit "Alice"]) None)
    = (Done Continue, (s', ks')) /\
    authenticate (Py.lit "room1") (Py.lit "Alice")
      (fresh (wire (outbox ks')) (Some CONNECTION_TIMEOUT))
    = (Done true, kc').
Proof.
  destruct (handshake_of_client_and_server_agree Demo.ascii_only Demo.opened
              Demo.alice_address (Py.lit "room1") (Py.lit "Alice"))
    as (s' & ks' & kc' & r & c & Es & Ec & _);
    [vm_compute; reflexivity | reflexivity | discriminate | discriminate
    | reflexivity |].
  exists s', ks', kc'. split; [exact Es | exact Ec].
Defined.

Lemma full_server_turns_the_client_away_witness :
  exists ks' kc',
    authenticate (Py.lit "room1") (Py.lit "Frank")
      (fresh (wire (outbox ks')) (Some CONNECTION_TIMEOUT))
    = (Done false, kc') /\
    outbox ks' = [Text.SERVER_FULL] /\ outbox kc' = [].
Proof.
  destruct (full_server_turns_the_client_away Demo.ascii_only
              (Server.run Demo.ascii_only Demo.five_connects Demo.opened)
              (Py.lit "10.0.0.9", 50006) (Py.lit "room1") (Py.lit "Frank"))
    as (ks' & kc' & _ & Hfull & _ & Ec & Hout);
    [vm_compute; discriminate|].
  exists ks', kc'. split; [exact Ec|]. split; [exact Hfull | exact Hout].
Defined.

(** ** [connect_to_server] *)

Lemma connect_attempts_spec (network : nat -> connect_result) (n : nat) :
  forall (from : nat) (c : ChatClient),
    (exists i k,
       (from <= i < from + n)%nat /\ network i = Connects k /\
       (forall j, (from <= j < i)%nat -> forall k', network j <> Connects k') /\
       connect_attempts network from n c
       = (Done true,
          set_is_connected true
            (set_client_socket
               (Some (snd (Socket.settimeout (Some CONNECTION_TIMEOUT) k)))
               c))) \/
    ((forall i, (from <= i < from + n)%nat ->
                forall k, network i <> Connects k) /\
     connect_attempts network from n c
     = (Done false,
        match n with O => c | S _ => set_client_socket None c end)).
Proof.
  induction n as [|n IH]; intros from c.
  - right. split; [intros i Hi; lia | reflexivity].
  - destruct (network from) as [k| | | |] eqn:E.
    1:{ left. exists from, k. split; [lia|]. split; [exact E|].
        split; [intros j Hj; lia|].
        cbn [connect_attempts]. rewrite E. reflexivity. }
    all: assert (Enext : connect_attempts network from (S n) c
                         = connect_attempts network (S from) n
                             (set_client_socket None c))
        by (cbn [connect_attempts]; rewrite E; reflexivity);
      rewrite Enext;
      destruct (IH (S from) (set_client_socket None c))
        as [(i & k & Hi & Ei & Hfirst & Er) | (Hnone & Er)];
      [ left; exists i, k; split; [lia|]; split; [exact Ei|];
        split; [intros j Hj k' Hk';
                destruct (Nat.eq_dec j from) as [-> | Hne];
                [congruence | apply (Hfirst j ltac:(lia) k' Hk')]
               | rewrite Er; reflexivity]
      | right; split;
        [ intros i Hi k Hk; destruct (Nat.eq_dec i from) as [-> | Hne];
          [congruence | apply (Hnone i ltac:(lia) k Hk)]
        | rewrite Er; destruct n; reflexivity ] ].
Qed.

(** X19 (ChatClient.connect_to_server): at most three attempts are made,
    numbered 1 to 3.  The call succeeds exactly with the first attempt
    that connects, and leaves that socket with the ten-second timeout and
    the client marked connected; when none of the three connects it
    reports failure, holds no socket and leaves the connected flag as it
    was. *)
Theorem connect_to_server_tries_three_times
    (network : nat -> connect_result) (c : ChatClient) :
  (exists i k,
     (1 <= i <= 3)%nat /\ network i = Connects k /\
     (forall j, (1 <= j < i)%nat -> forall k', network j <> Connects k') /\
     connect_to_server network c
     = (Done true,
        set_is_connected true
          (set_client_socket
             (Some (snd (Socket.settimeout (Some 10) k))) c))) \/
  ((forall i, (1 <= i <= 3)%nat -> forall k, network i <> Connects k) /\
   connect_to_server network c = (Done false, set_client_socket None c)).
Proof.
  unfold connect_to_server, RETRY_ATTEMPTS.
  destruct (connect_attempts_spec network 3 1 c)
    as [(i & k & Hi & Ei & Hfirst & Er) | (Hnone & Er)].
  - left. exists i, k. split; [lia|]. split; [exact Ei|].
    split; [exact Hfirst | exact Er].
  - right. split; [|exact Er]. intros i Hi. apply Hnone. lia.
Qed.

(** ** The chat loop *)

Lemma disconnect_spec (c : ChatClient) :
  exists c',
    disconnect c = (Done tt, c') /\
    client_socket c' = None /\ is_connected c' = false /\
    is_running c' = false.
Proof.
  destruct c as [[k|] conn run buf];
    unfold disconnect, bind, modify, get, try_except, on_client_socket,
      Socket.close, ret; simpl; eexists; repeat split.
Qed.

Section Chat.

Variable lower_ext : Z -> pystr.

(** X20 (ChatClient.run, disconnect): however the chat loop ends, be it a
    quit directive, a refused or failed send, an interrupt or the end of
    the input, the client ends disconnected: it holds no socket and both
    of its flags are off. *)
Theorem run_chat_ends_disconnected
    (inputs : list input_event) (c : ChatClient) :
  fst (run_chat lower_ext inputs c) <> Blocked ->
  let c' := snd (run_chat lower_ext inputs c) in
  client_socket c' = None /\ is_connected c' = false /\
  is_running c' = false.
Proof.
  unfold run_chat, try_finally.
  destruct ((modify (set_is_running true) ;;
             handle_user_input lower_ext inputs)%monad c)
    as [[rest|e|] c1]; intros Hret; cbv zeta.
  - unfold bind. destruct (disconnect_spec c1) as (c2 & -> & H). exact H.
  - unfold bind. destruct (disconnect_spec c1) as (c2 & -> & H). exact H.
  - exfalso. apply Hret. reflexivity.
Qed.

(** X21 (ChatClient.send_message, handle_user_input): when the socket
    refuses the write of a typed line, nothing is transmitted, the client
    is marked as not connected, and the loop ends without reading what is
    typed after it. *)
Theorem failed_write_ends_the_loop
    (text : pystr) (rest : list input_event) (c : ChatClient)
    (k : tcp_socket) :
  is_running c = true -> is_connected c = true ->
  client_socket c = Some k -> Socket.writable k = false ->
  Py.strip text <> [] ->
  among (lower lower_ext (Py.strip text))
    (quit_directives ++ local_directives) = false ->
  Py.len (Py.strip text) <= ClientConfig.MAX_MESSAGE_SIZE ->
  exists c' k',
    handle_user_input lower_ext (Line text :: rest) c = (Done rest, c') /\
    is_connected c' = false /\
    client_socket c' = Some k' /\ outbox k' = outbox k.
Proof.
  intros Hrun Hconn Hk Hw Hne Hnone Hlen.
  rewrite (ClientFacts.handle_user_input_line lower_ext _ _ _ Hrun Hconn Hne).
  cbv zeta. unfold among in *. rewrite existsb_app in Hnone.
  apply orb_false_iff in Hnone as [-> ->].
  destruct (ServerFacts.send_unwritable (Py.strip text) k Hw)
    as (k' & Es & Hout & _).
  apply Z.ltb_ge in Hlen.
  assert (E : send_message (Py.strip text) c
              = (Done false,
                 set_is_connected false (set_client_socket (Some k') c))).
  { unfold send_message, try_except, bind, get, on_client_socket.
    rewrite Hconn, Hk, Hlen. simpl. rewrite Hk, Es. reflexivity. }
  rewrite E. exists (set_is_connected false (set_client_socket (Some k') c)), k'.
  split; [reflexivity|]. split; [reflexivity|].
  split; [reflexivity | exact Hout].
Qed.

(** X27 (ChatClient.handle_user_input): on an interrupt or at the end of
    the input a connected client whose socket takes the write transmits
    the line /quit, and the loop ends without reading further. *)
Theorem interrupt_sends_quit
    (ev : input_event) (rest : list input_event) (c : ChatClient)
    (k : tcp_socket) :
  is_running c = true -> is_connected c = true ->
  client_socket c = Some k -> Socket.writable k = true ->
  ev = KeyboardInterrupt \/ ev = EOFError ->
  handle_user_input lower_ext (ev :: rest) c
  = (Done rest, set_client_socket (Some (pushed (Py.lit "/quit") k)) c).
Proof.
  intros Hrun Hconn Hk Hw Hev.
  assert (Hquit : send_message (Py.lit "/quit") c
                  = (Done true,
                     set_client_socket (Some (pushed (Py.lit "/quit") k)) c)).
  { apply ClientFacts.send_message_sent; try assumption.
    vm_compute. discriminate. }
  destruct Hev as [-> | ->]; cbn [handle_user_input];
    rewrite Hrun, Hconn; cbn [andb negb]; unfold bind; rewrite Hquit;
    reflexivity.
Qed.

End Chat.

(** ** The thread that receives *)

(** X29 (ChatClient.receive_messages): one pass of the receiving loop on
    a running, connected client.  A text is shown and the loop goes on; a
    timeout changes nothing and the loop goes on; every other read (the
    peer has closed, a reset, another socket error, bytes that do not
    decode) ends the loop with nothing shown and the client marked as not
    connected. *)
Theorem receive_messages_pass_cases
    (line_buffer : option pystr) (c : ChatClient) (screen : list pystr)
    (k : tcp_socket) :
  is_running c = true -> is_connected c = true ->
  client_socket c = Some k -> closed k = false ->
  match inbox k with
  | [] =>
      timeout k <> None ->
      ClientReceiver.receive_messages_pass line_buffer (c, screen)
      = (Done Continue, (c, screen))
  | ev :: rest =>
      exists c',
        ClientReceiver.receive_messages_pass line_buffer (c, screen)
        = (Done (if ends_session ev then Break else Continue),
           (c', match ev with
                | Arrives (Utf8 (x :: text)) => screen ++ [x :: text]
                | _ => screen
                end)) /\
        is_connected c' = negb (ends_session ev) /\
        is_running c' = true /\
        exists k', client_socket c' = Some k' /\ inbox k' = rest /\
                   outbox k' = outbox k
  end.
Proof.
  intros Hrun Hconn Hk Hcl.
  destruct c as [sock conn run buf]. simpl in *. subst sock conn run.
  destruct k as [inb scr out tmo cl]. simpl in *. subst cl.
  unfold ClientReceiver.receive_messages_pass, try_except, bind,
    ClientReceiver.on_client, ClientReceiver.show, focus, on_client_socket,
    Socket.recv, decode, get, modify, ret.
  destruct inb as [|ev rest]; simpl.
  - intros Hto. destruct tmo; [reflexivity | congruence].
  - destruct ev as [[[|x text]|]| |]; simpl.
    + eexists. split; [reflexivity|]. repeat split. eexists. repeat split.
    + destruct line_buffer as [[|b0 b]|]; simpl;
        [| |destruct buf as [|b0 b]; simpl];
        (eexists; split; [reflexivity|]; repeat split;
         eexists; repeat split).
    + eexists. split; [reflexivity|]. repeat split. eexists. repeat split.
    + eexists. split; [reflexivity|]. repeat split. eexists. repeat split.
    + eexists. split; [reflexivity|]. repeat split. eexists. repeat split.
Qed.

Lemma run_chat_ends_disconnected_witness :
  client_socket
    (snd (run_chat Demo.unchanged [Line (Py.lit "hello"); KeyboardInterrupt]
            Demo.client))
  = None.
Proof.
  exact (proj1 (run_chat_ends_disconnected Demo.unchanged
                  [Line (Py.lit "hello"); KeyboardInterrupt] Demo.client
                  ltac:(vm_compute; discriminate))).
Defined.

Lemma failed_write_ends_the_loop_witness :
  exists c' k',
    handle_user_input Demo.unchanged
      [Line (Py.lit "hello"); Line (Py.lit "again")]
      (set_client_socket
         (Some {| inbox := []; send_script := [Refused]; outbox := [];
                  timeout := None; closed := false |}) Demo.client)
    = (Done [Line (Py.lit "again")], c') /\
    is_connected c' = false /\
    client_socket c' = Some k' /\ outbox k' = [].
Proof.
  apply (failed_write_ends_the_loop Demo.unchanged (Py.lit "hello")
           [Line (Py.lit "again")]
           (set_client_socket
              (Some {| inbox := []; send_script := [Refused]; outbox := [];
                       timeout := None; closed := false |}) Demo.client)
           {| inbox := []; send_script := [Refused]; outbox := [];
              timeout := None; closed := false |});
    [reflexivity | reflexivity | reflexivity | reflexivity
    | vm_compute; discriminate | vm_compute; reflexivity
    | vm_compute; discriminate].
Defined.

Lemma interrupt_sends_quit_witness :
  handle_user_input Demo.unchanged [EOFError; Line (Py.lit "late")] Demo.client
  = (Done [Line (Py.lit "late")],
     set_client_socket (Some (pushed (Py.lit "/quit") (Demo.peer [])))
       Demo.client).
Proof.
  apply (interrupt_sends_quit Demo.unchanged EOFError [Line (Py.lit "late")]
           Demo.client (Demo.peer []));
    [reflexivity | reflexivity | reflexivity | reflexivity
    | right; reflexivity].
Defined.

Lemma receive_messages_pass_cases_witness :
  exists c',
    ClientReceiver.receive_messages_pass None
      (set_client_socket (Some (Demo.peer [Arrives Undecodable])) Demo.client,
       [])
    = (Done Break, (c', [])) /\
    is_connected c' = false.
Proof.
  destruct (receive_messages_pass_cases None
              (set_client_socket (Some (Demo.peer [Arrives Undecodable]))
                 Demo.client)
              [] (Demo.peer [Arrives Undecodable])
              eq_refl eq_refl eq_refl eq_refl)
    as (c' & E & Hconn & _).
  exists c'. split; [exact E | exact Hconn].
Defined.

End ClientExtras.
